(** * Finance store: a shallow embedding of [src/store/financeStore.ts]

    The store keeps an in-memory projection (Zustand state) of a local SQLite
    database and republishes it after every mutating action.  The embedding
    follows the source action by action:

    - the SQLite tables are lists of rows (order and duplicates matter);
    - each SQL statement of the source is a pure function on the tables;
    - the actions are written in a small exception/state monad over a
      [World]: the Zustand state, the database behind the [db] handle, a
      fault schedule deciding which database call rejects, the console log
      and the wall clock read by [new Date()].

    Failures: every awaited call on the [db] handle consumes one flag of
    the fault schedule; a flagged call rejects and leaves the tables as they
    were.  The schedule is arbitrary, so the statements below hold whatever
    the reason of a rejection.

    Numbers: the amounts, the totals and the percentages the store
    computes with are JavaScript [number]s, that is IEEE 754 binary64
    values; they are Rocq's primitive [float]s, with [-], [/], [*] and [>]
    as the processor has them and [Math.round] defined on the exact value
    of its argument.  Row ids and the 0/1 flag [is_me] are integers ([Z]),
    and so are the budget limits and the split-bill amounts, which the
    store hands through without computing on them.  Two functions belong
    to the database engine and are parameters of the model: SQLite's
    [strftime('%Y-%m', _)] and its aggregate [SUM]. *)

From Stdlib Require Import ZArith List String Ascii Bool Lia.
From Stdlib Require Import Floats DecimalString.
From Stdlib Require Import Sorting.Sorted Sorting.Permutation OrderedTypeEx DecimalZ.
Import ListNotations.
Open Scope string_scope.
Open Scope list_scope.
Open Scope Z_scope.

(* ================================================================== *)
(** * Data model ([src/store/types.ts])                                *)
(* ================================================================== *)

Inductive TransactionType : Type := expense | income.

Definition TransactionType_eqb (a b : TransactionType) : bool :=
  match a, b with
  | expense, expense | income, income => true
  | _, _ => false
  end.

(** [type = 'income'] / [type = 'expense'] on a nullable column: a NULL
    never compares equal. *)
Definition type_is (ty : TransactionType) (o : option TransactionType) : bool :=
  match o with
  | Some ty' => TransactionType_eqb ty' ty
  | None => false
  end.

Definition is_null {A : Type} (o : option A) : bool :=
  match o with Some _ => false | None => true end.

(** A row of table [categories]. *)
Record CategoryRow : Type := mkCategoryRow {
  cr_id : Z;
  cr_name : string;
  cr_icon : string;
  cr_color : string;
  cr_budget_limit : Z;
  cr_category_type : option TransactionType
}.

(** [Category]: a category as held in memory, with the two derived fields
    [totalSpent?] and [percentage?]. *)
Record Category : Type := mkCategory {
  cat_id : Z;
  cat_name : string;
  cat_icon : string;
  cat_color : string;
  cat_budget_limit : Z;
  cat_category_type : option TransactionType;
  cat_totalSpent : option float;
  cat_percentage : option float
}.

(** [Partial<Category>]: every field optional. *)
Record PartialCategory : Type := mkPartialCategory {
  pc_id : option Z;
  pc_name : option string;
  pc_icon : option string;
  pc_color : option string;
  pc_budget_limit : option Z;
  pc_category_type : option TransactionType;
  pc_totalSpent : option float;
  pc_percentage : option float
}.

(** [Omit<Category, 'id'>], as far as [addCategory] reads it. *)
Record NewCategory : Type := mkNewCategory {
  nc_name : string;
  nc_icon : string;
  nc_color : string;
  nc_budget_limit : Z;
  nc_category_type : option TransactionType
}.

(** A row of table [transactions]. *)
Record TxRow : Type := mkTxRow {
  tx_id : Z;
  tx_category_id : Z;
  tx_amount : float;
  tx_date : string;
  tx_note : string;
  tx_image_uri : option string;
  tx_type : option TransactionType;
  tx_created_at : option Z
}.

(** [Transaction]: the columns [t.*] plus the three joined category
    fields. *)
Record Transaction : Type := mkTransaction {
  t_row : TxRow;
  category_name : option string;
  category_icon : option string;
  category_color : option string
}.

(** The argument of [addTransaction]:
    [Omit<Transaction, 'id' | 'created_at' | 'category_*'>]. *)
Record NewTransaction : Type := mkNewTransaction {
  nt_category_id : Z;
  nt_amount : float;
  nt_date : string;
  nt_note : string;
  nt_type : option TransactionType;
  nt_image_uri : option string
}.

(** A row of table [split_bills]; [fetchSplitBills] publishes the rows as
    they are ([members?] is never filled in by the store). *)
Record SplitBill : Type := mkSplitBill {
  sb_id : Z;
  sb_date : string;
  sb_name : string;
  sb_total_amount : Z;
  sb_image_uri : option string;
  sb_created_at : option Z
}.

Record NewSplitBill : Type := mkNewSplitBill {
  nb_date : string;
  nb_name : string;
  nb_total_amount : Z;
  nb_image_uri : option string
}.

(** A row of table [split_bill_members]; [is_me] is stored as 0/1. *)
Record MemberRow : Type := mkMemberRow {
  m_id : Z;
  m_split_bill_id : Z;
  m_name : string;
  m_share_amount : Z;
  m_is_me : Z
}.

(** [Omit<SplitBillMember, 'id' | 'split_bill_id'>]. *)
Record NewMember : Type := mkNewMember {
  nm_name : string;
  nm_share_amount : Z;
  nm_is_me : bool
}.

(** The part of a [Date] the store reads. *)
Record JsDate : Type := mkJsDate {
  getFullYear : Z;
  getMonth : Z          (* 0 .. 11 *)
}.

(* ================================================================== *)
(** * The database behind the [db] handle                              *)
(* ================================================================== *)

Record DB : Type := mkDB {
  categories_tbl : list CategoryRow;
  transactions_tbl : list TxRow;
  split_bills_tbl : list SplitBill;
  split_bill_members_tbl : list MemberRow
}.

Definition with_categories_tbl (l : list CategoryRow) (d : DB) : DB :=
  mkDB l (transactions_tbl d) (split_bills_tbl d) (split_bill_members_tbl d).
Definition with_transactions_tbl (l : list TxRow) (d : DB) : DB :=
  mkDB (categories_tbl d) l (split_bills_tbl d) (split_bill_members_tbl d).
Definition with_split_bills_tbl (l : list SplitBill) (d : DB) : DB :=
  mkDB (categories_tbl d) (transactions_tbl d) l (split_bill_members_tbl d).
Definition with_split_bill_members_tbl (l : list MemberRow) (d : DB) : DB :=
  mkDB (categories_tbl d) (transactions_tbl d) (split_bills_tbl d) l.

(** The rowid SQLite gives to an inserted row: one more than the largest
    rowid in the table, 1 for an empty table. *)
Definition next_rowid (ids : list Z) : Z := 1 + fold_right Z.max 0 ids.

(** Generic [ORDER BY]: insertion sort for a "comes first" test. *)
Fixpoint insert_by {A : Type} (before : A -> A -> bool) (x : A) (l : list A) : list A :=
  match l with
  | [] => [x]
  | y :: l' => if before x y then x :: y :: l' else y :: insert_by before x l'
  end.

Fixpoint order_by {A : Type} (before : A -> A -> bool) (l : list A) : list A :=
  match l with
  | [] => []
  | x :: l' => insert_by before x (order_by before l')
  end.

(** [ORDER BY date DESC, id DESC] on a (date, id) key; text compares by
    code point as under SQLite's BINARY collation. *)
Definition date_desc_id_desc (d1 : string) (i1 : Z) (d2 : string) (i2 : Z) : bool :=
  match String.compare d1 d2 with
  | Gt => true
  | Lt => false
  | Eq => i2 <=? i1
  end.

(** A well-formed [strftime('%Y-%m', d)] for the dates the screens write
    ([Date.toISOString()], "YYYY-MM-DDTHH:mm:ss.sssZ"): the first seven
    characters.  Used for the concrete runs only; the store is modelled
    for any such function (see [Section Store]). *)
Definition iso_strftime_Ym (d : string) : option string :=
  if (10 <=? String.length d)%nat then Some (substring 0 7 d) else None.

(** A [SUM] over doubles that adds the values one after the other, in
    the order of the rows.  Used for the concrete runs only; the store is
    modelled for any aggregate (see [Section Store]). *)
Definition sum_in_order (amounts : list float) : float :=
  fold_left PrimFloat.add amounts 0%float.

(* ================================================================== *)
(** * JavaScript helpers used by the actions                           *)
(* ================================================================== *)

(** [x || ''] on an optional string: [undefined] and [''] both give ['']. *)
Definition or_empty (o : option string) : string :=
  match o with Some s => s | None => "" end.

(** [x || 0] on a whole number. *)
Definition or_zero (v : Z) : Z := if v =? 0 then 0 else v.

(** [Number.isNaN]: NaN is the one double that differs from itself. *)
Definition is_NaN (x : float) : bool := negb (PrimFloat.eqb x x).

(** [!x] on a double: 0, -0 and NaN are the falsy ones. *)
Definition falsy (x : float) : bool := PrimFloat.eqb x 0%float || is_NaN x.

(** [x || 0] on a double. *)
Definition or_zero_num (x : float) : float := if falsy x then 0%float else x.

(** [row?.total || 0] on the result of [getFirstAsync]. *)
Definition total_or_zero (o : option float) : float :=
  match o with Some v => or_zero_num v | None => 0%float end.

(** [x || 'expense'] and [x ?? 'expense'] on an optional type tag. *)
Definition or_expense (o : option TransactionType) : TransactionType :=
  match o with Some ty => ty | None => expense end.

(** The double that holds the integer [n] (exact for |n| <= 2^53). *)
Definition number_of_Z (n : Z) : float :=
  if n <? 0 then PrimFloat.opp (PrimFloat.of_uint63 (Uint63.of_Z (- n)))
  else PrimFloat.of_uint63 (Uint63.of_Z n).

(** [Math.round]: the integer nearest to the exact value of the double,
    halves going up; NaN, the infinities, the zeros and the doubles that
    are integers already (exponent not negative) are returned as they
    are, and a negative argument that rounds to zero gives [-0].  A
    finite double is [m * 2^e] with its sign, so [floor (x + 1/2)] is an
    exact integer division. *)
Definition Math_round (x : float) : float :=
  match Prim2SF x with
  | S754_finite s m e =>
      if 0 <=? e then x
      else
        let n := (2 * (if s then Z.neg m else Z.pos m) + 2 ^ (- e)) / 2 ^ (1 - e) in
        if (n =? 0) && s then (-0)%float else number_of_Z n
  | _ => x
  end.

(** [String(n)] for an integer [n]. *)
Definition String_of_Z (n : Z) : string := NilZero.string_of_int (Z.to_int n).

(** [s.padStart(2, '0')]. *)
Definition padStart2 (s : string) : string :=
  match String.length s with
  | O => "00"
  | S O => "0" ++ s
  | _ => s
  end%string.

(** [`${d.getFullYear()}-${String(d.getMonth() + 1).padStart(2, '0')}`] *)
Definition yearMonth_of (targetDate : JsDate) : string :=
  (String_of_Z (getFullYear targetDate) ++ "-"
     ++ padStart2 (String_of_Z (getMonth targetDate + 1)))%string.

(** What [SELECT * FROM categories] hands to JavaScript for one row: the
    derived fields are absent. *)
Definition category_of_row (r : CategoryRow) : Category :=
  mkCategory (cr_id r) (cr_name r) (cr_icon r) (cr_color r)
             (cr_budget_limit r) (cr_category_type r) None None.

(** [totalExpense > 0 ? Math.round((catTotal / totalExpense) * 100) : 0] *)
Definition percentage_of (catTotal totalExpense : float) : float :=
  if PrimFloat.ltb 0%float totalExpense
  then Math_round (PrimFloat.mul (PrimFloat.div catTotal totalExpense) 100%float)
  else 0%float.

(** [{ ...cat, totalSpent: catTotal, percentage }] *)
Definition with_stats (cat : Category) (catTotal percentage : float) : Category :=
  mkCategory (cat_id cat) (cat_name cat) (cat_icon cat) (cat_color cat)
             (cat_budget_limit cat) (cat_category_type cat)
             (Some catTotal) (Some percentage).

(** [breakdownResult.find(b => b.category_id === id)?.total || 0] *)
Definition find_total (breakdownResult : list (Z * float)) (id : Z) : float :=
  total_or_zero (option_map snd (find (fun b => fst b =? id) breakdownResult)).

(* ================================================================== *)
(** * The Zustand state and the world around it                        *)
(* ================================================================== *)

Record FinanceState : Type := mkFinanceState {
  transactions : list Transaction;
  categories : list Category;
  splitBills : list SplitBill;
  balance : float;
  totalIncome : float;
  totalExpense : float;
  totalMonth : float;
  isLoading : bool
}.

(** The initial state of [create<FinanceState>]. *)
Definition initial_state : FinanceState :=
  mkFinanceState [] [] [] 0%float 0%float 0%float 0%float false.

(** The seven data fields (everything but the busy flag). *)
Definition data_fields (s : FinanceState) :=
  (transactions s, categories s, splitBills s,
   balance s, totalMonth s, totalIncome s, totalExpense s).

(** The partial objects passed to [set]. *)
Definition set_categories (l : list Category) (s : FinanceState) : FinanceState :=
  mkFinanceState (transactions s) l (splitBills s) (balance s)
                 (totalIncome s) (totalExpense s) (totalMonth s) (isLoading s).
Definition set_transactions (l : list Transaction) (s : FinanceState) : FinanceState :=
  mkFinanceState l (categories s) (splitBills s) (balance s)
                 (totalIncome s) (totalExpense s) (totalMonth s) (isLoading s).
Definition set_splitBills (l : list SplitBill) (s : FinanceState) : FinanceState :=
  mkFinanceState (transactions s) (categories s) l (balance s)
                 (totalIncome s) (totalExpense s) (totalMonth s) (isLoading s).
Definition set_isLoading (b : bool) (s : FinanceState) : FinanceState :=
  mkFinanceState (transactions s) (categories s) (splitBills s) (balance s)
                 (totalIncome s) (totalExpense s) (totalMonth s) b.
(** [{ balance, totalMonth: balance, totalIncome, totalExpense, categories }] *)
Definition set_summary (bal inc exp : float) (l : list Category) (s : FinanceState)
  : FinanceState :=
  mkFinanceState (transactions s) l (splitBills s) bal inc exp bal (isLoading s).

(** [faults]: one flag per database call still to come, [true] for a call
    that rejects; past the end of the list every call succeeds.
    [console]: the [console.error] lines, newest first, as (message, error).
    [clock]: what [new Date()] returns.  [publications]: how many times
    [set] has been called. *)
Record World : Type := mkWorld {
  store : FinanceState;
  db : DB;
  faults : list bool;
  console : list (string * string);
  clock : JsDate;
  publications : nat
}.

Inductive Outcome (A : Type) : Type :=
| Returned (a : A)
| Thrown (error : string).
Arguments Returned {A} a.
Arguments Thrown {A} error.

(** An [async] computation: runs on a world, returns or throws. *)
Definition M (A : Type) : Type := World -> Outcome A * World.

Definition ret {A : Type} (a : A) : M A := fun w => (Returned a, w).

Definition bind {A B : Type} (m : M A) (k : A -> M B) : M B :=
  fun w =>
    match m w with
    | (Returned a, w') => k a w'
    | (Thrown e, w') => (Thrown e, w')
    end.

Notation "x <- m ;; k" := (bind m (fun x => k))
  (at level 61, m at next level, right associativity).
Notation "m ;;; k" := (bind m (fun _ => k))
  (at level 61, right associativity).

(** [try { body } catch (error) { handler }] *)
Definition try_catch (body : M unit) (handler : string -> M unit) : M unit :=
  fun w =>
    match body w with
    | (Returned a, w') => (Returned a, w')
    | (Thrown e, w') => handler e w'
    end.

(** [try { body } catch (error) { handler } finally { fin }] *)
Definition try_catch_finally (body : M unit) (handler : string -> M unit)
           (fin : M unit) : M unit :=
  fun w =>
    match try_catch body handler w with
    | (Returned _, w') => fin w'
    | (Thrown e, w') =>
        match fin w' with
        | (Returned _, w'') => (Thrown e, w'')
        | (Thrown e', w'') => (Thrown e', w'')
        end
    end.

(** [get()] *)
Definition get : M FinanceState := fun w => (Returned (store w), w).

(** [set(partial)] *)
Definition set (partial : FinanceState -> FinanceState) : M unit :=
  fun w => (Returned tt,
            mkWorld (partial (store w)) (db w) (faults w) (console w) (clock w)
                    (S (publications w))).

(** [console.error(message, error)] *)
Definition console_error (message error : string) : M unit :=
  fun w => (Returned tt,
            mkWorld (store w) (db w) (faults w) ((message, error) :: console w)
                    (clock w) (publications w)).

(** [new Date()] *)
Definition new_Date : M JsDate := fun w => (Returned (clock w), w).

(** One awaited call on the [db] handle.  The next fault flag decides
    whether the promise rejects; a rejected statement changes no table. *)
Definition db_call {A : Type} (stmt : DB -> A * DB) : M A :=
  fun w =>
    if hd false (faults w)
    then (Thrown "SQLiteError",
          mkWorld (store w) (db w) (tl (faults w)) (console w) (clock w)
                  (publications w))
    else (Returned (fst (stmt (db w))),
          mkWorld (store w) (snd (stmt (db w))) (tl (faults w)) (console w)
                  (clock w) (publications w)).

(** [db.runAsync]: resolves to the [lastInsertRowId] of the statement. *)
Definition runAsync (stmt : DB -> Z * DB) : M Z := db_call stmt.
(** [db.getAllAsync] *)
Definition getAllAsync {A : Type} (query : DB -> list A) : M (list A) :=
  db_call (fun d => (query d, d)).
(** [db.getFirstAsync] *)
Definition getFirstAsync {A : Type} (query : DB -> list A) : M (option A) :=
  db_call (fun d => (hd_error (query d), d)).

(** [for (const x of xs) { await body(x) }] *)
Fixpoint for_of {A : Type} (xs : list A) (body : A -> M unit) : M unit :=
  match xs with
  | [] => ret tt
  | x :: xs' => body x ;;; for_of xs' body
  end.

(* ================================================================== *)
(** * The SQL statements and the actions of [useFinanceStore]          *)
(* ================================================================== *)

Section Store.

(** SQLite's [strftime('%Y-%m', date)]: the year-month of a date text, NULL
    ([None]) for a text that is no date.  It belongs to the database
    engine; the store is modelled for any such function. *)
Variable strftime_Ym : string -> option string.

(** SQLite's aggregate [SUM] over the amounts of the selected rows, at
    least one, in the order of the table.  How the engine adds doubles up
    is its own business; the store is modelled for any such aggregate. *)
Variable sql_sum : list float -> float.

(** ** Statements on [categories] *)

(** [SELECT * FROM categories] *)
Definition sql_select_categories (d : DB) : list CategoryRow := categories_tbl d.

(** [INSERT INTO categories (name, icon, color, budget_limit, category_type)
     VALUES (?, ?, ?, ?, ?)] *)
Definition sql_insert_category (name icon color : string) (budget_limit : Z)
           (category_type : TransactionType) (d : DB) : Z * DB :=
  let id := next_rowid (map cr_id (categories_tbl d)) in
  (id, with_categories_tbl
         (categories_tbl d
            ++ [mkCategoryRow id name icon color budget_limit (Some category_type)]) d).

(** [UPDATE categories SET name = ?, icon = ?, color = ? WHERE id = ?] *)
Definition sql_update_category (name icon color : string) (id : Z) (d : DB) : Z * DB :=
  (0, with_categories_tbl
        (map (fun r => if cr_id r =? id
                       then mkCategoryRow (cr_id r) name icon color
                                          (cr_budget_limit r) (cr_category_type r)
                       else r)
             (categories_tbl d)) d).

(** [DELETE FROM categories WHERE id = ?] *)
Definition sql_delete_category (id : Z) (d : DB) : Z * DB :=
  (0, with_categories_tbl
        (filter (fun r => negb (cr_id r =? id)) (categories_tbl d)) d).

(** ** Statements on [transactions] *)

(** [DELETE FROM transactions WHERE category_id = ?] *)
Definition sql_delete_transactions_of_category (id : Z) (d : DB) : Z * DB :=
  (0, with_transactions_tbl
        (filter (fun t => negb (tx_category_id t =? id)) (transactions_tbl d)) d).

(** [INSERT INTO transactions (category_id, amount, date, note, image_uri,
     type) VALUES (?, ?, ?, ?, ?, ?)]; [created_at] is left to the column
    default, which the store never reads. *)
Definition sql_insert_transaction (category_id : Z) (amount : float)
           (date note : string) (image_uri : option string) (type : TransactionType)
           (d : DB) : Z * DB :=
  let id := next_rowid (map tx_id (transactions_tbl d)) in
  (id, with_transactions_tbl
         (transactions_tbl d
            ++ [mkTxRow id category_id amount date note image_uri (Some type) None]) d).

(** [DELETE FROM transactions WHERE id = ?] *)
Definition sql_delete_transaction (id : Z) (d : DB) : Z * DB :=
  (0, with_transactions_tbl
        (filter (fun t => negb (tx_id t =? id)) (transactions_tbl d)) d).

(** One output row of [transactions t JOIN categories c]. *)
Definition joined (t : TxRow) (c : CategoryRow) : Transaction :=
  mkTransaction t (Some (cr_name c)) (Some (cr_icon c)) (Some (cr_color c)).

(** [FROM transactions t JOIN categories c ON t.category_id = c.id] *)
Definition sql_join (d : DB) : list Transaction :=
  flat_map (fun t =>
              map (joined t)
                  (filter (fun c => tx_category_id t =? cr_id c) (categories_tbl d)))
           (transactions_tbl d).

Definition recent_first (a b : Transaction) : bool :=
  date_desc_id_desc (tx_date (t_row a)) (tx_id (t_row a))
                    (tx_date (t_row b)) (tx_id (t_row b)).

(** [SELECT t.*, c.name as category_name, c.icon as category_icon,
            c.color as category_color
     FROM transactions t JOIN categories c ON t.category_id = c.id
     ORDER BY t.date DESC, t.id DESC LIMIT 20] *)
Definition sql_recent_transactions (d : DB) : list Transaction :=
  firstn 20 (order_by recent_first (sql_join d)).

(** [strftime('%Y-%m', date) = ?] *)
Definition in_month (ym : string) (t : TxRow) : bool :=
  match strftime_Ym (tx_date t) with
  | Some s => String.eqb s ym
  | None => false
  end.

(** [strftime('%Y-%m', date) = ? AND (type = 'expense' OR type IS NULL)] *)
Definition expense_in_month (ym : string) (t : TxRow) : bool :=
  in_month ym t && (type_is expense (tx_type t) || is_null (tx_type t)).

(** [strftime('%Y-%m', date) = ? AND type = 'income'] *)
Definition income_in_month (ym : string) (t : TxRow) : bool :=
  in_month ym t && type_is income (tx_type t).

(** [COALESCE(SUM(amount), 0)]: [SUM] is NULL when no row is selected. *)
Definition sql_coalesce_sum (amounts : list float) : float :=
  match amounts with
  | [] => 0%float
  | _ :: _ => sql_sum amounts
  end.

(** [SELECT COALESCE(SUM(amount), 0) as total FROM transactions
     WHERE strftime('%Y-%m', date) = ? AND (type = 'expense' OR type IS NULL)]:
    always exactly one row. *)
Definition sql_total_expense (ym : string) (d : DB) : list float :=
  [sql_coalesce_sum
     (map tx_amount (filter (expense_in_month ym) (transactions_tbl d)))].

(** [SELECT COALESCE(SUM(amount), 0) as total FROM transactions
     WHERE strftime('%Y-%m', date) = ? AND type = 'income'] *)
Definition sql_total_income (ym : string) (d : DB) : list float :=
  [sql_coalesce_sum
     (map tx_amount (filter (income_in_month ym) (transactions_tbl d)))].

(** [SELECT category_id, SUM(amount) as total FROM transactions
     WHERE strftime('%Y-%m', date) = ? AND (type = 'expense' OR type IS NULL)
     GROUP BY category_id]: one row (category_id, total) per category id
    that occurs among the selected rows. *)
Definition sql_breakdown (ym : string) (d : DB) : list (Z * float) :=
  let rows := filter (expense_in_month ym) (transactions_tbl d) in
  map (fun k =>
         (k, sql_sum (map tx_amount (filter (fun t => tx_category_id t =? k) rows))))
      (nodup Z.eq_dec (map tx_category_id rows)).

(** ** Statements on [split_bills] and [split_bill_members] *)

Definition bill_first (a b : SplitBill) : bool :=
  date_desc_id_desc (sb_date a) (sb_id a) (sb_date b) (sb_id b).

(** [SELECT * FROM split_bills ORDER BY date DESC, id DESC] *)
Definition sql_select_split_bills (d : DB) : list SplitBill :=
  order_by bill_first (split_bills_tbl d).

(** [INSERT INTO split_bills (name, date, total_amount, image_uri)
     VALUES (?, ?, ?, ?)] *)
Definition sql_insert_split_bill (name date : string) (total_amount : Z)
           (image_uri : option string) (d : DB) : Z * DB :=
  let id := next_rowid (map sb_id (split_bills_tbl d)) in
  (id, with_split_bills_tbl
         (split_bills_tbl d ++ [mkSplitBill id date name total_amount image_uri None]) d).

(** [INSERT INTO split_bill_members (split_bill_id, name, share_amount, is_me)
     VALUES (?, ?, ?, ?)] *)
Definition sql_insert_member (split_bill_id : Z) (name : string)
           (share_amount is_me : Z) (d : DB) : Z * DB :=
  let id := next_rowid (map m_id (split_bill_members_tbl d)) in
  (id, with_split_bill_members_tbl
         (split_bill_members_tbl d
            ++ [mkMemberRow id split_bill_id name share_amount is_me]) d).

(** [DELETE FROM split_bills WHERE id = ?] *)
Definition sql_delete_split_bill (id : Z) (d : DB) : Z * DB :=
  (0, with_split_bills_tbl
        (filter (fun b => negb (sb_id b =? id)) (split_bills_tbl d)) d).

(** ** Category actions *)

Definition fetchCategories : M unit :=
  try_catch
    (result <- getAllAsync sql_select_categories ;;
     set (set_categories (map category_of_row result)))
    (console_error "[FinanceStore] Error fetching categories:").

Definition addCategory (category : NewCategory) : M unit :=
  try_catch
    (runAsync (sql_insert_category (nc_name category) (nc_icon category)
                 (nc_color category) (or_zero (nc_budget_limit category))
                 (or_expense (nc_category_type category))) ;;;
     get ;;; fetchCategories)
    (console_error "[FinanceStore] Error adding category:").

Definition updateCategory (id : Z) (category : PartialCategory) : M unit :=
  try_catch
    (runAsync (sql_update_category (or_empty (pc_name category))
                 (or_empty (pc_icon category)) (or_empty (pc_color category)) id) ;;;
     get ;;; fetchCategories)
    (console_error "[FinanceStore] Error updating category:").

Definition deleteCategory (id : Z) : M unit :=
  try_catch
    (runAsync (sql_delete_transactions_of_category id) ;;;
     runAsync (sql_delete_category id) ;;;
     get ;;; fetchCategories)
    (console_error "[FinanceStore] Error deleting category:").

(** ** Transaction actions *)

Definition fetchRecentTransactions : M unit :=
  try_catch
    (result <- getAllAsync sql_recent_transactions ;;
     set (set_transactions result))
    (console_error "[FinanceStore] Error fetching transactions:").

(** ** Summary *)

Definition calculateMonthSummary (selectedMonth : option JsDate) : M unit :=
  try_catch
    (targetDate <- match selectedMonth with
                   | Some m => ret m
                   | None => new_Date
                   end ;;
     let yearMonth := yearMonth_of targetDate in
     expenseResult <- getFirstAsync (sql_total_expense yearMonth) ;;
     incomeResult <- getFirstAsync (sql_total_income yearMonth) ;;
     let totalExpense := total_or_zero expenseResult in
     let totalIncome := total_or_zero incomeResult in
     let balance := PrimFloat.sub totalIncome totalExpense in
     breakdownResult <- getAllAsync (sql_breakdown yearMonth) ;;
     s <- get ;;
     let categoriesWithStats :=
       map (fun cat =>
              let catTotal := find_total breakdownResult (cat_id cat) in
              let percentage := percentage_of catTotal totalExpense in
              with_stats cat catTotal percentage)
           (categories s) in
     set (set_summary balance totalIncome totalExpense categoriesWithStats))
    (console_error "[FinanceStore] Error calculating summary:").

(** Backward compat alias. *)
Definition calculateTotalMonth (selectedMonth : option JsDate) : M unit :=
  get ;;; calculateMonthSummary selectedMonth.

Definition addTransaction (transaction : NewTransaction) : M unit :=
  set (set_isLoading true) ;;;
  try_catch_finally
    (runAsync (sql_insert_transaction (nt_category_id transaction)
                 (nt_amount transaction) (nt_date transaction) (nt_note transaction)
                 (nt_image_uri transaction) (or_expense (nt_type transaction))) ;;;
     get ;;; fetchRecentTransactions ;;;
     get ;;; calculateMonthSummary None)
    (console_error "[FinanceStore] Error adding transaction:")
    (set (set_isLoading false)).

(** Backward compat alias. *)
Definition addExpense (transaction : NewTransaction) : M unit :=
  get ;;; addTransaction transaction.

Definition deleteTransaction (id : Z) : M unit :=
  try_catch
    (runAsync (sql_delete_transaction id) ;;;
     get ;;; fetchRecentTransactions ;;;
     get ;;; calculateMonthSummary None)
    (console_error "[FinanceStore] Error deleting transaction:").

(** ** Split bill actions *)

Definition fetchSplitBills : M unit :=
  try_catch
    (bills <- getAllAsync sql_select_split_bills ;;
     set (set_splitBills bills))
    (console_error "[FinanceStore] Error fetching split bills:").

Definition addSplitBill (bill : NewSplitBill) (members : list NewMember) : M unit :=
  try_catch
    (billId <- runAsync (sql_insert_split_bill (nb_name bill) (nb_date bill)
                           (nb_total_amount bill) (nb_image_uri bill)) ;;
     for_of members (fun member =>
       runAsync (sql_insert_member billId (nm_name member) (nm_share_amount member)
                   (if nm_is_me member then 1 else 0)) ;;; ret tt) ;;;
     get ;;; fetchSplitBills)
    (console_error "[FinanceStore] Error adding split bill:").

Definition deleteSplitBill (id : Z) : M unit :=
  try_catch
    (runAsync (sql_delete_split_bill id) ;;;
     get ;;; fetchSplitBills)
    (console_error "[FinanceStore] Error deleting split bill:").

(** ** The action set of the store *)

Inductive Action : Type :=
| FetchCategories
| AddCategory (category : NewCategory)
| UpdateCategory (id : Z) (category : PartialCategory)
| DeleteCategory (id : Z)
| AddTransaction (transaction : NewTransaction)
| FetchRecentTransactions
| DeleteTransaction (id : Z)
| CalculateMonthSummary (selectedMonth : option JsDate)
| FetchSplitBills
| AddSplitBill (bill : NewSplitBill) (members : list NewMember)
| DeleteSplitBill (id : Z).

Definition run (a : Action) : M unit :=
  match a with
  | FetchCategories => fetchCategories
  | AddCategory c => addCategory c
  | UpdateCategory id c => updateCategory id c
  | DeleteCategory id => deleteCategory id
  | AddTransaction t => addTransaction t
  | FetchRecentTransactions => fetchRecentTransactions
  | DeleteTransaction id => deleteTransaction id
  | CalculateMonthSummary m => calculateMonthSummary m
  | FetchSplitBills => fetchSplitBills
  | AddSplitBill b ms => addSplitBill b ms
  | DeleteSplitBill id => deleteSplitBill id
  end.

End Store.

(* ================================================================== *)
(** * Vocabulary of the statements below                               *)
(* ================================================================== *)

(** The next [n] database calls all succeed. *)
Fixpoint succeed (n : nat) (fs : list bool) : bool :=
  match n with
  | O => true
  | S n' => negb (hd false fs) && succeed n' (tl fs)
  end.

(** The date a summary is computed for: [selectedMonth || new Date()]. *)
Definition target_date (selectedMonth : option JsDate) (w : World) : JsDate :=
  match selectedMonth with
  | Some m => m
  | None => clock w
  end.

Section Totals.

Variable strftime_Ym : string -> option string.
Variable sql_sum : list float -> float.

(** What the summary makes of the database's sum over [rows]: the
    [COALESCE(SUM(amount), 0)], then [|| 0]. *)
Definition total_of (rows : list TxRow) : float :=
  or_zero_num (sql_coalesce_sum sql_sum (map tx_amount rows)).

(** The total of the rows of category [k] among [rows]. *)
Definition spent_of (rows : list TxRow) (k : Z) : float :=
  total_of (filter (fun t => tx_category_id t =? k) rows).

(** The rows of month [ym] that count as expenses / as income. *)
Definition month_expenses (ym : string) (d : DB) : list TxRow :=
  filter (expense_in_month strftime_Ym ym) (transactions_tbl d).
Definition month_incomes (ym : string) (d : DB) : list TxRow :=
  filter (income_in_month strftime_Ym ym) (transactions_tbl d).

(** What category [id] spent in month [ym]. *)
Definition spent_in (ym : string) (id : Z) (d : DB) : float :=
  spent_of (month_expenses ym d) id.

(** The state [calculateMonthSummary] publishes for month [ym]. *)
Definition summarised (ym : string) (d : DB) (s : FinanceState) : FinanceState :=
  let totalExpense := total_of (month_expenses ym d) in
  let totalIncome := total_of (month_incomes ym d) in
  set_summary (PrimFloat.sub totalIncome totalExpense) totalIncome totalExpense
    (map (fun cat =>
            with_stats cat (spent_in ym (cat_id cat) d)
              (percentage_of (spent_in ym (cat_id cat) d) totalExpense))
         (categories s))
    s.

End Totals.

(** The world after a read-only query that came back. *)
Definition after_query (w : World) : World :=
  mkWorld (store w) (db w) (tl (faults w)) (console w) (clock w) (publications w).

(** The world after a statement that came back, leaving tables [d]. *)
Definition after_write (d : DB) (w : World) : World :=
  mkWorld (store w) d (tl (faults w)) (console w) (clock w) (publications w).

(** The world after a caught rejection. *)
Definition after_caught (message : string) (w : World) : World :=
  mkWorld (store w) (db w) (tl (faults w)) ((message, "SQLiteError") :: console w)
          (clock w) (publications w).

(** The world after a refresh step published [partial]. *)
Definition after_refresh (partial : FinanceState -> FinanceState) (w : World) : World :=
  mkWorld (partial (store w)) (db w) (tl (faults w)) (console w) (clock w)
          (S (publications w)).

(** The body of the member loop of [addSplitBill]. *)
Definition insert_member_of (billId : Z) (member : NewMember) (d : DB) : Z * DB :=
  sql_insert_member billId (nm_name member) (nm_share_amount member)
                    (if nm_is_me member then 1 else 0) d.

(** The tables after the member loop went through [ms]. *)
Definition insert_members (billId : Z) (ms : list NewMember) (d : DB) : DB :=
  fold_left (fun d' member => snd (insert_member_of billId member d')) ms d.

(** The loop of [addSplitBill], as it stands in the action. *)
Definition member_loop (billId : Z) (members : list NewMember) : M unit :=
  for_of members (fun member =>
    runAsync (sql_insert_member billId (nm_name member) (nm_share_amount member)
                (if nm_is_me member then 1 else 0)) ;;; ret tt).

(** The summary part of the state. *)
Definition summary_fields (s : FinanceState) :=
  (balance s, totalMonth s, totalIncome s, totalExpense s, categories s).

(** The columns of a member row that the caller supplied. *)
Definition member_payload (r : MemberRow) : Z * string * Z * Z :=
  (m_split_bill_id r, m_name r, m_share_amount r, m_is_me r).

(** What an action owes its caller when the database misbehaves: it
    returns; if it is not one of the two actions with two refresh steps,
    any caught failure leaves the data fields alone; a failure of its
    first statement leaves them alone in every case. *)
Definition absorbs (m : M unit) (twice : bool) (w : World) : Prop :=
  let w' := snd (m w) in
  fst (m w) = Returned tt
  /\ (twice = false ->
      (List.length (console w) < List.length (console w'))%nat ->
      data_fields (store w') = data_fields (store w))
  /\ (hd false (faults w) = true ->
      data_fields (store w') = data_fields (store w)).

(** Actions whose body awaits two independent refresh steps after its own
    statement. *)
Definition refreshes_twice (a : Action) : bool :=
  match a with
  | AddTransaction _ | DeleteTransaction _ => true
  | _ => false
  end.

(** What the two refresh steps of such an action owe once its own
    statement has gone through: the re-fetch of the recent transactions
    takes the second database call, the summary the three after it; each
    step absorbs its own failure, leaving its own fields alone, and
    publishes them when it is answered. *)
Definition refreshes_alone (strftime_Ym : string -> option string)
           (sql_sum : list float -> float) (m : M unit) (w : World) : Prop :=
  let w' := snd (m w) in
  (hd false (tl (faults w)) = true ->
   transactions (store w') = transactions (store w))
  /\ (hd false (tl (faults w)) = false ->
      transactions (store w') = sql_recent_transactions (db w'))
  /\ (succeed 3 (tl (tl (faults w))) = false ->
      summary_fields (store w') = summary_fields (store w))
  /\ (succeed 3 (tl (tl (faults w))) = true ->
      summary_fields (store w')
      = summary_fields
          (summarised strftime_Ym sql_sum (yearMonth_of (clock w)) (db w') (store w)))
  /\ splitBills (store w') = splitBills (store w)
  /\ (hd false (tl (faults w)) = true ->
      succeed 3 (tl (tl (faults w))) = false ->
      data_fields (store w') = data_fields (store w)).

(* ================================================================== *)
(** * A small database for concrete runs                               *)
(* ================================================================== *)

Definition with_faults (fs : list bool) (w : World) : World :=
  mkWorld (store w) (db w) fs (console w) (clock w) (publications w).

(** June 2024. *)
Definition june : JsDate := mkJsDate 2024 5.

Definition lunch : TxRow :=
  mkTxRow 1 1 50000 "2024-06-15T05:00:00.000Z" "lunch" None (Some expense) None.
Definition salary : TxRow :=
  mkTxRow 2 2 70000 "2024-06-16T05:00:00.000Z" "salary" None (Some income) None.
Definition bus : TxRow :=
  mkTxRow 3 3 150 "2024-06-17T05:00:00.000Z" "bus" None None None.

Definition demo_db : DB :=
  mkDB [mkCategoryRow 1 "Food" "emoji:1" "#f00" 0 (Some expense);
        mkCategoryRow 2 "Work" "emoji:2" "#0f0" 0 (Some income);
        mkCategoryRow 3 "Transport" "emoji:3" "#00f" 0 (Some expense)]
       [lunch; salary; bus] [] [].

(** The application right after start-up on [demo_db]: categories and
    recent transactions fetched, June summarised. *)
Definition demo_world : World :=
  snd (calculateMonthSummary iso_strftime_Ym sum_in_order None
         (snd (fetchRecentTransactions
                 (snd (fetchCategories
                         (mkWorld initial_state demo_db [] [] june 0)))))).

(** Two purchases of a tenth and of a fifth of a currency unit (the
    doubles nearest to 0.1 and 0.2). *)
Definition tenth : TxRow :=
  mkTxRow 1 1 0x1.999999999999ap-4 "2024-06-15T05:00:00.000Z" "sweet" None
          (Some expense) None.
Definition fifth : TxRow :=
  mkTxRow 2 1 0x1.999999999999ap-3 "2024-06-16T05:00:00.000Z" "stamp" None
          (Some expense) None.

Definition fractions_db : DB :=
  mkDB [mkCategoryRow 1 "Food" "emoji:1" "#f00" 0 (Some expense)]
       [tenth; fifth] [] [].

(** A refund booked under Transport as an expense with a negative
    amount. *)
Definition refund (amount : float) : NewTransaction :=
  mkNewTransaction 3 amount "2024-06-20T05:00:00.000Z" "refund" (Some expense) None.

(** A dinner split three ways. *)
Definition dinner : NewSplitBill := mkNewSplitBill "2024-06-20" "Dinner" 300 None.
Definition diners : list NewMember :=
  [mkNewMember "me" 100 true; mkNewMember "Ana" 100 false; mkNewMember "Budi" 100 false].

(* ================================================================== *)
(** * Vocabulary of the further properties                              *)
(* ================================================================== *)

(** [ORDER BY date DESC, id DESC] as a relation on (date, id) keys: the
    first key is listed no later than the second. *)
Definition newer (d1 : string) (i1 : Z) (d2 : string) (i2 : Z) : Prop :=
  String.compare d1 d2 = Gt \/ (d1 = d2 /\ i2 <= i1).

Definition newer_transaction (a b : Transaction) : Prop :=
  newer (tx_date (t_row a)) (tx_id (t_row a)) (tx_date (t_row b)) (tx_id (t_row b)).

Definition newer_bill (a b : SplitBill) : Prop :=
  newer (sb_date a) (sb_id a) (sb_date b) (sb_id b).

(** What the application holds between two actions: the Zustand state and
    the tables. *)
Definition Holdings : Type := (FinanceState * DB)%type.

Definition holdings (w : World) : Holdings := (store w, db w).

(** A relation between the holdings before and after that steps compose
    along: it holds when nothing happened, and it chains. *)
Class Steady (Q : Holdings -> Holdings -> Prop) : Prop := {
  steady_refl : forall x, Q x x;
  steady_trans : forall x y z, Q x y -> Q y z -> Q x z
}.

(** [m] relates the holdings it finds to the holdings it leaves, whatever
    the fault schedule and whether it returns or throws. *)
Definition keeps {A : Type} (Q : Holdings -> Holdings -> Prop) (m : M A) : Prop :=
  forall w, Q (holdings w) (holdings (snd (m w))).

(** An invariant, as a relation. *)
Definition preserving (I : Holdings -> Prop) : Holdings -> Holdings -> Prop :=
  fun x y => I x -> I y.

(** A part that stays the same, as a relation. *)
Definition same {X : Type} (part : Holdings -> X) : Holdings -> Holdings -> Prop :=
  fun x y => part y = part x.

(** Which tables an action has a statement for. *)
Definition writes_categories (a : Action) : bool :=
  match a with
  | AddCategory _ | UpdateCategory _ _ | DeleteCategory _ => true
  | _ => false
  end.
Definition writes_transactions (a : Action) : bool :=
  match a with
  | AddTransaction _ | DeleteTransaction _ | DeleteCategory _ => true
  | _ => false
  end.
Definition writes_split_bills (a : Action) : bool :=
  match a with
  | AddSplitBill _ _ | DeleteSplitBill _ => true
  | _ => false
  end.
Definition writes_members (a : Action) : bool :=
  match a with
  | AddSplitBill _ _ => true
  | _ => false
  end.

(** Which state fields an action has a [set] for. *)
Definition publishes_transactions (a : Action) : bool :=
  match a with
  | FetchRecentTransactions | AddTransaction _ | DeleteTransaction _ => true
  | _ => false
  end.
Definition publishes_totals (a : Action) : bool :=
  match a with
  | CalculateMonthSummary _ | AddTransaction _ | DeleteTransaction _ => true
  | _ => false
  end.
Definition publishes_splitBills (a : Action) : bool :=
  match a with
  | FetchSplitBills | AddSplitBill _ _ | DeleteSplitBill _ => true
  | _ => false
  end.

Definition with_clock (c : JsDate) (w : World) : World :=
  mkWorld (store w) (db w) (faults w) (console w) c (publications w).

(** The worlds the application can get into on a database [d0]: it starts
    with the initial state, then runs any actions in any order, under any
    fault schedule and at any time. *)
Inductive reachable (strftime_Ym : string -> option string)
          (sql_sum : list float -> float) (d0 : DB) : World -> Prop :=
| reach_start (fs : list bool) (c : JsDate) :
    reachable strftime_Ym sql_sum d0 (mkWorld initial_state d0 fs [] c 0)
| reach_action (w : World) (a : Action) :
    reachable strftime_Ym sql_sum d0 w ->
    reachable strftime_Ym sql_sum d0 (snd (run strftime_Ym sql_sum a w))
| reach_faults (w : World) (fs : list bool) :
    reachable strftime_Ym sql_sum d0 w ->
    reachable strftime_Ym sql_sum d0 (with_faults fs w)
| reach_clock (w : World) (c : JsDate) :
    reachable strftime_Ym sql_sum d0 w ->
    reachable strftime_Ym sql_sum d0 (with_clock c w).

(** The object [useStore()] hands out: the state, with [totalMonth],
    [addExpense] and [calculateTotalMonth] overridden. *)
Record LegacyStore : Type := mkLegacyStore {
  ls_state : FinanceState;
  ls_totalMonth : float;
  ls_addExpense : NewTransaction -> M unit;
  ls_calculateTotalMonth : option JsDate -> M unit
}.

Definition useStore (strftime_Ym : string -> option string)
           (sql_sum : list float -> float) (w : World) : LegacyStore :=
  mkLegacyStore (store w) (balance (store w))
                (addTransaction strftime_Ym sql_sum)
                (calculateMonthSummary strftime_Ym sql_sum).

(** Row ids are distinct in every table, and so are the cached category
    ids. *)
Definition ids_distinct (x : Holdings) : Prop :=
  NoDup (map cr_id (categories_tbl (snd x)))
  /\ NoDup (map tx_id (transactions_tbl (snd x)))
  /\ NoDup (map sb_id (split_bills_tbl (snd x)))
  /\ NoDup (map m_id (split_bill_members_tbl (snd x)))
  /\ NoDup (map cat_id (categories (fst x))).

(** The world after a [set] outside any database call. *)
Definition after_set (partial : FinanceState -> FinanceState) (w : World) : World :=
  mkWorld (partial (store w)) (db w) (faults w) (console w) (clock w)
          (S (publications w)).

(** The actions that end by fetching the categories again. *)
Definition refetches_categories (a : Action) : bool :=
  match a with
  | FetchCategories | AddCategory _ | UpdateCategory _ _ | DeleteCategory _ => true
  | _ => false
  end.

(** A [Date] of the common era with a four-digit year. *)
Definition four_digit_year (d : JsDate) : Prop :=
  1000 <= getFullYear d <= 9999 /\ 0 <= getMonth d <= 11.

(* ================================================================== *)
(** * The language detector ([src/i18n/index.ts])                       *)
(* ================================================================== *)

Module I18n.

Definition LANGUAGE_KEY : string := "user_language".

(** What the detector works on: the items of [AsyncStorage], the
    [console.error] lines, and one flag per storage call still to come
    ([true] for a call that rejects). *)
Record Env : Type := mkEnv {
  items : string -> option string;
  storage_faults : list bool;
  log : list (string * string)
}.

Definition L (A : Type) : Type := Env -> Outcome A * Env.

Definition ret {A : Type} (a : A) : L A := fun e => (Returned a, e).

Definition bind {A B : Type} (m : L A) (k : A -> L B) : L B :=
  fun e =>
    match m e with
    | (Returned a, e') => k a e'
    | (Thrown err, e') => (Thrown err, e')
    end.

Definition try_catch (body : L unit) (handler : string -> L unit) : L unit :=
  fun e =>
    match body e with
    | (Returned a, e') => (Returned a, e')
    | (Thrown err, e') => handler err e'
    end.

Definition console_error (message error : string) : L unit :=
  fun e => (Returned tt, mkEnv (items e) (storage_faults e) ((message, error) :: log e)).

(** [AsyncStorage.getItem(key)]: the item, [null] when there is none. *)
Definition getItem (key : string) : L (option string) :=
  fun e =>
    if hd false (storage_faults e)
    then (Thrown "AsyncStorageError", mkEnv (items e) (tl (storage_faults e)) (log e))
    else (Returned (items e key), mkEnv (items e) (tl (storage_faults e)) (log e)).

(** [AsyncStorage.setItem(key, value)] *)
Definition setItem (key value : string) : L unit :=
  fun e =>
    if hd false (storage_faults e)
    then (Thrown "AsyncStorageError", mkEnv (items e) (tl (storage_faults e)) (log e))
    else (Returned tt,
          mkEnv (fun k => if String.eqb k key then Some value else items e k)
                (tl (storage_faults e)) (log e)).

(** [savedLanguage || 'id'] *)
Definition or_id (savedLanguage : option string) : string :=
  match savedLanguage with
  | Some "" => "id"
  | Some lng => lng
  | None => "id"
  end.

(** [languageDetector.detect] *)
Definition detect (callback : string -> L unit) : L unit :=
  try_catch
    (bind (getItem LANGUAGE_KEY) (fun savedLanguage => callback (or_id savedLanguage)))
    (fun error => callback "id").

(** [languageDetector.cacheUserLanguage] *)
Definition cacheUserLanguage (lng : string) : L unit :=
  try_catch (setItem LANGUAGE_KEY lng) (console_error "Error saving language:").


(** A callback that returns. *)
Definition returns (callback : string -> L unit) : Prop :=
  forall lng e, fst (callback lng e) = Returned tt.

(** The environment after one storage call. *)
Definition spent (e : Env) : Env := mkEnv (items e) (tl (storage_faults e)) (log e).

(** A callback that notes what it was handed in the log. *)
Definition note : string -> L unit := console_error "detected".

Definition fresh_install : Env := mkEnv (fun _ => None) [] [].

End I18n.

(* ================================================================== *)
(** * The screens that file transactions                                *)
(* ================================================================== *)

Module Screens.

(** [src/app/add-transaction.tsx]:
    [categories.filter(c => c.category_type === transactionType ||
       (!c.category_type && transactionType === 'expense'))] *)
Definition filteredCategories (transactionType : TransactionType)
           (categories : list Category) : list Category :=
  filter (fun c => type_is transactionType (cat_category_type c)
                   || (is_null (cat_category_type c)
                       && TransactionType_eqb transactionType expense))
         categories.

(** [src/components/SmartTextModal.tsx]: the names offered to the parser. *)
Definition expenseCategories (categories : list Category) : list string :=
  map cat_name (filter (fun c => negb (type_is income (cat_category_type c))) categories).
Definition incomeCategories (categories : list Category) : list string :=
  map cat_name (filter (fun c => type_is income (cat_category_type c)) categories).

(** What [parseExpenseText] resolves to. *)
Record ParseResult : Type := mkParseResult {
  pr_amount : float;
  pr_name : string;
  pr_category : string;
  pr_type : option TransactionType
}.

(** [result.type === 'income' ? categories.filter(c => c.category_type === 'income')
                              : categories.filter(c => c.category_type !== 'income')] *)
Definition categoryList (type : option TransactionType) (categories : list Category)
  : list Category :=
  if type_is income type
  then filter (fun c => type_is income (cat_category_type c)) categories
  else filter (fun c => negb (type_is income (cat_category_type c))) categories.

(** How [handleParse] ends: [Ignored] when it returns at once without any
    alert, one of four error alerts, or the success alert it shows once
    [addExpense] has come back for the transaction. *)
Inductive Verdict : Type :=
| Ignored
| ParseError
| InvalidAmount
| EmptyName
| CategoryNotFound
| Success (transaction : NewTransaction).

Section SmartText.

Variable strftime_Ym : string -> option string.
Variable sql_sum : list float -> float.
(** [String.prototype.trim], [String.prototype.toLowerCase] and
    [Date.prototype.toISOString]. *)
Variable trim : string -> string.
Variable toLowerCase : string -> string.
Variable toISOString : JsDate -> string.

(** [handleParse], from the text typed and what [parseExpenseText] made of
    it ([Thrown] when the call rejected, [None] for no result). *)
Definition handleParse (input : string) (parsed : Outcome (option ParseResult))
  : M Verdict :=
  if String.eqb (trim input) "" then ret Ignored
  else
    match parsed with
    | Thrown _ => ret ParseError
    | Returned None => ret ParseError
    | Returned (Some result) =>
        if falsy (pr_amount result) || PrimFloat.leb (pr_amount result) 0%float
        then ret InvalidAmount
        else if String.eqb (pr_name result) "" || String.eqb (trim (pr_name result)) ""
        then ret EmptyName
        else
          s <- get ;;
          match find (fun c => String.eqb (toLowerCase (cat_name c))
                                          (toLowerCase (pr_category result)))
                     (categoryList (pr_type result) (categories s)) with
          | None => ret CategoryNotFound
          | Some category =>
              now <- new_Date ;;
              let transaction :=
                mkNewTransaction (cat_id category) (pr_amount result)
                                 (toISOString now) (pr_name result)
                                 (Some (or_expense (pr_type result))) None in
              fun w =>
                match addExpense strftime_Ym sql_sum transaction w with
                | (Returned _, w') => (Returned (Success transaction), w')
                | (Thrown _, w') => (Returned ParseError, w')
                end
          end
    end.

End SmartText.

(** Stand-ins for the concrete runs, right on plain ASCII text without
    blanks or capitals. *)
Definition plain (s : string) : string := s.
Definition noon (d : JsDate) : string :=
  (yearMonth_of d ++ "-15T05:00:00.000Z")%string.

End Screens.

(* ================================================================== *)
(** * Basic facts: numbers and sorting                                 *)
(* ================================================================== *)

Lemma or_zero_id (v : Z) : or_zero v = v.
Proof.
  unfold or_zero. destruct (Z.eqb_spec v 0); congruence.
Qed.

Lemma in_insert_by {A : Type} (before : A -> A -> bool) (x y : A) (l : list A) :
  In y (insert_by before x l) <-> y = x \/ In y l.
Proof.
  induction l as [|z l IH]; simpl.
  - intuition congruence.
  - destruct (before x z); simpl; rewrite ?IH; intuition congruence.
Qed.

Lemma in_order_by {A : Type} (before : A -> A -> bool) (y : A) (l : list A) :
  In y (order_by before l) <-> In y l.
Proof.
  induction l as [|x l IH]; simpl; [tauto|].
  rewrite in_insert_by, IH. intuition congruence.
Qed.

(** [LIMIT] keeps rows, it makes none. *)
Lemma in_firstn {A : Type} (n : nat) (x : A) (l : list A) :
  In x (firstn n l) -> In x l.
Proof.
  revert l. induction n as [|n IH]; intros [|y l]; simpl; try tauto.
  intros [H|H]; [left; exact H|right; apply IH; exact H].
Qed.

Lemma length_insert_by {A : Type} (before : A -> A -> bool) (x : A) (l : list A) :
  List.length (insert_by before x l) = S (List.length l).
Proof.
  induction l as [|z l IH]; simpl; [reflexivity|].
  destruct (before x z); simpl; congruence.
Qed.

Lemma length_order_by {A : Type} (before : A -> A -> bool) (l : list A) :
  List.length (order_by before l) = List.length l.
Proof.
  induction l as [|x l IH]; simpl; [reflexivity|].
  rewrite length_insert_by. congruence.
Qed.

(** [x || 0] hands a double through unless it is 0, -0 or NaN; what it
    hands back is the same number ([===]) unless it was NaN. *)
Lemma or_zero_num_same (x : float) :
  is_NaN x = false -> PrimFloat.eqb x (or_zero_num x) = true.
Proof.
  intros Hx. unfold or_zero_num, falsy. rewrite Hx, orb_false_r.
  destruct (PrimFloat.eqb x 0%float) eqn:E; [exact E|].
  unfold is_NaN in Hx. apply negb_false_iff in Hx. exact Hx.
Qed.

(* ================================================================== *)
(** * Running the actions                                               *)
(* ================================================================== *)

Lemma succeed_S (n : nat) (fs : list bool) :
  succeed (S n) fs = true <-> hd false fs = false /\ succeed n (tl fs) = true.
Proof.
  simpl. rewrite andb_true_iff, negb_true_iff. tauto.
Qed.

Lemma succeed_weaken (n m : nat) (fs : list bool) :
  (n <= m)%nat -> succeed m fs = true -> succeed n fs = true.
Proof.
  revert m fs. induction n as [|n IH]; intros m fs Hle H; [reflexivity|].
  destruct m as [|m]; [lia|].
  apply succeed_S in H. destruct H as [H1 H2].
  apply succeed_S. split; [exact H1|].
  apply (IH m); [lia|exact H2].
Qed.

Lemma succeed_nil (n : nat) : succeed n [] = true.
Proof. induction n; simpl; auto. Qed.

Lemma fetchCategories_run (w : World) :
  fetchCategories w =
  (Returned tt,
   if hd false (faults w)
   then after_caught "[FinanceStore] Error fetching categories:" w
   else after_refresh (set_categories (map category_of_row (categories_tbl (db w)))) w).
Proof.
  unfold fetchCategories, try_catch, bind, getAllAsync, db_call.
  destruct (hd false (faults w)); reflexivity.
Qed.

Lemma fetchSplitBills_run (w : World) :
  fetchSplitBills w =
  (Returned tt,
   if hd false (faults w)
   then after_caught "[FinanceStore] Error fetching split bills:" w
   else after_refresh (set_splitBills (sql_select_split_bills (db w))) w).
Proof.
  unfold fetchSplitBills, try_catch, bind, getAllAsync, db_call.
  destruct (hd false (faults w)); reflexivity.
Qed.

Section Runs.

Variable strftime_Ym : string -> option string.
Variable sql_sum : list float -> float.

Lemma fetchRecentTransactions_run (w : World) :
  fetchRecentTransactions w =
  (Returned tt,
   if hd false (faults w)
   then after_caught "[FinanceStore] Error fetching transactions:" w
   else after_refresh (set_transactions (sql_recent_transactions (db w))) w).
Proof.
  unfold fetchRecentTransactions, try_catch, bind, getAllAsync, db_call.
  destruct (hd false (faults w)); reflexivity.
Qed.

Lemma find_keyed {V : Type} (f : Z -> V) (k : Z) (keys : list Z) :
  find (fun b : Z * V => fst b =? k) (map (fun k' => (k', f k')) keys) =
  if in_dec Z.eq_dec k keys then Some (k, f k) else None.
Proof.
  induction keys as [|k' keys IH]; simpl; [reflexivity|].
  destruct (Z.eqb_spec k' k) as [->|Hne].
  - destruct (Z.eq_dec k k); [reflexivity|congruence].
  - rewrite IH. destruct (Z.eq_dec k' k); [congruence|].
    destruct (in_dec Z.eq_dec k keys); reflexivity.
Qed.

Lemma filter_absent_key (k : Z) (rows : list TxRow) :
  ~ In k (map tx_category_id rows) ->
  filter (fun t => tx_category_id t =? k) rows = [].
Proof.
  induction rows as [|t rows IH]; simpl; intros Hn; [reflexivity|].
  destruct (Z.eqb_spec (tx_category_id t) k) as [He|_]; [tauto|].
  apply IH. tauto.
Qed.

Lemma filter_present_key (k : Z) (rows : list TxRow) :
  In k (map tx_category_id rows) ->
  exists t group, filter (fun t => tx_category_id t =? k) rows = t :: group.
Proof.
  induction rows as [|t rows IH]; simpl; intros Hin; [destruct Hin|].
  destruct (Z.eqb_spec (tx_category_id t) k) as [He|Hne]; [eauto|].
  apply IH. destruct Hin as [He|Hin]; [congruence|exact Hin].
Qed.

(** The [find] over the [GROUP BY] rows is the category's monthly total. *)
Lemma find_total_breakdown (ym : string) (d : DB) (id : Z) :
  find_total (sql_breakdown strftime_Ym sql_sum ym d) id
  = spent_in strftime_Ym sql_sum ym id d.
Proof.
  unfold find_total, sql_breakdown, spent_in, spent_of, total_of, month_expenses.
  rewrite find_keyed.
  destruct (in_dec Z.eq_dec id _) as [Hin|Hnot]; cbn [option_map snd total_or_zero].
  - rewrite nodup_In in Hin.
    destruct (filter_present_key _ _ Hin) as (t & group & ->). reflexivity.
  - rewrite nodup_In in Hnot.
    rewrite (filter_absent_key _ _ Hnot). reflexivity.
Qed.

Lemma calculateMonthSummary_run (selectedMonth : option JsDate) (w : World) :
  let ym := yearMonth_of (target_date selectedMonth w) in
  let caught := after_caught "[FinanceStore] Error calculating summary:" in
  calculateMonthSummary strftime_Ym sql_sum selectedMonth w =
  (Returned tt,
   if hd false (faults w) then caught w
   else if hd false (tl (faults w)) then caught (after_query w)
   else if hd false (tl (tl (faults w))) then caught (after_query (after_query w))
   else after_refresh (summarised strftime_Ym sql_sum ym (db w))
                      (after_query (after_query w))).
Proof.
  intros ym caught.
  unfold calculateMonthSummary, try_catch, bind, getFirstAsync, getAllAsync, db_call.
  assert (Hd : (match selectedMonth with Some m => ret m | None => new_Date end) w
               = (Returned (target_date selectedMonth w), w)).
  { destruct selectedMonth; reflexivity. }
  rewrite Hd. cbn [fst snd faults db store].
  destruct (hd false (faults w)); [reflexivity|]. cbn [fst snd faults db store].
  destruct (hd false (tl (faults w))); [reflexivity|]. cbn [fst snd faults db store].
  destruct (hd false (tl (tl (faults w)))); [reflexivity|].
  unfold get, set. cbn [fst snd faults db store console clock publications].
  unfold after_refresh, after_query, summarised.
  cbn [fst snd faults db store console clock publications hd_error sql_total_expense
       sql_total_income total_or_zero].
  f_equal. f_equal. f_equal.
  apply map_ext. intros cat.
  rewrite find_total_breakdown. reflexivity.
Qed.

End Runs.

(* ================================================================== *)
(** * The month summary                                                 *)
(* ================================================================== *)

Section Summary.

Variable strftime_Ym : string -> option string.
Variable sql_sum : list float -> float.

Lemma in_month_iff (ym : string) (t : TxRow) :
  in_month strftime_Ym ym t = true <-> strftime_Ym (tx_date t) = Some ym.
Proof.
  unfold in_month. destruct (strftime_Ym (tx_date t)) as [s|].
  - rewrite String.eqb_eq. split; congruence.
  - split; discriminate.
Qed.

(** The expense rows of a month: dated in it, with type ['expense'] or
    no type at all. *)
Lemma in_month_expenses (ym : string) (d : DB) (t : TxRow) :
  In t (month_expenses strftime_Ym ym d) <->
  In t (transactions_tbl d)
  /\ strftime_Ym (tx_date t) = Some ym
  /\ (tx_type t = Some expense \/ tx_type t = None).
Proof.
  unfold month_expenses, expense_in_month.
  rewrite filter_In, andb_true_iff, orb_true_iff, in_month_iff.
  destruct (tx_type t) as [[|]|]; simpl; intuition congruence.
Qed.

(** The income rows of a month: dated in it, with type ['income']. *)
Lemma in_month_incomes (ym : string) (d : DB) (t : TxRow) :
  In t (month_incomes strftime_Ym ym d) <->
  In t (transactions_tbl d)
  /\ strftime_Ym (tx_date t) = Some ym
  /\ tx_type t = Some income.
Proof.
  unfold month_incomes, income_in_month.
  rewrite filter_In, andb_true_iff, in_month_iff.
  destruct (tx_type t) as [[|]|]; simpl; intuition congruence.
Qed.

Lemma percentage_of_without_total (c t : float) :
  PrimFloat.ltb 0%float t = false -> percentage_of c t = 0%float.
Proof. intros Ht. unfold percentage_of. rewrite Ht. reflexivity. Qed.

(** When its three queries come back, the summary publishes [summarised]. *)
Lemma calculateMonthSummary_ok (selectedMonth : option JsDate) (w : World) :
  succeed 3 (faults w) = true ->
  calculateMonthSummary strftime_Ym sql_sum selectedMonth w =
  (Returned tt,
   after_refresh
     (summarised strftime_Ym sql_sum (yearMonth_of (target_date selectedMonth w)) (db w))
     (after_query (after_query w))).
Proof.
  intros H.
  apply succeed_S in H. destruct H as [H1 H].
  apply succeed_S in H. destruct H as [H2 H].
  apply succeed_S in H. destruct H as [H3 _].
  rewrite calculateMonthSummary_run. cbv zeta.
  rewrite H1, H2, H3. reflexivity.
Qed.

(** C1 (as amended): when the three queries of [calculateMonthSummary]
    succeed, one single [set] publishes: [totalExpense] = the database's
    sum of the amounts of the month's rows typed ['expense'] or untyped
    and [totalIncome] = its sum of the month's rows typed ['income'] (0
    without such rows, and [|| 0] turns a NaN into 0), [balance] and its
    alias = income minus expense, and every cached category with
    [totalSpent] = the database's sum over its expense rows of the month
    (0 without matching rows) and [percentage] =
    [Math.round((totalSpent / totalExpense) * 100)] when [totalExpense] is
    greater than 0 and 0 otherwise, so also when [totalExpense] is 0 or
    negative. *)
Theorem calculateMonthSummary_publishes (selectedMonth : option JsDate) (w : World) :
  succeed 3 (faults w) = true ->
  let ym := yearMonth_of (target_date selectedMonth w) in
  let w' := snd (calculateMonthSummary strftime_Ym sql_sum selectedMonth w) in
  let sumE :=
    sql_coalesce_sum sql_sum (map tx_amount (month_expenses strftime_Ym ym (db w))) in
  let sumI :=
    sql_coalesce_sum sql_sum (map tx_amount (month_incomes strftime_Ym ym (db w))) in
  let tE := totalExpense (store w') in
  let tI := totalIncome (store w') in
  fst (calculateMonthSummary strftime_Ym sql_sum selectedMonth w) = Returned tt
  /\ tE = or_zero_num sumE
  /\ tI = or_zero_num sumI
  /\ (is_NaN sumE = false -> PrimFloat.eqb sumE tE = true)
  /\ (is_NaN sumI = false -> PrimFloat.eqb sumI tI = true)
  /\ (month_expenses strftime_Ym ym (db w) = [] -> tE = 0%float)
  /\ (month_incomes strftime_Ym ym (db w) = [] -> tI = 0%float)
  /\ balance (store w') = PrimFloat.sub tI tE
  /\ totalMonth (store w') = PrimFloat.sub tI tE
  /\ categories (store w') =
     map (fun cat =>
            let spent := spent_in strftime_Ym sql_sum ym (cat_id cat) (db w) in
            with_stats cat spent
              (if PrimFloat.ltb 0%float tE
               then Math_round (PrimFloat.mul (PrimFloat.div spent tE) 100%float)
               else 0%float))
         (categories (store w))
  /\ (forall id,
         spent_in strftime_Ym sql_sum ym id (db w)
         = or_zero_num
             (sql_coalesce_sum sql_sum
                (map tx_amount
                     (filter (fun t => tx_category_id t =? id)
                             (month_expenses strftime_Ym ym (db w))))))
  /\ (forall id,
         filter (fun t => tx_category_id t =? id)
                (month_expenses strftime_Ym ym (db w)) = [] ->
         spent_in strftime_Ym sql_sum ym id (db w) = 0%float)
  /\ (PrimFloat.ltb 0%float tE = false ->
      Forall (fun cat => cat_percentage cat = Some 0%float) (categories (store w')))
  /\ (tE = 0%float ->
      Forall (fun cat => cat_percentage cat = Some 0%float) (categories (store w')))
  /\ publications w' = S (publications w)
  /\ transactions (store w') = transactions (store w)
  /\ splitBills (store w') = splitBills (store w)
  /\ isLoading (store w') = isLoading (store w)
  /\ db w' = db w.
Proof.
  intros Hok ym w' sumE sumI tE tI. subst tE tI w'.
  rewrite (calculateMonthSummary_ok _ _ Hok). fold ym.
  cbn [fst snd after_refresh after_query store db publications summarised
       set_summary totalExpense totalIncome balance totalMonth categories
       transactions splitBills isLoading].
  unfold total_of. fold sumE sumI.
  assert (Hzero : PrimFloat.ltb 0%float (or_zero_num sumE) = false ->
                  Forall (fun cat => cat_percentage cat = Some 0%float)
                         (map (fun cat =>
                                 with_stats cat
                                   (spent_in strftime_Ym sql_sum ym (cat_id cat) (db w))
                                   (percentage_of
                                      (spent_in strftime_Ym sql_sum ym (cat_id cat) (db w))
                                      (or_zero_num sumE)))
                              (categories (store w)))).
  { intros Hz. apply Forall_forall. intros cat Hin.
    apply in_map_iff in Hin. destruct Hin as (c & <- & _).
    cbn [with_stats cat_percentage].
    rewrite percentage_of_without_total by exact Hz. reflexivity. }
  split; [reflexivity|]. split; [reflexivity|]. split; [reflexivity|].
  split; [apply or_zero_num_same|]. split; [apply or_zero_num_same|].
  split; [intros He; subst sumE; rewrite He; reflexivity|].
  split; [intros Hi; subst sumI; rewrite Hi; reflexivity|].
  split; [reflexivity|]. split; [reflexivity|]. split; [reflexivity|].
  split; [intros id; reflexivity|].
  split; [intros id Hnone; unfold spent_in, spent_of, total_of; rewrite Hnone;
          reflexivity|].
  split; [exact Hzero|].
  split; [intros Hz; apply Hzero; rewrite Hz; reflexivity|].
  repeat split.
Qed.

End Summary.

(* ================================================================== *)
(** * Idempotence                                                       *)
(* ================================================================== *)

Section SummaryAlgebra.

Variable strftime_Ym : string -> option string.
Variable sql_sum : list float -> float.

Lemma summarised_idem (ym : string) (d : DB) (s : FinanceState) :
  summarised strftime_Ym sql_sum ym d (summarised strftime_Ym sql_sum ym d s)
  = summarised strftime_Ym sql_sum ym d s.
Proof.
  unfold summarised, set_summary.
  cbn [transactions categories splitBills isLoading].
  f_equal. rewrite map_map. apply map_ext. intros cat. reflexivity.
Qed.

(** C6: [calculateMonthSummary] is idempotent: run twice in a row for the
    same month, with every query answered and no write in between, the
    second run leaves the balance, its alias, [totalIncome], [totalExpense]
    and the categories with their [totalSpent] and [percentage] exactly as
    the first run published them. *)
Theorem calculateMonthSummary_idempotent (selectedMonth : option JsDate) (w : World) :
  succeed 6 (faults w) = true ->
  let w1 := snd (calculateMonthSummary strftime_Ym sql_sum selectedMonth w) in
  let w2 := snd (calculateMonthSummary strftime_Ym sql_sum selectedMonth w1) in
  summary_fields (store w2) = summary_fields (store w1)
  /\ store w2 = store w1
  /\ db w2 = db w.
Proof.
  intros H w1 w2.
  assert (H3 : succeed 3 (faults w) = true) by (apply (succeed_weaken 3 6); [lia|exact H]).
  assert (H3' : succeed 3 (faults w1) = true).
  { subst w1. rewrite (calculateMonthSummary_ok _ _ _ _ H3). cbn.
    do 3 (apply succeed_S in H; destruct H as [_ H]). exact H. }
  assert (E : store w2 = store w1 /\ db w2 = db w).
  { subst w2. rewrite (calculateMonthSummary_ok _ _ _ _ H3').
    subst w1. rewrite (calculateMonthSummary_ok _ _ _ _ H3).
    cbn [snd after_refresh after_query store db clock target_date].
    split; [|reflexivity].
    replace (target_date selectedMonth
               (after_refresh
                  (summarised strftime_Ym sql_sum
                     (yearMonth_of (target_date selectedMonth w)) (db w))
                  (after_query (after_query w))))
      with (target_date selectedMonth w) by (destruct selectedMonth; reflexivity).
    apply summarised_idem. }
  destruct E as [E1 E2]. rewrite E1. auto.
Qed.

End SummaryAlgebra.


(* ================================================================== *)
(** * Failures are absorbed                                             *)
(* ================================================================== *)

Ltac flags :=
  repeat (cbn [fst snd store db faults console clock publications
               after_caught after_refresh after_query List.length] in *;
          match goal with
          | |- context [if hd false ?l then _ else _] =>
              let E := fresh "E" in destruct (hd false l) eqn:E
          end).

Ltac absorbed :=
  unfold absorbs; cbv zeta; flags;
  cbn [fst snd store db faults console clock publications
       after_caught after_refresh after_query List.length];
  repeat split; intros; try reflexivity; try discriminate; try lia; try congruence.

Lemma fetchCategories_absorbs (w : World) : absorbs fetchCategories false w.
Proof. unfold absorbs. rewrite fetchCategories_run. absorbed. Qed.

Lemma fetchSplitBills_absorbs (w : World) : absorbs fetchSplitBills false w.
Proof. unfold absorbs. rewrite fetchSplitBills_run. absorbed. Qed.

Lemma fetchRecentTransactions_absorbs (w : World) :
  absorbs fetchRecentTransactions false w.
Proof. unfold absorbs. rewrite fetchRecentTransactions_run. absorbed. Qed.

Lemma addCategory_absorbs (category : NewCategory) (w : World) :
  absorbs (addCategory category) false w.
Proof.
  unfold absorbs, addCategory, try_catch, bind, runAsync, db_call, get, console_error.
  destruct (hd false (faults w)) eqn:E0; [absorbed|].
  rewrite fetchCategories_run. absorbed.
Qed.

Lemma updateCategory_absorbs (id : Z) (category : PartialCategory) (w : World) :
  absorbs (updateCategory id category) false w.
Proof.
  unfold absorbs, updateCategory, try_catch, bind, runAsync, db_call, get, console_error.
  destruct (hd false (faults w)) eqn:E0; [absorbed|].
  rewrite fetchCategories_run. absorbed.
Qed.

Lemma deleteCategory_absorbs (id : Z) (w : World) :
  absorbs (deleteCategory id) false w.
Proof.
  unfold absorbs, deleteCategory, try_catch, bind, runAsync, db_call, get, console_error.
  destruct (hd false (faults w)) eqn:E0; [absorbed|].
  cbn [fst snd store db faults console clock publications].
  destruct (hd false (tl (faults w))) eqn:E1; [absorbed|].
  rewrite fetchCategories_run. absorbed.
Qed.

Lemma deleteSplitBill_absorbs (id : Z) (w : World) :
  absorbs (deleteSplitBill id) false w.
Proof.
  unfold absorbs, deleteSplitBill, try_catch, bind, runAsync, db_call, get, console_error.
  destruct (hd false (faults w)) eqn:E0; [absorbed|].
  rewrite fetchSplitBills_run. absorbed.
Qed.

Section Absorption.

Variable strftime_Ym : string -> option string.
Variable sql_sum : list float -> float.

Lemma calculateMonthSummary_absorbs (selectedMonth : option JsDate) (w : World) :
  absorbs (calculateMonthSummary strftime_Ym sql_sum selectedMonth) false w.
Proof.
  unfold absorbs. rewrite calculateMonthSummary_run. absorbed.
Qed.

Lemma deleteTransaction_absorbs (id : Z) (w : World) :
  absorbs (deleteTransaction strftime_Ym sql_sum id) true w.
Proof.
  unfold absorbs, deleteTransaction, try_catch, bind, runAsync, db_call, get,
    console_error.
  destruct (hd false (faults w)) eqn:E0; [absorbed|].
  rewrite fetchRecentTransactions_run.
  cbn [fst snd]. rewrite calculateMonthSummary_run. absorbed.
Qed.

Lemma addTransaction_absorbs (transaction : NewTransaction) (w : World) :
  absorbs (addTransaction strftime_Ym sql_sum transaction) true w
  /\ isLoading (store (snd (addTransaction strftime_Ym sql_sum transaction w))) = false.
Proof.
  unfold absorbs, addTransaction, try_catch_finally, try_catch, bind, runAsync,
    db_call, get, set, console_error.
  cbn [fst snd store db faults console clock publications].
  destruct (hd false (faults w)) eqn:E0.
  - cbn. repeat split; intros; reflexivity.
  - rewrite fetchRecentTransactions_run.
    cbn [fst snd]. rewrite calculateMonthSummary_run.
    cbn [fst snd store isLoading set_isLoading].
    repeat split; intros; try reflexivity; try discriminate; try congruence.
Qed.

Ltac refreshed :=
  unfold refreshes_alone; cbv zeta; flags;
  cbn [fst snd store db faults console clock publications succeed
       after_caught after_refresh after_query after_write after_set
       transactions categories splitBills isLoading balance totalMonth
       totalIncome totalExpense set_transactions set_isLoading summarised
       set_summary summary_fields data_fields hd tl negb andb] in *;
  repeat match goal with
         | E : hd false ?l = _ |- context [hd false ?l] => rewrite E
         end;
  cbn [negb andb];
  repeat split; intros; try reflexivity; try discriminate; try congruence.

Lemma deleteTransaction_refreshes (id : Z) (w : World) :
  hd false (faults w) = false ->
  refreshes_alone strftime_Ym sql_sum (deleteTransaction strftime_Ym sql_sum id) w.
Proof.
  intros E0.
  unfold refreshes_alone, deleteTransaction, try_catch, bind, runAsync, db_call, get,
    console_error.
  rewrite E0. rewrite fetchRecentTransactions_run.
  cbn [fst snd]. rewrite calculateMonthSummary_run. refreshed.
Qed.

Lemma addTransaction_refreshes (transaction : NewTransaction) (w : World) :
  hd false (faults w) = false ->
  refreshes_alone strftime_Ym sql_sum (addTransaction strftime_Ym sql_sum transaction) w.
Proof.
  intros E0.
  unfold refreshes_alone, addTransaction, try_catch_finally, try_catch, bind, runAsync,
    db_call, get, set, console_error.
  cbn [fst snd store db faults console clock publications].
  rewrite E0. rewrite fetchRecentTransactions_run.
  cbn [fst snd]. rewrite calculateMonthSummary_run. refreshed.
Qed.

(** One turn of the member loop. *)
Lemma member_loop_cons (billId : Z) (member : NewMember) (ms : list NewMember)
      (w : World) :
  member_loop billId (member :: ms) w =
  if hd false (faults w)
  then (Thrown "SQLiteError", after_query w)
  else member_loop billId ms (after_write (snd (insert_member_of billId member (db w))) w).
Proof.
  unfold member_loop. cbn [for_of]. unfold bind at 1. unfold bind at 1.
  unfold runAsync, db_call.
  destruct (hd false (faults w)); reflexivity.
Qed.

(** The member loop only talks to the database. *)
Lemma member_loop_frame (billId : Z) (ms : list NewMember) (w : World) :
  let w' := snd (member_loop billId ms w) in
  store w' = store w /\ console w' = console w
  /\ clock w' = clock w /\ publications w' = publications w.
Proof.
  revert w. induction ms as [|member ms IH]; intros w; [cbn; auto|].
  rewrite member_loop_cons.
  destruct (hd false (faults w)); [cbn; auto|].
  exact (IH (after_write (snd (insert_member_of billId member (db w))) w)).
Qed.

Lemma addSplitBill_run (bill : NewSplitBill) (members : list NewMember) (w : World) :
  let ins := sql_insert_split_bill (nb_name bill) (nb_date bill)
               (nb_total_amount bill) (nb_image_uri bill) (db w) in
  addSplitBill bill members w =
  if hd false (faults w)
  then (Returned tt, after_caught "[FinanceStore] Error adding split bill:" w)
  else match member_loop (fst ins) members (after_write (snd ins) w) with
       | (Returned _, w2) => fetchSplitBills w2
       | (Thrown e, w2) =>
           console_error "[FinanceStore] Error adding split bill:" e w2
       end.
Proof.
  intros ins. unfold addSplitBill, try_catch.
  unfold bind at 1. unfold runAsync at 1. unfold db_call.
  destruct (hd false (faults w)); [reflexivity|].
  cbn [fst snd]. fold ins. unfold member_loop, after_write, bind, get.
  match goal with
  | |- context [for_of members ?b ?w1] =>
      destruct (for_of members b w1) as [[[]|e] w2]
  end.
  - rewrite fetchSplitBills_run. reflexivity.
  - reflexivity.
Qed.

Lemma addSplitBill_absorbs (bill : NewSplitBill) (members : list NewMember) (w : World) :
  absorbs (addSplitBill bill members) false w.
Proof.
  unfold absorbs. rewrite addSplitBill_run. cbv zeta.
  destruct (hd false (faults w)) eqn:E0; [absorbed|].
  match goal with
  | |- context [member_loop ?i members ?w1] =>
      pose proof (member_loop_frame i members w1) as Hf;
      destruct (member_loop i members w1) as [[[]|e] w2]
  end; cbv zeta in Hf; cbn [fst snd after_write store console] in Hf;
    destruct Hf as (Hs & Hc & _).
  - rewrite fetchSplitBills_run.
    destruct (hd false (faults w2)) eqn:E2;
      cbn [fst snd after_caught after_refresh store console List.length];
      rewrite ?Hs, ?Hc; repeat split; intros; try reflexivity; try lia; try congruence.
  - unfold console_error. cbn [fst snd store console].
    rewrite Hs. repeat split; intros; reflexivity.
Qed.

(** The console is a faithful witness of failures: a rejected first
    statement is logged, and with no rejection nothing is logged. *)
Lemma run_logs_first_failure (a : Action) (w : World) :
  hd false (faults w) = true ->
  List.length (console (snd (run strftime_Ym sql_sum a w))) = S (List.length (console w)).
Proof.
  intros H. destruct a; cbn [run].
  - rewrite fetchCategories_run, H. reflexivity.
  - unfold addCategory, try_catch, bind, runAsync, db_call. rewrite H. reflexivity.
  - unfold updateCategory, try_catch, bind, runAsync, db_call. rewrite H. reflexivity.
  - unfold deleteCategory, try_catch, bind, runAsync, db_call. rewrite H. reflexivity.
  - unfold addTransaction, try_catch_finally, try_catch, bind, runAsync, db_call, set.
    cbn [fst snd faults]. rewrite H. reflexivity.
  - rewrite fetchRecentTransactions_run, H. reflexivity.
  - unfold deleteTransaction, try_catch, bind, runAsync, db_call. rewrite H. reflexivity.
  - rewrite calculateMonthSummary_run. cbv zeta. rewrite H. reflexivity.
  - rewrite fetchSplitBills_run, H. reflexivity.
  - rewrite addSplitBill_run. cbv zeta. rewrite H. reflexivity.
  - unfold deleteSplitBill, try_catch, bind, runAsync, db_call. rewrite H. reflexivity.
Qed.

Lemma member_loop_quiet (billId : Z) (ms : list NewMember) (w : World) :
  faults w = [] ->
  fst (member_loop billId ms w) = Returned tt
  /\ faults (snd (member_loop billId ms w)) = [].
Proof.
  revert w. induction ms as [|member ms IH]; intros w Hf; [cbn; auto|].
  rewrite member_loop_cons, Hf. cbn [hd].
  apply IH. unfold after_write. cbn [faults]. rewrite Hf. reflexivity.
Qed.

Lemma run_quiet_without_faults (a : Action) (w : World) :
  faults w = [] ->
  console (snd (run strftime_Ym sql_sum a w)) = console w.
Proof.
  intros H. destruct a; cbn [run].
  - rewrite fetchCategories_run, H. reflexivity.
  - unfold addCategory, try_catch, bind, runAsync, db_call, get. rewrite H.
    cbn [hd fst snd]. rewrite fetchCategories_run. cbn [fst snd faults tl hd].
    reflexivity.
  - unfold updateCategory, try_catch, bind, runAsync, db_call, get. rewrite H.
    cbn [hd fst snd]. rewrite fetchCategories_run. cbn [fst snd faults tl hd].
    reflexivity.
  - unfold deleteCategory, try_catch, bind, runAsync, db_call, get. rewrite H.
    cbn [hd fst snd faults tl]. rewrite fetchCategories_run.
    cbn [fst snd faults tl hd]. reflexivity.
  - unfold addTransaction, try_catch_finally, try_catch, bind, runAsync, db_call,
      get, set.
    cbn [fst snd faults]. rewrite H. cbn [hd fst snd tl].
    rewrite fetchRecentTransactions_run. cbn [fst snd faults tl hd].
    rewrite calculateMonthSummary_run. cbv zeta. cbn [fst snd faults tl hd].
    reflexivity.
  - rewrite fetchRecentTransactions_run, H. reflexivity.
  - unfold deleteTransaction, try_catch, bind, runAsync, db_call, get. rewrite H.
    cbn [hd fst snd tl].
    rewrite fetchRecentTransactions_run. cbn [fst snd faults tl hd].
    rewrite calculateMonthSummary_run. cbv zeta. cbn [fst snd faults tl hd].
    reflexivity.
  - rewrite calculateMonthSummary_run. cbv zeta. rewrite H. reflexivity.
  - rewrite fetchSplitBills_run, H. reflexivity.
  - rewrite addSplitBill_run. cbv zeta. rewrite H. cbn [hd].
    match goal with
    | |- context [member_loop ?i members ?w1] =>
        pose proof (member_loop_frame i members w1) as Hf;
        destruct (member_loop_quiet i members w1) as [Hr Hq];
          [unfold after_write; cbn [faults]; rewrite H; reflexivity|];
        destruct (member_loop i members w1) as [[[]|e] w2]
    end; cbv zeta in Hf; cbn [fst snd after_write console] in Hf, Hr, Hq;
      [|discriminate Hr].
    destruct Hf as (_ & Hc & _).
    rewrite fetchSplitBills_run, Hq. cbn [hd snd after_refresh console]. exact Hc.
  - unfold deleteSplitBill, try_catch, bind, runAsync, db_call, get. rewrite H.
    cbn [hd fst snd]. rewrite fetchSplitBills_run. cbn [fst snd faults tl hd].
    reflexivity.
Qed.

(** C3 (as amended): every action catches every database failure and
    returns normally.  For the nine actions other than [addTransaction]
    and [deleteTransaction], a caught failure (a new [console.error]
    line) leaves the seven data fields as they were; for all eleven, a
    failure of the action's first statement does.  For [addTransaction]
    and [deleteTransaction] whose own statement went through, each of
    the two refresh steps absorbs its own failure alone: a rejected
    re-fetch leaves [transactions] as it was and an answered one
    republishes it; a rejected summary leaves [balance], [totalMonth],
    [totalIncome], [totalExpense] and [categories] as they were and an
    answered one republishes them for the current month; [splitBills]
    stays; so with both steps rejected all seven fields are as they were.
    [addTransaction] always ends with [isLoading] false. *)
Theorem run_absorbs_failures (a : Action) (w : World) :
  let w' := snd (run strftime_Ym sql_sum a w) in
  fst (run strftime_Ym sql_sum a w) = Returned tt
  /\ (refreshes_twice a = false ->
      (List.length (console w) < List.length (console w'))%nat ->
      data_fields (store w') = data_fields (store w))
  /\ (hd false (faults w) = true ->
      data_fields (store w') = data_fields (store w))
  /\ (forall transaction, a = AddTransaction transaction ->
      isLoading (store w') = false)
  /\ (refreshes_twice a = true -> hd false (faults w) = false ->
      (hd false (tl (faults w)) = true ->
       transactions (store w') = transactions (store w))
      /\ (hd false (tl (faults w)) = false ->
          transactions (store w') = sql_recent_transactions (db w'))
      /\ (succeed 3 (tl (tl (faults w))) = false ->
          summary_fields (store w') = summary_fields (store w))
      /\ (succeed 3 (tl (tl (faults w))) = true ->
          summary_fields (store w')
          = summary_fields
              (summarised strftime_Ym sql_sum (yearMonth_of (clock w)) (db w')
                          (store w)))
      /\ splitBills (store w') = splitBills (store w)
      /\ (hd false (tl (faults w)) = true ->
          succeed 3 (tl (tl (faults w))) = false ->
          data_fields (store w') = data_fields (store w))).
Proof.
  cbv zeta.
  assert (Hother : forall twice,
             absorbs (run strftime_Ym sql_sum a) twice w ->
             (forall transaction, a <> AddTransaction transaction) ->
             twice = refreshes_twice a ->
             fst (run strftime_Ym sql_sum a w) = Returned tt
             /\ (refreshes_twice a = false ->
                 (List.length (console w)
                  < List.length (console (snd (run strftime_Ym sql_sum a w))))%nat ->
                 data_fields (store (snd (run strftime_Ym sql_sum a w)))
                 = data_fields (store w))
             /\ (hd false (faults w) = true ->
                 data_fields (store (snd (run strftime_Ym sql_sum a w)))
                 = data_fields (store w))
             /\ (forall transaction, a = AddTransaction transaction ->
                 isLoading (store (snd (run strftime_Ym sql_sum a w))) = false)).
  { intros twice (H1 & H2 & H3) Hne ->. repeat split; auto.
    intros t Ht. destruct (Hne t Ht). }
  assert (Hsplit : forall P Q R S T : Prop,
             P /\ Q /\ R /\ S -> T -> P /\ Q /\ R /\ S /\ T) by tauto.
  apply Hsplit; clear Hsplit.
  - destruct a; cbn [run refreshes_twice] in *.
    + apply (Hother false); [apply fetchCategories_absorbs|discriminate|reflexivity].
    + apply (Hother false); [apply addCategory_absorbs|discriminate|reflexivity].
    + apply (Hother false); [apply updateCategory_absorbs|discriminate|reflexivity].
    + apply (Hother false); [apply deleteCategory_absorbs|discriminate|reflexivity].
    + destruct (addTransaction_absorbs transaction w) as ((H1 & H2 & H3) & H4).
      repeat split; auto.
    + apply (Hother false);
        [apply fetchRecentTransactions_absorbs|discriminate|reflexivity].
    + apply (Hother true); [apply deleteTransaction_absorbs|discriminate|reflexivity].
    + apply (Hother false);
        [apply calculateMonthSummary_absorbs|discriminate|reflexivity].
    + apply (Hother false); [apply fetchSplitBills_absorbs|discriminate|reflexivity].
    + apply (Hother false); [apply addSplitBill_absorbs|discriminate|reflexivity].
    + apply (Hother false); [apply deleteSplitBill_absorbs|discriminate|reflexivity].
  - clear Hother. intros Htwice E0.
    destruct a; try discriminate Htwice; cbn [run].
    + exact (addTransaction_refreshes transaction w E0).
    + exact (deleteTransaction_refreshes id w E0).
Qed.

End Absorption.

(** C3 (witness): the category query of [fetchCategories] rejects; and
    the delete of [deleteTransaction] goes through while its re-fetch
    rejects: the lunch is still listed, the summary no longer counts it. *)
Lemma run_absorbs_failures_witness :
  let w := with_faults [true] demo_world in
  let w' := snd (run iso_strftime_Ym sum_in_order FetchCategories w) in
  let v := with_faults [false; true] demo_world in
  let v' := snd (run iso_strftime_Ym sum_in_order (DeleteTransaction 1) v) in
  fst (run iso_strftime_Ym sum_in_order FetchCategories w) = Returned tt
  /\ (List.length (console w) < List.length (console w'))%nat
  /\ data_fields (store w') = data_fields (store w)
  /\ hd false (faults v) = false
  /\ hd false (tl (faults v)) = true
  /\ succeed 3 (tl (tl (faults v))) = true
  /\ transactions (store v') = transactions (store v)
  /\ totalExpense (store v') = 150%float.
Proof.
  cbv zeta.
  destruct (run_absorbs_failures iso_strftime_Ym sum_in_order FetchCategories
              (with_faults [true] demo_world)) as (H1 & H2 & H3 & _).
  split; [exact H1|].
  split; [vm_compute; lia|].
  split; [apply H3; reflexivity|].
  destruct (run_absorbs_failures iso_strftime_Ym sum_in_order (DeleteTransaction 1)
              (with_faults [false; true] demo_world)) as (_ & _ & _ & _ & H5).
  destruct (H5 eq_refl eq_refl) as (Ht & _ & _ & Hs & _).
  split; [reflexivity|]. split; [reflexivity|]. split; [reflexivity|].
  split; [exact (Ht eq_refl)|].
  apply (f_equal (fun fields => snd (fst fields))) in Hs; [|reflexivity].
  exact (eq_trans Hs eq_refl).
Defined.

(** C3 (counterexample): the delete of [deleteTransaction] goes through,
    the re-fetch of the recent transactions rejects and is logged, and the
    summary that follows still publishes new totals. *)
Lemma caught_failure_may_still_publish :
  ~ (forall (a : Action) (w : World),
        let w' := snd (run iso_strftime_Ym sum_in_order a w) in
        (List.length (console w) < List.length (console w'))%nat ->
        data_fields (store w') = data_fields (store w)).
Proof.
  intros H.
  specialize (H (DeleteTransaction 1) (with_faults [false; true] demo_world)).
  cbv zeta in H.
  assert (Hlt : (List.length (console (with_faults [false; true] demo_world))
                 < List.length
                     (console (snd (run iso_strftime_Ym sum_in_order (DeleteTransaction 1)
                                      (with_faults [false; true] demo_world)))))%nat)
    by (vm_compute; lia).
  apply H in Hlt.
  apply (f_equal (fun fields => snd fields)) in Hlt.
  vm_compute in Hlt. discriminate Hlt.
Qed.

(* ================================================================== *)
(** * Category updates                                                  *)
(* ================================================================== *)

Lemma fetchCategories_db (w : World) : db (snd (fetchCategories w)) = db w.
Proof.
  rewrite fetchCategories_run. destruct (hd false (faults w)); reflexivity.
Qed.

Lemma updateCategory_db (id : Z) (category : PartialCategory) (w : World) :
  db (snd (updateCategory id category w)) =
  if hd false (faults w) then db w
  else snd (sql_update_category (or_empty (pc_name category))
              (or_empty (pc_icon category)) (or_empty (pc_color category)) id (db w)).
Proof.
  unfold updateCategory, try_catch, bind, runAsync, db_call, get, console_error.
  destruct (hd false (faults w)); [reflexivity|].
  cbn [fst snd]. rewrite fetchCategories_run.
  cbn [fst snd faults]. destruct (hd false (tl (faults w))); reflexivity.
Qed.

(** C4: [updateCategory] writes the [name], [icon] and [color] of the
    rows with the given id and nothing else: a field missing from the
    partial input is written as the empty string, while [id],
    [budget_limit] and [category_type] of every row, the rows with another
    id and the other tables stay as they were. *)
Theorem updateCategory_frame (id : Z) (category : PartialCategory) (w : World) :
  let old := categories_tbl (db w) in
  let new := categories_tbl (db (snd (updateCategory id category w))) in
  map cr_id new = map cr_id old
  /\ map cr_budget_limit new = map cr_budget_limit old
  /\ map cr_category_type new = map cr_category_type old
  /\ (forall i r, nth_error old i = Some r -> cr_id r <> id ->
                  nth_error new i = Some r)
  /\ transactions_tbl (db (snd (updateCategory id category w)))
     = transactions_tbl (db w)
  /\ split_bills_tbl (db (snd (updateCategory id category w)))
     = split_bills_tbl (db w)
  /\ split_bill_members_tbl (db (snd (updateCategory id category w)))
     = split_bill_members_tbl (db w)
  /\ (hd false (faults w) = false ->
      forall i r, nth_error old i = Some r -> cr_id r = id ->
        nth_error new i =
        Some (mkCategoryRow (cr_id r)
                (match pc_name category with Some s => s | None => "" end)
                (match pc_icon category with Some s => s | None => "" end)
                (match pc_color category with Some s => s | None => "" end)
                (cr_budget_limit r) (cr_category_type r))).
Proof.
  cbv zeta. rewrite updateCategory_db.
  destruct (hd false (faults w)) eqn:E0.
  - repeat split; auto. discriminate.
  - cbn [snd sql_update_category with_categories_tbl categories_tbl
         transactions_tbl split_bills_tbl split_bill_members_tbl].
    repeat split.
    + rewrite map_map. apply map_ext. intros r. destruct (cr_id r =? id); reflexivity.
    + rewrite map_map. apply map_ext. intros r. destruct (cr_id r =? id); reflexivity.
    + rewrite map_map. apply map_ext. intros r. destruct (cr_id r =? id); reflexivity.
    + intros i r Hr Hne. rewrite nth_error_map, Hr. cbn [option_map].
      destruct (Z.eqb_spec (cr_id r) id); [contradiction|reflexivity].
    + intros _ i r Hr He. rewrite nth_error_map, Hr. cbn [option_map].
      destruct (Z.eqb_spec (cr_id r) id); [reflexivity|contradiction].
Qed.

(** C4 (witness): only a new name is given for category 1. *)
Lemma updateCategory_frame_witness :
  let patch := mkPartialCategory None (Some "Meals") None None (Some 99) None None None in
  hd false (faults demo_world) = false
  /\ nth_error (categories_tbl (db (snd (updateCategory 1 patch demo_world)))) 0
     = Some (mkCategoryRow 1 "Meals" "" "" 0 (Some expense)).
Proof.
  cbv zeta. split; [reflexivity|].
  pose proof (updateCategory_frame 1
                (mkPartialCategory None (Some "Meals") None None (Some 99) None None None)
                demo_world) as H.
  cbv zeta in H. destruct H as (_ & _ & _ & _ & _ & _ & _ & H).
  apply (H eq_refl 0%nat (mkCategoryRow 1 "Food" "emoji:1" "#f00" 0 (Some expense)));
    reflexivity.
Defined.

(* ================================================================== *)
(** * Split bills: a failure among the member inserts                   *)
(* ================================================================== *)

(** The member loop appends one row per member, in order, and touches no
    other table. *)
Lemma insert_members_rows (billId : Z) (ms : list NewMember) (d : DB) :
  exists rows,
    split_bill_members_tbl (insert_members billId ms d)
    = split_bill_members_tbl d ++ rows
    /\ map member_payload rows
       = map (fun member => (billId, nm_name member, nm_share_amount member,
                             if nm_is_me member then 1 else 0)) ms
    /\ split_bills_tbl (insert_members billId ms d) = split_bills_tbl d
    /\ categories_tbl (insert_members billId ms d) = categories_tbl d
    /\ transactions_tbl (insert_members billId ms d) = transactions_tbl d.
Proof.
  revert d. induction ms as [|member ms IH]; intros d.
  - exists []. cbn. rewrite app_nil_r. auto.
  - cbn [insert_members fold_left].
    destruct (IH (snd (insert_member_of billId member d)))
      as (rows & Hm & Hp & Hb & Hc & Ht).
    unfold insert_members in *.
    eexists (_ :: rows). rewrite Hm, Hb, Hc, Ht.
    cbn [insert_member_of sql_insert_member snd with_split_bill_members_tbl
         split_bill_members_tbl split_bills_tbl categories_tbl transactions_tbl].
    rewrite <- app_assoc. cbn [app].
    split; [reflexivity|]. split; [|auto].
    cbn [map member_payload m_split_bill_id m_name m_share_amount m_is_me].
    rewrite Hp. reflexivity.
Qed.

(** The loop when the insert after [j] good ones rejects. *)
Lemma member_loop_fails_at (billId : Z) (j : nat) :
  forall (ms : list NewMember) (w : World) (rest : list bool),
    (j < List.length ms)%nat ->
    faults w = repeat false j ++ true :: rest ->
    member_loop billId ms w =
    (Thrown "SQLiteError",
     mkWorld (store w) (insert_members billId (firstn j ms) (db w)) rest
             (console w) (clock w) (publications w)).
Proof.
  induction j as [|j IH]; intros ms w rest Hj Hf;
    (destruct ms as [|member ms]; [cbn in Hj; lia|]);
    rewrite member_loop_cons, Hf; cbn [repeat app hd].
  - unfold after_query. rewrite Hf. reflexivity.
  - rewrite (IH ms _ rest).
    + unfold after_write. cbn [store db console clock publications firstn
                               insert_members fold_left]. reflexivity.
    + cbn in Hj. lia.
    + unfold after_write. cbn [faults]. rewrite Hf. reflexivity.
Qed.

(** C5: when the bill insert succeeds and the [k]-th member insert
    rejects, [addSplitBill] returns normally having logged one error; the
    bill row and exactly the first [k-1] member rows (with [is_me] stored
    as 1 or 0) stay in the tables, nothing is rolled back, the in-memory
    state is untouched, and a later successful [fetchSplitBills] shows the
    bill. *)
Theorem addSplitBill_partial_failure (bill : NewSplitBill) (members : list NewMember)
        (k : nat) (rest : list bool) (w : World) :
  (1 <= k <= List.length members)%nat ->
  faults w = false :: repeat false (k - 1) ++ true :: rest ->
  let w' := snd (addSplitBill bill members w) in
  let billId := next_rowid (map sb_id (split_bills_tbl (db w))) in
  let row := mkSplitBill billId (nb_date bill) (nb_name bill)
                         (nb_total_amount bill) (nb_image_uri bill) None in
  fst (addSplitBill bill members w) = Returned tt
  /\ split_bills_tbl (db w') = split_bills_tbl (db w) ++ [row]
  /\ (exists rows,
         split_bill_members_tbl (db w') = split_bill_members_tbl (db w) ++ rows
         /\ map member_payload rows
            = map (fun member => (billId, nm_name member, nm_share_amount member,
                                  if nm_is_me member then 1 else 0))
                  (firstn (k - 1) members))
  /\ console w' = ("[FinanceStore] Error adding split bill:", "SQLiteError") :: console w
  /\ store w' = store w
  /\ faults w' = rest
  /\ (hd false rest = false ->
      splitBills (store (snd (fetchSplitBills w')))
      = sql_select_split_bills (db w')
      /\ In row (splitBills (store (snd (fetchSplitBills w'))))).
Proof.
  intros Hk Hf w' billId row. subst w'.
  rewrite addSplitBill_run. cbv zeta. rewrite Hf. cbn [hd].
  rewrite (member_loop_fails_at _ (k - 1) members _ rest);
    [|lia|unfold after_write; cbn [faults]; rewrite Hf; reflexivity].
  unfold console_error, after_write.
  cbn [fst snd store db console clock publications faults].
  destruct (insert_members_rows
              (fst (sql_insert_split_bill (nb_name bill) (nb_date bill)
                      (nb_total_amount bill) (nb_image_uri bill) (db w)))
              (firstn (k - 1) members)
              (snd (sql_insert_split_bill (nb_name bill) (nb_date bill)
                      (nb_total_amount bill) (nb_image_uri bill) (db w))))
    as (rows & Hm & Hp & Hb & _).
  cbn [sql_insert_split_bill fst snd with_split_bills_tbl split_bills_tbl
       split_bill_members_tbl] in Hm, Hp, Hb.
  fold billId in Hm, Hp, Hb. fold row in Hb.
  cbn [sql_insert_split_bill fst snd]. fold billId. fold row.
  split; [reflexivity|]. split; [exact Hb|].
  split; [exists rows; split; assumption|].
  split; [reflexivity|]. split; [reflexivity|]. split; [reflexivity|].
  intros Hrest. rewrite fetchSplitBills_run.
  cbn [snd faults]. rewrite Hrest.
  cbn [after_refresh store set_splitBills splitBills db].
  split; [reflexivity|].
  unfold sql_select_split_bills. apply in_order_by.
  rewrite Hb. apply in_or_app. right. left. reflexivity.
Qed.

(** C5 (witness): the second of three member inserts rejects. *)
Lemma addSplitBill_partial_failure_witness :
  let w := with_faults [false; false; true] demo_world in
  (1 <= 2 <= List.length diners)%nat
  /\ faults w = false :: repeat false (2 - 1) ++ true :: []
  /\ split_bills_tbl (db (snd (addSplitBill dinner diners w)))
     = [mkSplitBill 1 "2024-06-20" "Dinner" 300 None None]
  /\ store (snd (addSplitBill dinner diners w)) = store w.
Proof.
  cbv zeta.
  assert (Hk : (1 <= 2 <= List.length diners)%nat) by (cbn; lia).
  assert (Hf : faults (with_faults [false; false; true] demo_world)
               = false :: repeat false (2 - 1) ++ true :: []) by reflexivity.
  split; [exact Hk|]. split; [exact Hf|].
  pose proof (addSplitBill_partial_failure dinner diners 2 []
                (with_faults [false; false; true] demo_world) Hk Hf) as H.
  cbv zeta in H. destruct H as (_ & Hb & _ & _ & Hs & _).
  split; [rewrite Hb; reflexivity|exact Hs].
Defined.

(* ================================================================== *)
(** * The recent transactions are an inner join                         *)
(* ================================================================== *)

Lemma in_sql_join (d : DB) (t' : Transaction) :
  In t' (sql_join d) <->
  exists t c, In t (transactions_tbl d) /\ In c (categories_tbl d)
              /\ tx_category_id t = cr_id c /\ t' = joined t c.
Proof.
  unfold sql_join. rewrite in_flat_map. split.
  - intros (t & Ht & Hin). apply in_map_iff in Hin.
    destruct Hin as (c & <- & Hc). apply filter_In in Hc.
    destruct Hc as (Hc & He). apply Z.eqb_eq in He. eauto 6.
  - intros (t & c & Ht & Hc & He & ->). exists t. split; [exact Ht|].
    apply in_map. apply filter_In. split; [exact Hc|]. apply Z.eqb_eq. exact He.
Qed.

Lemma in_sql_recent_transactions (d : DB) (t' : Transaction) :
  In t' (sql_recent_transactions d) -> In t' (sql_join d).
Proof.
  unfold sql_recent_transactions. intros H.
  apply in_firstn in H. apply in_order_by in H. exact H.
Qed.



(* ================================================================== *)
(** * Aliases                                                           *)
(* ================================================================== *)

(** C9: the alias [addExpense] is [addTransaction] on every database
    state and every input, of type expense, income or none; the alias
    [calculateTotalMonth] is [calculateMonthSummary] for every month
    argument. *)
Theorem aliases_agree (strftime_Ym : string -> option string)
        (sql_sum : list float -> float) :
  (forall (transaction : NewTransaction) (w : World),
      addExpense strftime_Ym sql_sum transaction w
      = addTransaction strftime_Ym sql_sum transaction w)
  /\ (forall (selectedMonth : option JsDate) (w : World),
         calculateTotalMonth strftime_Ym sql_sum selectedMonth w
         = calculateMonthSummary strftime_Ym sql_sum selectedMonth w).
Proof.
  split; intros; reflexivity.
Qed.

(* ================================================================== *)
(** * Deleting a transaction and the month's expenses                   *)
(* ================================================================== *)



Section Deleting.

Variable strftime_Ym : string -> option string.
Variable sql_sum : list float -> float.



End Deleting.



(** ... and for an expense row the new total is the previous one less the
    amount only as far as double arithmetic is exact: with the two
    expenses 0.1 and 0.2 in the table, deleting the first leaves 0.2,
    while 0.1 + 0.2 - 0.1 is 0.20000000000000004. *)
Lemma deleting_a_fraction_is_inexact :
  let w := with_faults [] (mkWorld initial_state fractions_db [] [] june 0) in
  let w1 := snd (calculateMonthSummary iso_strftime_Ym sum_in_order (Some june) w) in
  let w2 := snd (deleteTransaction iso_strftime_Ym sum_in_order 1 w1) in
  let w3 := snd (calculateMonthSummary iso_strftime_Ym sum_in_order (Some june) w2) in
  totalExpense (store w3) = tx_amount fifth
  /\ totalExpense (store w3)
     <> PrimFloat.sub (totalExpense (store w1)) (tx_amount tenth).
Proof.
  cbv zeta. split; [reflexivity|].
  intros H. apply (f_equal Prim2SF) in H. vm_compute in H. discriminate H.
Qed.

(* ================================================================== *)
(** * Deleting a category                                               *)
(* ================================================================== *)

(** [deleteCategory] when its three database calls come back: the
    transactions of the category go first, then the category row, then the
    categories are fetched again. *)
Lemma deleteCategory_ok (id : Z) (w : World) :
  succeed 3 (faults w) = true ->
  let d1 := snd (sql_delete_transactions_of_category id (db w)) in
  let d2 := snd (sql_delete_category id d1) in
  deleteCategory id w =
  (Returned tt,
   after_refresh (set_categories (map category_of_row (categories_tbl d2)))
     (after_write d2 (after_write d1 w))).
Proof.
  intros H d1 d2.
  apply succeed_S in H. destruct H as [H1 H].
  apply succeed_S in H. destruct H as [H2 H].
  apply succeed_S in H. destruct H as [H3 _].
  unfold deleteCategory, try_catch, bind, runAsync, db_call, get.
  rewrite H1. cbn [fst snd faults]. rewrite H2.
  cbn [fst snd]. rewrite fetchCategories_run.
  cbn [fst snd faults]. rewrite H3. reflexivity.
Qed.

(** In the database nothing refers to the deleted category any more. *)
Lemma deleteCategory_cleans_tables (id : Z) (w : World) :
  succeed 3 (faults w) = true ->
  let w' := snd (deleteCategory id w) in
  (forall t, In t (transactions_tbl (db w')) -> tx_category_id t <> id)
  /\ (forall c, In c (categories_tbl (db w')) -> cr_id c <> id)
  /\ (forall c, In c (categories (store w')) -> cat_id c <> id).
Proof.
  intros H w'. subst w'. rewrite (deleteCategory_ok _ _ H).
  cbn [snd after_refresh after_write db store set_categories categories
       sql_delete_category sql_delete_transactions_of_category
       with_categories_tbl with_transactions_tbl transactions_tbl categories_tbl].
  repeat split.
  - intros t Ht. apply filter_In in Ht. destruct Ht as [_ Ht].
    apply negb_true_iff in Ht. apply Z.eqb_neq in Ht. exact Ht.
  - intros c Hc. apply filter_In in Hc. destruct Hc as [_ Hc].
    apply negb_true_iff in Hc. apply Z.eqb_neq in Hc. exact Hc.
  - intros c Hc. apply in_map_iff in Hc. destruct Hc as (r & <- & Hr).
    apply filter_In in Hr. destruct Hr as [_ Hr].
    apply negb_true_iff in Hr. apply Z.eqb_neq in Hr. exact Hr.
Qed.

(** ... but the cached transactions and totals are whatever they were:
    [deleteCategory] publishes categories only. *)
Lemma deleteCategory_keeps_transaction_cache (id : Z) (w : World) :
  let w' := snd (deleteCategory id w) in
  transactions (store w') = transactions (store w)
  /\ totalExpense (store w') = totalExpense (store w)
  /\ balance (store w') = balance (store w).
Proof.
  cbv zeta.
  unfold deleteCategory, try_catch, bind, runAsync, db_call, get, console_error.
  destruct (hd false (faults w)); [cbn; auto|].
  cbn [fst snd faults].
  destruct (hd false (tl (faults w))); [cbn; auto|].
  cbn [fst snd]. rewrite fetchCategories_run.
  cbn [fst snd faults].
  destruct (hd false (tl (tl (faults w)))); cbn; auto.
Qed.

(** C2: on the demo database, with every database call answered,
    [deleteCategory 1] removes the lunch (the one transaction of category
    1) and the category row from the tables, yet the in-memory
    transactions still list the lunch under category 1: the action
    re-fetches the categories only, where [deleteTransaction] and
    [addTransaction] re-fetch the transactions after changing them. *)
Theorem deleteCategory_leaves_stale_transactions :
  let w' := snd (deleteCategory 1 demo_world) in
  fst (deleteCategory 1 demo_world) = Returned tt
  /\ transactions_tbl (db w') = [salary; bus]
  /\ map cr_id (categories_tbl (db w')) = [2; 3]
  /\ map cat_id (categories (store w')) = [2; 3]
  /\ In (mkTransaction lunch (Some "Food") (Some "emoji:1") (Some "#f00"))
        (transactions (store w'))
  /\ tx_category_id lunch = 1.
Proof.
  cbv zeta. repeat split; try reflexivity.
  right. right. left. reflexivity.
Qed.

(* ================================================================== *)
(** * Concrete runs of the summary                                      *)
(* ================================================================== *)

(** C1 (witness): June on the demo database. *)
Lemma calculateMonthSummary_publishes_witness :
  succeed 3 (faults demo_world) = true
  /\ totalExpense
       (store (snd (calculateMonthSummary iso_strftime_Ym sum_in_order (Some june)
                      demo_world)))
     = 50150%float
  /\ totalIncome
       (store (snd (calculateMonthSummary iso_strftime_Ym sum_in_order (Some june)
                      demo_world)))
     = 70000%float
  /\ balance
       (store (snd (calculateMonthSummary iso_strftime_Ym sum_in_order (Some june)
                      demo_world)))
     = 19850%float.
Proof.
  split; [reflexivity|].
  pose proof (calculateMonthSummary_publishes iso_strftime_Ym sum_in_order (Some june)
                demo_world eq_refl) as H.
  cbv zeta in H. destruct H as (_ & HE & HI & _ & _ & _ & _ & HB & _).
  split; [exact (eq_trans HE eq_refl)|].
  split; [exact (eq_trans HI eq_refl)|exact (eq_trans HB eq_refl)].
Defined.

(** C1 (counterexample): a refund of 100150 booked under Transport as a
    negative expense makes the June expenses of the demo database add up
    to -50000, which is not 0; the summary gives Food the percentage 0,
    where [Math.round((50000 / -50000) * 100)] is -100. *)
Lemma negative_total_gives_percentage_0 :
  ~ (forall (selectedMonth : option JsDate) (w : World),
        succeed 3 (faults w) = true ->
        let ym := yearMonth_of (target_date selectedMonth w) in
        let w' := snd (calculateMonthSummary iso_strftime_Ym sum_in_order
                         selectedMonth w) in
        PrimFloat.eqb (totalExpense (store w')) 0%float = false ->
        map cat_percentage (categories (store w'))
        = map (fun cat =>
                 Some (Math_round
                         (PrimFloat.mul
                            (PrimFloat.div
                               (spent_in iso_strftime_Ym sum_in_order ym (cat_id cat)
                                         (db w))
                               (totalExpense (store w')))
                            100%float)))
              (categories (store w))).
Proof.
  intros H.
  specialize (H (Some june)
                (snd (addTransaction iso_strftime_Ym sum_in_order (refund (-100150))
                        demo_world))
                eq_refl eq_refl).
  apply (f_equal (fun l => option_map Prim2SF (hd None l))) in H.
  vm_compute in H. discriminate H.
Qed.

(** C6 (witness): summarising June twice on the demo database. *)
Lemma calculateMonthSummary_idempotent_witness :
  succeed 6 (faults demo_world) = true
  /\ store (snd (calculateMonthSummary iso_strftime_Ym sum_in_order (Some june)
                   (snd (calculateMonthSummary iso_strftime_Ym sum_in_order (Some june)
                           demo_world))))
     = store (snd (calculateMonthSummary iso_strftime_Ym sum_in_order (Some june)
                     demo_world)).
Proof.
  split; [reflexivity|].
  pose proof (calculateMonthSummary_idempotent iso_strftime_Ym sum_in_order (Some june)
                demo_world eq_refl) as H.
  cbv zeta in H. destruct H as (_ & H & _). exact H.
Defined.

(** The store takes any amount: with a refund of 25150 booked under
    Transport as a negative expense, the June expenses of the demo
    database add up to 25000 and the summary publishes the percentages
    200 for Food and -100 for Transport. *)
Lemma refund_breaks_percentage_range :
  let w := snd (addTransaction iso_strftime_Ym sum_in_order (refund (-25150))
                  demo_world) in
  fst (addTransaction iso_strftime_Ym sum_in_order (refund (-25150)) demo_world)
  = Returned tt
  /\ totalExpense (store w) = 25000%float
  /\ map cat_totalSpent (categories (store w))
     = [Some 50000%float; Some 0%float; Some (-25000)%float]
  /\ map cat_percentage (categories (store w))
     = [Some 200%float; Some 0%float; Some (-100)%float].
Proof.
  cbv zeta. repeat split.
Qed.

(* ================================================================== *)
(** * Row ids stay distinct                                             *)
(* ================================================================== *)

Lemma le_fold_max (ids : list Z) (k : Z) :
  In k ids -> k <= fold_right Z.max 0 ids.
Proof.
  induction ids as [|x ids IH]; simpl; [tauto|].
  intros [->|H]; [lia|]. specialize (IH H). lia.
Qed.

Lemma next_rowid_fresh (ids : list Z) : ~ In (next_rowid ids) ids.
Proof.
  intros H. apply le_fold_max in H. unfold next_rowid in H. lia.
Qed.

Lemma NoDup_snoc_fresh (ids : list Z) :
  NoDup ids -> NoDup (ids ++ [next_rowid ids]).
Proof.
  intros H. apply NoDup_app.
  - exact H.
  - repeat constructor. intros [].
  - intros k Hk [<-|[]]. exact (next_rowid_fresh ids Hk).
Qed.

(** Inserting a category keeps the category ids distinct. *)
Lemma sql_insert_category_ids (name icon color : string) (budget_limit : Z)
      (category_type : TransactionType) (d : DB) :
  NoDup (map cr_id (categories_tbl d)) ->
  NoDup (map cr_id (categories_tbl
                      (snd (sql_insert_category name icon color budget_limit
                              category_type d)))).
Proof.
  intros H. cbn [sql_insert_category snd with_categories_tbl categories_tbl].
  rewrite map_app. cbn [map cr_id]. apply NoDup_snoc_fresh. exact H.
Qed.

(** Inserting a transaction keeps the transaction ids distinct. *)
Lemma sql_insert_transaction_ids (category_id : Z) (amount : float)
      (date note : string) (image_uri : option string) (type : TransactionType)
      (d : DB) :
  NoDup (map tx_id (transactions_tbl d)) ->
  NoDup (map tx_id (transactions_tbl
                      (snd (sql_insert_transaction category_id amount date note
                              image_uri type d)))).
Proof.
  intros H. cbn [sql_insert_transaction snd with_transactions_tbl transactions_tbl].
  rewrite map_app. cbn [map tx_id]. apply NoDup_snoc_fresh. exact H.
Qed.

(** A successful [fetchCategories] caches exactly the stored ids. *)
Lemma fetchCategories_ids (w : World) :
  hd false (faults w) = false ->
  map cat_id (categories (store (snd (fetchCategories w))))
  = map cr_id (categories_tbl (db w)).
Proof.
  intros H. rewrite fetchCategories_run, H.
  cbn [snd after_refresh store set_categories categories].
  rewrite map_map. reflexivity.
Qed.

(** The summary keeps the cached ids, whatever the database does. *)
Lemma calculateMonthSummary_ids (strftime_Ym : string -> option string)
      (sql_sum : list float -> float)
      (selectedMonth : option JsDate) (w : World) :
  map cat_id
      (categories (store (snd (calculateMonthSummary strftime_Ym sql_sum selectedMonth w))))
  = map cat_id (categories (store w)).
Proof.
  rewrite calculateMonthSummary_run. cbv zeta. cbn [snd].
  destruct (hd false (faults w)); [reflexivity|].
  destruct (hd false (tl (faults w))); [reflexivity|].
  destruct (hd false (tl (tl (faults w)))); [reflexivity|].
  cbn [after_refresh after_query store summarised set_summary categories].
  rewrite map_map. reflexivity.
Qed.

(* ================================================================== *)
(** * Further properties: the order of the fetched lists                *)
(* ================================================================== *)

Lemma date_desc_id_desc_iff (d1 : string) (i1 : Z) (d2 : string) (i2 : Z) :
  date_desc_id_desc d1 i1 d2 i2 = true <-> newer d1 i1 d2 i2.
Proof.
  unfold date_desc_id_desc, newer.
  destruct (String.compare d1 d2) eqn:E.
  - apply String.compare_eq_iff in E. subst d2. rewrite Z.leb_le.
    split; [intros H; right; auto|intros [H|[_ H]]; [discriminate|exact H]].
  - split; [discriminate|].
    intros [H|[H _]]; [discriminate|].
    subst d2. assert (E' : String.compare d1 d1 = Eq)
      by (apply String_as_OT.cmp_eq; reflexivity).
    congruence.
  - split; auto.
Qed.

Lemma compare_Gt_lt (a b : string) :
  String.compare a b = Gt <-> String_as_OT.lt b a.
Proof.
  rewrite <- String_as_OT.cmp_lt. unfold String_as_OT.cmp.
  rewrite (String.compare_antisym b a).
  destruct (String.compare a b); simpl; split; congruence.
Qed.

Lemma newer_total (d1 : string) (i1 : Z) (d2 : string) (i2 : Z) :
  newer d1 i1 d2 i2 \/ newer d2 i2 d1 i1.
Proof.
  unfold newer. destruct (String.compare d1 d2) eqn:E.
  - apply String.compare_eq_iff in E. subst d2.
    destruct (Z.le_ge_cases i1 i2); [right|left]; right; auto.
  - right. left. rewrite String.compare_antisym, E. reflexivity.
  - left. left. reflexivity.
Qed.

Lemma newer_trans (d1 : string) (i1 : Z) (d2 : string) (i2 : Z) (d3 : string) (i3 : Z) :
  newer d1 i1 d2 i2 -> newer d2 i2 d3 i3 -> newer d1 i1 d3 i3.
Proof.
  unfold newer. intros [H12|[-> H12]] [H23|[-> H23]].
  - left. apply compare_Gt_lt. apply compare_Gt_lt in H12, H23.
    exact (String_as_OT.lt_trans _ _ _ H23 H12).
  - left. exact H12.
  - left. exact H23.
  - right. split; [reflexivity|lia].
Qed.

Section Ordering.

Context {A : Type} (before : A -> A -> bool).

Let R (x y : A) : Prop := before x y = true.

Hypothesis before_total : forall x y, R x y \/ R y x.
Hypothesis before_trans : forall x y z, R x y -> R y z -> R x z.

Lemma insert_by_perm (x : A) (l : list A) :
  Permutation (insert_by before x l) (x :: l).
Proof.
  induction l as [|y l IH]; simpl; [reflexivity|].
  destruct (before x y); [reflexivity|].
  rewrite IH. apply perm_swap.
Qed.

Lemma order_by_perm (l : list A) : Permutation (order_by before l) l.
Proof.
  induction l as [|x l IH]; simpl; [reflexivity|].
  rewrite insert_by_perm. constructor. exact IH.
Qed.

Lemma insert_by_sorted (x : A) (l : list A) :
  StronglySorted R l -> StronglySorted R (insert_by before x l).
Proof.
  induction 1 as [|y l Hs IH Hy]; simpl.
  - constructor; constructor.
  - destruct (before x y) eqn:E.
    + constructor; [constructor; assumption|].
      constructor; [exact E|].
      rewrite Forall_forall in *. intros z Hz.
      apply (before_trans x y z); [exact E|apply Hy; exact Hz].
    + constructor; [exact IH|].
      rewrite Forall_forall in *. intros z Hz.
      apply in_insert_by in Hz. destruct Hz as [->|Hz]; [|apply Hy; exact Hz].
      destruct (before_total x y) as [H|H]; [unfold R in H; congruence|exact H].
Qed.

Lemma order_by_sorted (l : list A) : StronglySorted R (order_by before l).
Proof.
  induction l as [|x l IH]; simpl; [constructor|].
  apply insert_by_sorted. exact IH.
Qed.

(** A sorted list cut in two: the front is sorted and comes before the
    back. *)
Lemma sorted_cut (n : nat) (l : list A) :
  StronglySorted R l ->
  StronglySorted R (firstn n l)
  /\ (forall a b, In a (firstn n l) -> In b (skipn n l) -> R a b).
Proof.
  intros Hs. revert n. induction Hs as [|x l Hs IH Hx]; intros n.
  - rewrite firstn_nil, skipn_nil. split; [constructor|intros a b []].
  - destruct n as [|n]; [split; [constructor|intros a b []]|].
    cbn [firstn skipn]. destruct (IH n) as [IH1 IH2]. split.
    + constructor; [exact IH1|].
      rewrite Forall_forall in *. intros z Hz. apply Hx.
      apply in_firstn in Hz. exact Hz.
    + intros a b [<-|Ha] Hb; [|apply IH2; assumption].
      rewrite Forall_forall in Hx. apply Hx.
      rewrite <- (firstn_skipn n l). apply in_or_app. right. exact Hb.
Qed.

End Ordering.

Lemma StronglySorted_weaken {A : Type} (R1 R2 : A -> A -> Prop) (l : list A) :
  (forall x y, R1 x y -> R2 x y) -> StronglySorted R1 l -> StronglySorted R2 l.
Proof.
  intros H. induction 1 as [|x l Hs IH Hx]; constructor; [exact IH|].
  rewrite Forall_forall in *. auto.
Qed.

Lemma recent_first_iff (a b : Transaction) :
  recent_first a b = true <-> newer_transaction a b.
Proof. apply date_desc_id_desc_iff. Qed.

Lemma bill_first_iff (a b : SplitBill) :
  bill_first a b = true <-> newer_bill a b.
Proof. apply date_desc_id_desc_iff. Qed.

Lemma recent_first_total (a b : Transaction) :
  recent_first a b = true \/ recent_first b a = true.
Proof. rewrite !recent_first_iff. apply newer_total. Qed.

Lemma recent_first_trans (a b c : Transaction) :
  recent_first a b = true -> recent_first b c = true -> recent_first a c = true.
Proof. rewrite !recent_first_iff. apply newer_trans. Qed.

Lemma bill_first_total (a b : SplitBill) :
  bill_first a b = true \/ bill_first b a = true.
Proof. rewrite !bill_first_iff. apply newer_total. Qed.

Lemma bill_first_trans (a b c : SplitBill) :
  bill_first a b = true -> bill_first b c = true -> bill_first a c = true.
Proof. rewrite !bill_first_iff. apply newer_trans. Qed.

(** X1: a successful [fetchRecentTransactions] caches the twenty newest
    rows of the join (all of them when there are fewer), newest first by
    date and then by id: the cache and the rows left out make up the join,
    the cache is sorted, and every cached row is listed before every row
    left out. *)
Theorem fetchRecentTransactions_newest_twenty (w : World) :
  hd false (faults w) = false ->
  let cache := transactions (store (snd (fetchRecentTransactions w))) in
  exists rest,
    Permutation (cache ++ rest) (sql_join (db w))
    /\ List.length cache = Nat.min 20 (List.length (sql_join (db w)))
    /\ StronglySorted newer_transaction cache
    /\ (forall a b, In a cache -> In b rest -> newer_transaction a b).
Proof.
  intros Hok cache. subst cache.
  rewrite fetchRecentTransactions_run, Hok.
  cbn [snd after_refresh store set_transactions transactions].
  unfold sql_recent_transactions.
  exists (skipn 20 (order_by recent_first (sql_join (db w)))).
  destruct (sorted_cut recent_first 20 _
              (order_by_sorted recent_first recent_first_total recent_first_trans
                 (sql_join (db w)))) as [Hs Hcut].
  split; [rewrite firstn_skipn; apply order_by_perm|].
  split; [rewrite length_firstn, length_order_by; reflexivity|].
  split.
  - apply (StronglySorted_weaken (fun a b => recent_first a b = true));
      [intros x y; apply recent_first_iff|exact Hs].
  - intros a b Ha Hb. apply recent_first_iff. apply Hcut; assumption.
Qed.

(** X1 (witness): on the demo database the three joined rows are all
    cached, the bus ride first. *)
Lemma fetchRecentTransactions_newest_twenty_witness :
  hd false (faults demo_world) = false
  /\ exists rest,
       Permutation (transactions (store (snd (fetchRecentTransactions demo_world)))
                      ++ rest)
                   (sql_join (db demo_world))
       /\ List.length (transactions (store (snd (fetchRecentTransactions demo_world))))
          = 3%nat.
Proof.
  split; [reflexivity|].
  destruct (fetchRecentTransactions_newest_twenty demo_world eq_refl)
    as (rest & Hp & Hl & _).
  exists rest. split; [exact Hp|exact Hl].
Defined.

(** X2: a successful [fetchSplitBills] caches every row of [split_bills],
    each once, newest first by date and then by id. *)
Theorem fetchSplitBills_sorted (w : World) :
  hd false (faults w) = false ->
  let cache := splitBills (store (snd (fetchSplitBills w))) in
  Permutation cache (split_bills_tbl (db w))
  /\ StronglySorted newer_bill cache.
Proof.
  intros Hok cache. subst cache.
  rewrite fetchSplitBills_run, Hok.
  cbn [snd after_refresh store set_splitBills splitBills].
  unfold sql_select_split_bills. split; [apply order_by_perm|].
  apply (StronglySorted_weaken (fun a b => bill_first a b = true));
    [intros x y; apply bill_first_iff|].
  apply order_by_sorted; [apply bill_first_total|apply bill_first_trans].
Qed.

(** X2 (witness): after the dinner has been added to the demo database. *)
Lemma fetchSplitBills_sorted_witness :
  let w := snd (addSplitBill dinner diners demo_world) in
  hd false (faults w) = false
  /\ Permutation (splitBills (store (snd (fetchSplitBills w))))
                 [mkSplitBill 1 "2024-06-20" "Dinner" 300 None None].
Proof.
  cbv zeta. split; [reflexivity|].
  destruct (fetchSplitBills_sorted (snd (addSplitBill dinner diners demo_world))
              eq_refl) as [H _].
  exact H.
Defined.

Lemma filter_unique_key (c : CategoryRow) (cats : list CategoryRow) :
  NoDup (map cr_id cats) -> In c cats ->
  filter (fun x => cr_id c =? cr_id x) cats = [c].
Proof.
  induction cats as [|x cats IH]; intros Hnd Hin; [destruct Hin|].
  cbn [map] in Hnd. apply NoDup_cons_iff in Hnd. destruct Hnd as [Hx Hnd].
  cbn [filter]. destruct Hin as [->|Hin].
  - rewrite Z.eqb_refl. f_equal.
    clear IH. induction cats as [|y cats IH]; [reflexivity|].
    cbn [filter]. destruct (Z.eqb_spec (cr_id c) (cr_id y)) as [He|_].
    + exfalso. apply Hx. rewrite He. left. reflexivity.
    + apply IH.
      * intros H. apply Hx. right. exact H.
      * apply NoDup_cons_iff in Hnd. tauto.
  - destruct (Z.eqb_spec (cr_id c) (cr_id x)) as [He|_].
    + exfalso. apply Hx. rewrite <- He. apply in_map. exact Hin.
    + apply IH; assumption.
Qed.

(** With distinct category ids and every transaction filed under a stored
    category, the join keeps each transaction exactly once. *)
Lemma sql_join_rows (d : DB) :
  NoDup (map cr_id (categories_tbl d)) ->
  (forall t, In t (transactions_tbl d) ->
             exists c, In c (categories_tbl d) /\ cr_id c = tx_category_id t) ->
  map t_row (sql_join d) = transactions_tbl d.
Proof.
  intros Hnd. unfold sql_join.
  induction (transactions_tbl d) as [|t txs IH]; intros Hri; [reflexivity|].
  cbn [flat_map]. rewrite map_app, IH by (intros t' Ht'; apply Hri; right; exact Ht').
  destruct (Hri t (or_introl eq_refl)) as (c & Hc & He).
  rewrite <- He, (filter_unique_key c _ Hnd Hc). reflexivity.
Qed.

(** X3: with distinct category ids, every transaction filed under a stored
    category and at most twenty transactions, a successful
    [fetchRecentTransactions] caches every stored transaction exactly
    once. *)
Theorem fetchRecentTransactions_complete (w : World) :
  hd false (faults w) = false ->
  NoDup (map cr_id (categories_tbl (db w))) ->
  (forall t, In t (transactions_tbl (db w)) ->
             exists c, In c (categories_tbl (db w)) /\ cr_id c = tx_category_id t) ->
  (List.length (transactions_tbl (db w)) <= 20)%nat ->
  Permutation (map t_row (transactions (store (snd (fetchRecentTransactions w)))))
              (transactions_tbl (db w)).
Proof.
  intros Hok Hnd Hri Hlen.
  rewrite fetchRecentTransactions_run, Hok.
  cbn [snd after_refresh store set_transactions transactions].
  unfold sql_recent_transactions.
  pose proof (sql_join_rows (db w) Hnd Hri) as Hrows.
  rewrite firstn_all2.
  - transitivity (map t_row (sql_join (db w))).
    + apply Permutation_map. apply order_by_perm.
    + rewrite Hrows. reflexivity.
  - rewrite length_order_by. rewrite <- (length_map t_row), Hrows. exact Hlen.
Qed.

(** X3 (witness): the demo database. *)
Lemma fetchRecentTransactions_complete_witness :
  hd false (faults demo_world) = false
  /\ NoDup (map cr_id (categories_tbl (db demo_world)))
  /\ (List.length (transactions_tbl (db demo_world)) <= 20)%nat
  /\ Permutation
       (map t_row (transactions (store (snd (fetchRecentTransactions demo_world)))))
       [lunch; salary; bus].
Proof.
  assert (Hnd : NoDup (map cr_id (categories_tbl (db demo_world)))).
  { cbn. repeat constructor; cbn; intuition discriminate. }
  assert (Hlen : (List.length (transactions_tbl (db demo_world)) <= 20)%nat)
    by (cbn; lia).
  split; [reflexivity|]. split; [exact Hnd|]. split; [exact Hlen|].
  apply (fetchRecentTransactions_complete demo_world eq_refl Hnd); [|exact Hlen].
  intros t [<-|[<-|[<-|[]]]].
  - eexists. split; [left; reflexivity|reflexivity].
  - eexists. split; [right; left; reflexivity|reflexivity].
  - eexists. split; [right; right; left; reflexivity|reflexivity].
Defined.

(* ================================================================== *)
(** * Further properties: what every action keeps                       *)
(* ================================================================== *)

#[export] Instance preserving_steady (I : Holdings -> Prop) : Steady (preserving I).
Proof. split; unfold preserving; auto. Qed.

#[export] Instance same_steady {X : Type} (part : Holdings -> X) : Steady (same part).
Proof. split; unfold same; intros; congruence. Qed.

Section Keeping.

Context (Q : Holdings -> Holdings -> Prop) {Q_steady : Steady Q}.

Lemma keeps_ret {A : Type} (a : A) : keeps Q (ret a).
Proof. intros w. apply steady_refl. Qed.

Lemma keeps_get : keeps Q get.
Proof. intros w. apply steady_refl. Qed.

Lemma keeps_new_Date : keeps Q new_Date.
Proof. intros w. apply steady_refl. Qed.

Lemma keeps_console_error (message error : string) :
  keeps Q (console_error message error).
Proof. intros w. apply steady_refl. Qed.

Lemma keeps_bind {A B : Type} (m : M A) (k : A -> M B) :
  keeps Q m -> (forall a, keeps Q (k a)) -> keeps Q (bind m k).
Proof.
  intros Hm Hk w. unfold bind. specialize (Hm w).
  destruct (m w) as [[a|e] w1]; cbn [snd] in *; [|exact Hm].
  exact (steady_trans _ _ _ Hm (Hk a w1)).
Qed.

Lemma keeps_try_catch (body : M unit) (handler : string -> M unit) :
  keeps Q body -> (forall e, keeps Q (handler e)) -> keeps Q (try_catch body handler).
Proof.
  intros Hb Hh w. unfold try_catch. specialize (Hb w).
  destruct (body w) as [[a|e] w1]; cbn [snd] in *; [exact Hb|].
  exact (steady_trans _ _ _ Hb (Hh e w1)).
Qed.

Lemma keeps_try_catch_finally (body : M unit) (handler : string -> M unit)
      (fin : M unit) :
  keeps Q body -> (forall e, keeps Q (handler e)) -> keeps Q fin ->
  keeps Q (try_catch_finally body handler fin).
Proof.
  intros Hb Hh Hf w. unfold try_catch_finally.
  pose proof (keeps_try_catch body handler Hb Hh w) as Ht.
  destruct (try_catch body handler w) as [[a|e] w1]; cbn [snd] in *.
  - exact (steady_trans _ _ _ Ht (Hf w1)).
  - pose proof (Hf w1) as Hf1.
    destruct (fin w1) as [[a|e'] w2]; cbn [snd] in *;
      exact (steady_trans _ _ _ Ht Hf1).
Qed.

Lemma keeps_for_of {A : Type} (xs : list A) (body : A -> M unit) :
  (forall x, keeps Q (body x)) -> keeps Q (for_of xs body).
Proof.
  intros Hb. induction xs as [|x xs IH]; cbn [for_of].
  - apply keeps_ret.
  - apply keeps_bind; [apply Hb|intros _; exact IH].
Qed.

Lemma keeps_db_call {A : Type} (stmt : DB -> A * DB) :
  (forall s d, Q (s, d) (s, snd (stmt d))) -> keeps Q (db_call stmt).
Proof.
  intros H w. unfold db_call, holdings.
  destruct (hd false (faults w)); cbn [snd store db]; [apply steady_refl|apply H].
Qed.

Lemma keeps_runAsync (stmt : DB -> Z * DB) :
  (forall s d, Q (s, d) (s, snd (stmt d))) -> keeps Q (runAsync stmt).
Proof. apply keeps_db_call. Qed.

Lemma keeps_getAllAsync {A : Type} (query : DB -> list A) :
  keeps Q (getAllAsync query).
Proof. apply keeps_db_call. intros s d. apply steady_refl. Qed.

Lemma keeps_getFirstAsync {A : Type} (query : DB -> list A) :
  keeps Q (getFirstAsync query).
Proof. apply keeps_db_call. intros s d. apply steady_refl. Qed.

Lemma keeps_set (partial : FinanceState -> FinanceState) :
  (forall s d, Q (s, d) (partial s, d)) -> keeps Q (set partial).
Proof. intros H w. apply H. Qed.

End Keeping.

(** Take an action apart down to its statements and its [set]s. *)
Ltac keeps_step :=
  first
    [ apply @keeps_ret; typeclasses eauto
    | apply @keeps_get; typeclasses eauto
    | apply @keeps_new_Date; typeclasses eauto
    | apply @keeps_console_error; typeclasses eauto
    | apply @keeps_getAllAsync; typeclasses eauto
    | apply @keeps_getFirstAsync; typeclasses eauto
    | apply @keeps_bind; [typeclasses eauto| |intros ?]
    | apply @keeps_try_catch; [typeclasses eauto| |intros ?]
    | apply @keeps_try_catch_finally; [typeclasses eauto| |intros ?|]
    | apply @keeps_for_of; [typeclasses eauto|intros ?]
    | apply @keeps_runAsync; [typeclasses eauto|intros ? ?]
    | apply @keeps_set; intros ? ?
    | match goal with
      | |- keeps _ (match ?x with _ => _ end) => destruct x
      end ].

Ltac keeps_steps :=
  unfold fetchCategories, addCategory, updateCategory, deleteCategory,
    addTransaction, fetchRecentTransactions, deleteTransaction,
    calculateMonthSummary, fetchSplitBills, addSplitBill, deleteSplitBill;
  repeat keeps_step.

Section Frames.

Variable strftime_Ym : string -> option string.
Variable sql_sum : list float -> float.

Lemma run_keeps_alias (a : Action) :
  keeps (preserving (fun x => totalMonth (fst x) = balance (fst x)))
        (run strftime_Ym sql_sum a).
Proof.
  destruct a; cbn [run]; keeps_steps; unfold preserving; cbn; auto.
Qed.

Lemma run_keeps_isLoading (a : Action) :
  (forall transaction, a <> AddTransaction transaction) ->
  keeps (same (fun x => isLoading (fst x))) (run strftime_Ym sql_sum a).
Proof.
  intros Hne. destruct a; cbn [run];
    try (exfalso; eapply Hne; reflexivity);
    keeps_steps; reflexivity.
Qed.

(** X4: the busy flag is the business of [addTransaction] alone: every
    other action leaves [isLoading] as it found it and [addTransaction]
    leaves it false, whatever the database does; so in every reachable
    state, between two actions, [isLoading] is false. *)
Theorem isLoading_settles (d0 : DB) (w : World) :
  reachable strftime_Ym sql_sum d0 w ->
  isLoading (store w) = false
  /\ forall a,
       isLoading (store (snd (run strftime_Ym sql_sum a w))) = false.
Proof.
  assert (Hstep : forall a w0, isLoading (store w0) = false ->
                     isLoading (store (snd (run strftime_Ym sql_sum a w0))) = false).
  { intros a w0 H0.
    assert (Hd : (exists t, a = AddTransaction t)
                 \/ (forall t, a <> AddTransaction t)).
    { destruct a; try (right; discriminate). left. eauto. }
    destruct Hd as [[t ->]|Hne].
    - exact (proj2 (addTransaction_absorbs strftime_Ym sql_sum t w0)).
    - rewrite <- H0. exact (run_keeps_isLoading a Hne w0). }
  intros Hr.
  assert (H0 : isLoading (store w) = false).
  { induction Hr as [fs c|w a _ IH|w fs _ IH|w c _ IH]; auto. }
  split; [exact H0|]. intros a. apply Hstep. exact H0.
Qed.

(** X5: [totalMonth] never drifts from [balance]: in every reachable
    state the two are equal, so the object of the legacy hook [useStore],
    which overrides [totalMonth] with [balance] and the two legacy actions
    with [addTransaction] and [calculateMonthSummary], shows and does
    exactly what the store itself shows and does under those names. *)
Theorem useStore_agrees (d0 : DB) (w : World) :
  reachable strftime_Ym sql_sum d0 w ->
  ls_totalMonth (useStore strftime_Ym sql_sum w) = totalMonth (store w)
  /\ (forall transaction w',
         ls_addExpense (useStore strftime_Ym sql_sum w) transaction w'
         = addExpense strftime_Ym sql_sum transaction w')
  /\ (forall selectedMonth w',
         ls_calculateTotalMonth (useStore strftime_Ym sql_sum w) selectedMonth w'
         = calculateTotalMonth strftime_Ym sql_sum selectedMonth w').
Proof.
  intros Hr. split; [|split; intros; reflexivity].
  cbn [useStore ls_totalMonth]. symmetry.
  induction Hr as [fs c|w a _ IH|w fs _ IH|w c _ IH]; auto.
  exact (run_keeps_alias a w IH).
Qed.

End Frames.

Lemma demo_world_reachable : reachable iso_strftime_Ym sum_in_order demo_db demo_world.
Proof.
  unfold demo_world.
  apply (reach_action _ _ _ _ (CalculateMonthSummary None)).
  apply (reach_action _ _ _ _ FetchRecentTransactions).
  apply (reach_action _ _ _ _ FetchCategories).
  apply reach_start.
Qed.

(** X4 (witness): the demo world, and a transaction added to it while the
    database rejects the insert. *)
Lemma isLoading_settles_witness :
  isLoading (store demo_world) = false
  /\ isLoading
       (store (snd (run iso_strftime_Ym sum_in_order
                      (AddTransaction (mkNewTransaction 1 10 "2024-06-18" "tea" None None))
                      (with_faults [true] demo_world))))
     = false.
Proof.
  split.
  - exact (proj1 (isLoading_settles iso_strftime_Ym sum_in_order demo_db demo_world
                    demo_world_reachable)).
  - exact (proj2 (isLoading_settles iso_strftime_Ym sum_in_order demo_db
                    (with_faults [true] demo_world)
                    (reach_faults _ _ _ _ _ demo_world_reachable)) _).
Defined.

(** X5 (witness): the demo world. *)
Lemma useStore_agrees_witness :
  ls_totalMonth (useStore iso_strftime_Ym sum_in_order demo_world)
  = totalMonth (store demo_world).
Proof.
  exact (proj1 (useStore_agrees iso_strftime_Ym sum_in_order demo_db demo_world
                  demo_world_reachable)).
Defined.

Section MoreFrames.

Variable strftime_Ym : string -> option string.
Variable sql_sum : list float -> float.

(** X6: an action changes only the tables it has a statement for, under
    every fault schedule: the category table changes only through
    add/update/deleteCategory, the transaction table only through
    add/deleteTransaction and deleteCategory, and no action other than
    add/deleteSplitBill sends a statement to the two split-bill tables;
    the fetches and the summary never write. *)
Theorem run_table_frames (a : Action) (w : World) :
  let d := db w in
  let d' := db (snd (run strftime_Ym sql_sum a w)) in
  (writes_categories a = false -> categories_tbl d' = categories_tbl d)
  /\ (writes_transactions a = false -> transactions_tbl d' = transactions_tbl d)
  /\ (writes_split_bills a = false ->
      split_bills_tbl d' = split_bills_tbl d
      /\ split_bill_members_tbl d' = split_bill_members_tbl d)
  /\ (writes_categories a = false -> writes_transactions a = false ->
      writes_split_bills a = false -> d' = d).
Proof.
  cbv zeta.
  assert (Hc : writes_categories a = false ->
               keeps (same (fun x => categories_tbl (snd x))) (run strftime_Ym sql_sum a)).
  { destruct a; cbn [writes_categories run]; intros H; try discriminate H;
      keeps_steps; reflexivity. }
  assert (Ht : writes_transactions a = false ->
               keeps (same (fun x => transactions_tbl (snd x)))
                     (run strftime_Ym sql_sum a)).
  { destruct a; cbn [writes_transactions run]; intros H; try discriminate H;
      keeps_steps; reflexivity. }
  assert (Hb : writes_split_bills a = false ->
               keeps (same (fun x => (split_bills_tbl (snd x),
                                      split_bill_members_tbl (snd x))))
                     (run strftime_Ym sql_sum a)).
  { destruct a; cbn [writes_split_bills run]; intros H; try discriminate H;
      keeps_steps; reflexivity. }
  assert (Hb' : writes_split_bills a = false ->
                split_bills_tbl (db (snd (run strftime_Ym sql_sum a w)))
                = split_bills_tbl (db w)
                /\ split_bill_members_tbl (db (snd (run strftime_Ym sql_sum a w)))
                   = split_bill_members_tbl (db w)).
  { intros H. specialize (Hb H w). unfold same, holdings in Hb. cbn [snd] in Hb.
    injection Hb as H1 H2. auto. }
  split; [intros H; exact (Hc H w)|].
  split; [intros H; exact (Ht H w)|].
  split; [exact Hb'|].
  intros H1 H2 H3.
  specialize (Hc H1 w). specialize (Ht H2 w). destruct (Hb' H3) as [H4 H5].
  unfold same, holdings in Hc, Ht. cbn [snd] in Hc, Ht.
  destruct (db (snd (run strftime_Ym sql_sum a w))), (db w).
  cbn in *. congruence.
Qed.

(** X7: an action changes only the state fields it has a [set] for, under
    every fault schedule: the cached transactions change only through
    fetchRecentTransactions and add/deleteTransaction, the four totals only
    through calculateMonthSummary and add/deleteTransaction, the cached
    split bills only through the three split-bill actions. *)
Theorem run_field_frames (a : Action) (w : World) :
  let s := store w in
  let s' := store (snd (run strftime_Ym sql_sum a w)) in
  (publishes_transactions a = false -> transactions s' = transactions s)
  /\ (publishes_totals a = false ->
      balance s' = balance s /\ totalMonth s' = totalMonth s
      /\ totalIncome s' = totalIncome s /\ totalExpense s' = totalExpense s)
  /\ (publishes_splitBills a = false -> splitBills s' = splitBills s).
Proof.
  cbv zeta.
  assert (Ht : publishes_transactions a = false ->
               keeps (same (fun x => transactions (fst x))) (run strftime_Ym sql_sum a)).
  { destruct a; cbn [publishes_transactions run]; intros H; try discriminate H;
      keeps_steps; reflexivity. }
  assert (Hs : publishes_totals a = false ->
               keeps (same (fun x => (balance (fst x), totalMonth (fst x),
                                      totalIncome (fst x), totalExpense (fst x))))
                     (run strftime_Ym sql_sum a)).
  { destruct a; cbn [publishes_totals run]; intros H; try discriminate H;
      keeps_steps; reflexivity. }
  assert (Hb : publishes_splitBills a = false ->
               keeps (same (fun x => splitBills (fst x))) (run strftime_Ym sql_sum a)).
  { destruct a; cbn [publishes_splitBills run]; intros H; try discriminate H;
      keeps_steps; reflexivity. }
  split; [intros H; exact (Ht H w)|].
  split; [|intros H; exact (Hb H w)].
  intros H. specialize (Hs H w). unfold same, holdings in Hs. cbn [fst] in Hs.
  injection Hs as H1 H2 H3 H4. auto.
Qed.

End MoreFrames.

(** X6 (witness): fetching categories on the demo world writes nothing. *)
Lemma run_table_frames_witness :
  db (snd (run iso_strftime_Ym sum_in_order FetchCategories demo_world)) = db demo_world.
Proof.
  destruct (run_table_frames iso_strftime_Ym sum_in_order FetchCategories demo_world)
    as (_ & _ & _ & H).
  apply H; reflexivity.
Defined.

(** X7 (witness): adding the dinner leaves the cached transactions. *)
Lemma run_field_frames_witness :
  transactions (store (snd (run iso_strftime_Ym sum_in_order (AddSplitBill dinner diners)
                              demo_world)))
  = transactions (store demo_world).
Proof.
  destruct (run_field_frames iso_strftime_Ym sum_in_order (AddSplitBill dinner diners)
              demo_world)
    as (H & _).
  apply H. reflexivity.
Defined.

(* ================================================================== *)
(** * Further properties: ids stay distinct                             *)
(* ================================================================== *)

Lemma NoDup_map_filter {A : Type} (f : A -> Z) (p : A -> bool) (l : list A) :
  NoDup (map f l) -> NoDup (map f (filter p l)).
Proof.
  induction l as [|x l IH]; cbn [map filter]; intros H; [constructor|].
  apply NoDup_cons_iff in H. destruct H as [Hx H].
  destruct (p x); cbn [map]; [|apply IH; exact H].
  constructor; [|apply IH; exact H].
  intros Hin. apply Hx. apply in_map_iff in Hin. destruct Hin as (y & Hy & Hin).
  apply filter_In in Hin. rewrite <- Hy. apply in_map. tauto.
Qed.

Lemma fetchCategories_keeps_ids : keeps (preserving ids_distinct) fetchCategories.
Proof.
  intros w. unfold preserving, ids_distinct, holdings.
  rewrite fetchCategories_run. cbn [snd fst].
  destruct (hd false (faults w)); cbn [after_caught after_refresh store db]; [tauto|].
  cbn [set_categories categories]. rewrite map_map. cbn [category_of_row cat_id].
  tauto.
Qed.

Lemma calculateMonthSummary_db (strftime_Ym : string -> option string)
      (sql_sum : list float -> float)
      (selectedMonth : option JsDate) (w : World) :
  db (snd (calculateMonthSummary strftime_Ym sql_sum selectedMonth w)) = db w.
Proof.
  rewrite calculateMonthSummary_run. cbv zeta. cbn [snd].
  destruct (hd false (faults w)); [reflexivity|].
  destruct (hd false (tl (faults w))); [reflexivity|].
  destruct (hd false (tl (tl (faults w)))); reflexivity.
Qed.

Lemma calculateMonthSummary_keeps_ids (strftime_Ym : string -> option string)
      (sql_sum : list float -> float)
      (selectedMonth : option JsDate) :
  keeps (preserving ids_distinct) (calculateMonthSummary strftime_Ym sql_sum selectedMonth).
Proof.
  intros w. unfold preserving, ids_distinct, holdings. cbn [fst snd].
  rewrite calculateMonthSummary_db, calculateMonthSummary_ids. tauto.
Qed.

Section Distinct.

Variable strftime_Ym : string -> option string.
Variable sql_sum : list float -> float.

Lemma run_keeps_ids (a : Action) :
  keeps (preserving ids_distinct) (run strftime_Ym sql_sum a).
Proof.
  pose proof fetchCategories_keeps_ids as Hfc.
  pose proof (calculateMonthSummary_keeps_ids strftime_Ym sql_sum) as Hms.
  destruct a; cbn [run];
    try exact Hfc; try apply Hms;
    unfold addCategory, updateCategory, deleteCategory, addTransaction,
      fetchRecentTransactions, deleteTransaction, fetchSplitBills, addSplitBill,
      deleteSplitBill;
    repeat first [exact Hfc | apply Hms | keeps_step];
    unfold preserving, ids_distinct; cbn [fst snd];
    intros (H1 & H2 & H3 & H4 & H5);
    cbn [sql_insert_category sql_update_category sql_delete_category
         sql_delete_transactions_of_category sql_insert_transaction
         sql_delete_transaction sql_insert_split_bill sql_insert_member
         sql_delete_split_bill snd with_categories_tbl with_transactions_tbl
         with_split_bills_tbl with_split_bill_members_tbl categories_tbl
         transactions_tbl split_bills_tbl split_bill_members_tbl
         set_transactions set_splitBills set_isLoading categories];
    repeat split; try assumption;
    try (rewrite map_app; cbn [map cr_id tx_id sb_id m_id];
         apply NoDup_snoc_fresh; assumption);
    try (apply NoDup_map_filter; assumption).
  rewrite map_map.
  erewrite map_ext; [exact H1|].
  intros r. cbn beta. destruct (cr_id r =? id); reflexivity.
Qed.

(** X8: on a database whose row ids are distinct, they stay distinct in
    every reachable state, in all four tables, and so do the ids of the
    cached categories: no action, under any fault schedule, stores or
    caches two rows under one id. *)
Theorem ids_stay_distinct (d0 : DB) (w : World) :
  ids_distinct (initial_state, d0) ->
  reachable strftime_Ym sql_sum d0 w ->
  ids_distinct (holdings w).
Proof.
  intros H0 Hr.
  induction Hr as [fs c|w a _ IH|w fs _ IH|w c _ IH]; auto.
  exact (run_keeps_ids a w IH).
Qed.

End Distinct.

(** X8 (witness): the demo world. *)
Lemma ids_stay_distinct_witness :
  ids_distinct (initial_state, demo_db)
  /\ NoDup (map cat_id (categories (store demo_world))).
Proof.
  assert (H0 : ids_distinct (initial_state, demo_db)).
  { unfold ids_distinct. cbn.
    repeat split; repeat constructor; cbn; intuition discriminate. }
  split; [exact H0|].
  destruct (ids_stay_distinct iso_strftime_Ym sum_in_order demo_db demo_world H0
              demo_world_reachable) as (_ & _ & _ & _ & H).
  exact H.
Defined.

(* ================================================================== *)
(** * Further properties: what the successful actions store and show    *)
(* ================================================================== *)

Lemma addCategory_ok (category : NewCategory) (w : World) :
  succeed 2 (faults w) = true ->
  let d' := snd (sql_insert_category (nc_name category) (nc_icon category)
                   (nc_color category) (or_zero (nc_budget_limit category))
                   (or_expense (nc_category_type category)) (db w)) in
  addCategory category w =
  (Returned tt,
   after_refresh (set_categories (map category_of_row (categories_tbl d')))
     (after_write d' w)).
Proof.
  intros H d'.
  apply succeed_S in H. destruct H as [H1 H].
  apply succeed_S in H. destruct H as [H2 _].
  unfold addCategory, try_catch, bind, runAsync, db_call, get.
  rewrite H1. cbn [fst snd]. rewrite fetchCategories_run.
  cbn [fst snd faults]. rewrite H2. reflexivity.
Qed.

Lemma updateCategory_ok (id : Z) (category : PartialCategory) (w : World) :
  succeed 2 (faults w) = true ->
  let d' := snd (sql_update_category (or_empty (pc_name category))
                   (or_empty (pc_icon category)) (or_empty (pc_color category))
                   id (db w)) in
  updateCategory id category w =
  (Returned tt,
   after_refresh (set_categories (map category_of_row (categories_tbl d')))
     (after_write d' w)).
Proof.
  intros H d'.
  apply succeed_S in H. destruct H as [H1 H].
  apply succeed_S in H. destruct H as [H2 _].
  unfold updateCategory, try_catch, bind, runAsync, db_call, get.
  rewrite H1. cbn [fst snd]. rewrite fetchCategories_run.
  cbn [fst snd faults]. rewrite H2. reflexivity.
Qed.

(** X9: a successful [addCategory] adds exactly one row to the category
    table, under an id no stored category had, with the given name, icon,
    color and budget limit and with type ['expense'] when none is given,
    and the cache then lists one category per stored row. *)
Theorem addCategory_inserts (category : NewCategory) (w : World) :
  succeed 2 (faults w) = true ->
  let w' := snd (addCategory category w) in
  let id := next_rowid (map cr_id (categories_tbl (db w))) in
  categories_tbl (db w')
  = categories_tbl (db w)
      ++ [mkCategoryRow id (nc_name category) (nc_icon category) (nc_color category)
            (nc_budget_limit category)
            (Some (match nc_category_type category with
                   | Some ty => ty
                   | None => expense
                   end))]
  /\ ~ In id (map cr_id (categories_tbl (db w)))
  /\ map cat_id (categories (store w'))
     = map cr_id (categories_tbl (db w)) ++ [id]
  /\ fst (addCategory category w) = Returned tt.
Proof.
  intros H w' id. subst w'. rewrite (addCategory_ok _ _ H).
  cbn [fst snd after_refresh after_write db store set_categories categories
       sql_insert_category with_categories_tbl categories_tbl].
  fold id. rewrite or_zero_id.
  split; [reflexivity|]. split; [apply next_rowid_fresh|]. split; [|reflexivity].
  rewrite map_map, map_app. reflexivity.
Qed.

(** X9 (witness): a category without a type, added to the demo world. *)
Lemma addCategory_inserts_witness :
  succeed 2 (faults demo_world) = true
  /\ nth_error (categories_tbl
                  (db (snd (addCategory (mkNewCategory "Gifts" "emoji:4" "#ff0" 0 None)
                              demo_world)))) 3
     = Some (mkCategoryRow 4 "Gifts" "emoji:4" "#ff0" 0 (Some expense)).
Proof.
  split; [reflexivity|].
  destruct (addCategory_inserts (mkNewCategory "Gifts" "emoji:4" "#ff0" 0 None)
              demo_world eq_refl) as (H & _).
  rewrite H. reflexivity.
Defined.

(** X10: when its database calls succeed, each of [fetchCategories],
    [addCategory], [updateCategory] and [deleteCategory] leaves the cached
    categories equal to the stored rows, so the [totalSpent] and
    [percentage] of an earlier summary are gone until
    [calculateMonthSummary] runs again. *)
Theorem category_actions_drop_stats (strftime_Ym : string -> option string)
        (sql_sum : list float -> float)
        (a : Action) (w : World) :
  refetches_categories a = true ->
  succeed 3 (faults w) = true ->
  let w' := snd (run strftime_Ym sql_sum a w) in
  categories (store w') = map category_of_row (categories_tbl (db w'))
  /\ Forall (fun cat => cat_totalSpent cat = None /\ cat_percentage cat = None)
            (categories (store w')).
Proof.
  intros Ha H w'.
  assert (E : categories (store w') = map category_of_row (categories_tbl (db w'))).
  { assert (H2 : succeed 2 (faults w) = true)
      by (apply (succeed_weaken 2 3); [lia|exact H]).
    assert (H1 : hd false (faults w) = false)
      by (apply succeed_S in H; tauto).
    subst w'. destruct a; try discriminate Ha; cbn [run].
    - rewrite fetchCategories_run, H1. reflexivity.
    - rewrite (addCategory_ok _ _ H2). reflexivity.
    - rewrite (updateCategory_ok _ _ _ H2). reflexivity.
    - rewrite (deleteCategory_ok _ _ H). reflexivity. }
  split; [exact E|]. rewrite E.
  apply Forall_forall. intros cat Hin. apply in_map_iff in Hin.
  destruct Hin as (r & <- & _). split; reflexivity.
Qed.

(** X10 (witness): renaming a category of the demo world, whose cache
    carried the June percentages. *)
Lemma category_actions_drop_stats_witness :
  let a := UpdateCategory 1 (mkPartialCategory None (Some "Meals") (Some "emoji:1")
                               (Some "#f00") None None None None) in
  refetches_categories a = true
  /\ succeed 3 (faults demo_world) = true
  /\ map cat_percentage (categories (store demo_world))
     = [Some 100%float; Some 0%float; Some 0%float]
  /\ map cat_percentage
         (categories (store (snd (run iso_strftime_Ym sum_in_order a demo_world))))
     = [None; None; None].
Proof.
  cbv zeta. split; [reflexivity|]. split; [reflexivity|]. split; [reflexivity|].
  destruct (category_actions_drop_stats iso_strftime_Ym sum_in_order
              (UpdateCategory 1 (mkPartialCategory None (Some "Meals") (Some "emoji:1")
                                   (Some "#f00") None None None None))
              demo_world eq_refl eq_refl) as [E _].
  rewrite E. reflexivity.
Defined.

Lemma succeed_tl (n : nat) (fs : list bool) :
  succeed (S n) fs = true -> succeed n (tl fs) = true.
Proof. intros H. apply succeed_S in H. tauto. Qed.

Lemma filter_snoc {A : Type} (p : A -> bool) (l : list A) (x : A) :
  filter p (l ++ [x]) = filter p l ++ (if p x then [x] else []).
Proof.
  rewrite filter_app. cbn [filter]. destruct (p x); reflexivity.
Qed.

Section Adding.

Variable strftime_Ym : string -> option string.
Variable sql_sum : list float -> float.

(** [addTransaction] when all its five database calls come back. *)
Lemma addTransaction_ok (transaction : NewTransaction) (w : World) :
  succeed 5 (faults w) = true ->
  let d' := snd (sql_insert_transaction (nt_category_id transaction)
                   (nt_amount transaction) (nt_date transaction)
                   (nt_note transaction) (nt_image_uri transaction)
                   (or_expense (nt_type transaction)) (db w)) in
  addTransaction strftime_Ym sql_sum transaction w =
  (Returned tt,
   after_set (set_isLoading false)
     (after_refresh (summarised strftime_Ym sql_sum (yearMonth_of (clock w)) d')
        (after_query (after_query
           (after_refresh (set_transactions (sql_recent_transactions d'))
              (after_write d' (after_set (set_isLoading true) w))))))).
Proof.
  intros H d'.
  apply succeed_S in H. destruct H as [H1 H].
  apply succeed_S in H. destruct H as [H2 H].
  unfold addTransaction, try_catch_finally, try_catch, runAsync, db_call, get.
  unfold bind at 1. unfold set at 1. cbn [fst snd].
  unfold bind at 1. cbn [faults]. rewrite H1.
  unfold bind at 1. cbn [fst snd].
  unfold bind at 1. rewrite fetchRecentTransactions_run.
  cbn [fst snd faults]. rewrite H2.
  unfold bind at 1. cbn [fst snd].
  rewrite calculateMonthSummary_ok by exact H.
  reflexivity.
Qed.

(** X11: a successful [addTransaction] appends one row under a fresh id,
    typed ['expense'] when no type is given, republishes the recent
    transactions and the summary of the current month, and leaves
    [isLoading] false.  The published [totalExpense] is the database's
    sum over the month's expense rows of before followed by the new row
    when the new row is an expense dated in the current month, and over
    the rows of before alone otherwise; the same holds for [totalIncome]
    and income rows. *)
Theorem addTransaction_adds_to_totals (transaction : NewTransaction) (w : World) :
  succeed 5 (faults w) = true ->
  let w' := snd (addTransaction strftime_Ym sql_sum transaction w) in
  let ym := yearMonth_of (clock w) in
  let row := mkTxRow (next_rowid (map tx_id (transactions_tbl (db w))))
               (nt_category_id transaction) (nt_amount transaction)
               (nt_date transaction) (nt_note transaction)
               (nt_image_uri transaction)
               (Some (match nt_type transaction with
                      | Some ty => ty
                      | None => expense
                      end))
               None in
  transactions_tbl (db w') = transactions_tbl (db w) ++ [row]
  /\ ~ In (tx_id row) (map tx_id (transactions_tbl (db w)))
  /\ month_expenses strftime_Ym ym (db w')
     = month_expenses strftime_Ym ym (db w)
         ++ (if expense_in_month strftime_Ym ym row then [row] else [])
  /\ month_incomes strftime_Ym ym (db w')
     = month_incomes strftime_Ym ym (db w)
         ++ (if income_in_month strftime_Ym ym row then [row] else [])
  /\ totalExpense (store w') = total_of sql_sum (month_expenses strftime_Ym ym (db w'))
  /\ totalIncome (store w') = total_of sql_sum (month_incomes strftime_Ym ym (db w'))
  /\ (expense_in_month strftime_Ym ym row = false ->
      totalExpense (store w') = total_of sql_sum (month_expenses strftime_Ym ym (db w)))
  /\ (income_in_month strftime_Ym ym row = false ->
      totalIncome (store w') = total_of sql_sum (month_incomes strftime_Ym ym (db w)))
  /\ balance (store w') = PrimFloat.sub (totalIncome (store w')) (totalExpense (store w'))
  /\ transactions (store w') = sql_recent_transactions (db w')
  /\ isLoading (store w') = false.
Proof.
  intros H w' ym row. subst w'. rewrite (addTransaction_ok _ _ H).
  cbn [snd after_set after_refresh after_query after_write store db
       summarised set_summary set_isLoading set_transactions
       totalExpense totalIncome balance transactions isLoading
       sql_insert_transaction with_transactions_tbl transactions_tbl].
  fold ym. unfold month_expenses, month_incomes, or_expense.
  cbn [with_transactions_tbl transactions_tbl]. fold row.
  rewrite !filter_snoc.
  split; [reflexivity|]. split; [apply next_rowid_fresh|].
  split; [reflexivity|]. split; [reflexivity|].
  split; [reflexivity|]. split; [reflexivity|].
  split; [intros He; rewrite He, app_nil_r; reflexivity|].
  split; [intros Hi; rewrite Hi, app_nil_r; reflexivity|].
  repeat split.
Qed.

End Adding.

(** X11 (witness): a coffee without a type, bought in June, the month of
    the demo clock. *)
Lemma addTransaction_adds_to_totals_witness :
  let coffee := mkNewTransaction 1 25 "2024-06-18T05:00:00.000Z" "coffee" None None in
  succeed 5 (faults demo_world) = true
  /\ map tx_id (month_expenses iso_strftime_Ym (yearMonth_of (clock demo_world))
                  (db (snd (addTransaction iso_strftime_Ym sum_in_order coffee
                              demo_world))))
     = [1; 3; 4]
  /\ totalExpense (store (snd (addTransaction iso_strftime_Ym sum_in_order coffee
                                 demo_world)))
     = 50175%float
  /\ totalIncome (store (snd (addTransaction iso_strftime_Ym sum_in_order coffee
                                demo_world)))
     = 70000%float.
Proof.
  cbv zeta. split; [reflexivity|].
  destruct (addTransaction_adds_to_totals iso_strftime_Ym sum_in_order
              (mkNewTransaction 1 25 "2024-06-18T05:00:00.000Z" "coffee" None None)
              demo_world eq_refl) as (_ & _ & HrE & _ & HE & HI & _).
  split; [rewrite HrE; reflexivity|].
  split; [exact (eq_trans HE eq_refl)|exact (eq_trans HI eq_refl)].
Defined.

Section Removing.

Variable strftime_Ym : string -> option string.
Variable sql_sum : list float -> float.

Lemma calculateMonthSummary_transactions (selectedMonth : option JsDate) (w : World) :
  transactions (store (snd (calculateMonthSummary strftime_Ym sql_sum selectedMonth w)))
  = transactions (store w).
Proof.
  rewrite calculateMonthSummary_run. cbv zeta. cbn [snd].
  destruct (hd false (faults w)); [reflexivity|].
  destruct (hd false (tl (faults w))); [reflexivity|].
  destruct (hd false (tl (tl (faults w)))); reflexivity.
Qed.

Lemma fetchRecentTransactions_db (w : World) :
  db (snd (fetchRecentTransactions w)) = db w.
Proof.
  rewrite fetchRecentTransactions_run. destruct (hd false (faults w)); reflexivity.
Qed.

(** After its own statement [deleteTransaction] is its two refresh steps,
    one after the other. *)
Lemma deleteTransaction_steps (id : Z) (w : World) :
  hd false (faults w) = false ->
  deleteTransaction strftime_Ym sql_sum id w =
  (Returned tt,
   snd (calculateMonthSummary strftime_Ym sql_sum None
          (snd (fetchRecentTransactions
                  (after_write (snd (sql_delete_transaction id (db w))) w))))).
Proof.
  intros H1.
  unfold deleteTransaction, try_catch, bind, runAsync, db_call, get, after_write.
  rewrite H1. cbn [fst snd].
  match goal with
  | |- context [fetchRecentTransactions ?W] =>
      pose proof (fetchRecentTransactions_run W) as Hf;
      destruct (fetchRecentTransactions W) as [[[]|e] w1]
  end; [|discriminate Hf]. clear Hf. cbn [fst snd].
  pose proof (calculateMonthSummary_run strftime_Ym sql_sum None w1) as Hs. cbv zeta in Hs.
  destruct (calculateMonthSummary strftime_Ym sql_sum None w1) as [[[]|e] w2];
    [reflexivity|discriminate Hs].
Qed.

(** X12: when the delete statement of [deleteTransaction] succeeds, the
    transaction table loses exactly the rows with that id and keeps every
    other row, whatever happens to the re-fetches; when the re-fetch of
    the recent transactions succeeds as well, no cached transaction has
    that id. *)
Theorem deleteTransaction_removes (id : Z) (w : World) :
  hd false (faults w) = false ->
  let w' := snd (deleteTransaction strftime_Ym sql_sum id w) in
  (forall t, In t (transactions_tbl (db w'))
             <-> In t (transactions_tbl (db w)) /\ tx_id t <> id)
  /\ categories_tbl (db w') = categories_tbl (db w)
  /\ (hd false (tl (faults w)) = false ->
      forall t', In t' (transactions (store w')) -> tx_id (t_row t') <> id).
Proof.
  intros H1 w'. subst w'. rewrite (deleteTransaction_steps _ _ H1). cbn [snd].
  rewrite calculateMonthSummary_db, fetchRecentTransactions_db,
    calculateMonthSummary_transactions.
  cbn [after_write db sql_delete_transaction snd with_transactions_tbl
       transactions_tbl categories_tbl].
  split; [|split; [reflexivity|]].
  - intros t. rewrite filter_In, negb_true_iff, Z.eqb_neq. reflexivity.
  - intros H2 t' Hin.
    rewrite fetchRecentTransactions_run in Hin. cbn [snd faults after_write] in Hin.
    rewrite H2 in Hin.
    cbn [after_refresh store set_transactions transactions db] in Hin.
    apply in_sql_recent_transactions in Hin. apply in_sql_join in Hin.
    destruct Hin as (t & c & Ht & _ & _ & ->). cbn [joined t_row].
    cbn [transactions_tbl] in Ht.
    apply filter_In in Ht. destruct Ht as [_ Ht].
    apply negb_true_iff in Ht. apply Z.eqb_neq in Ht. exact Ht.
Qed.

End Removing.

(** X12 (witness): deleting the lunch of the demo world. *)
Lemma deleteTransaction_removes_witness :
  hd false (faults demo_world) = false
  /\ hd false (tl (faults demo_world)) = false
  /\ ~ In lunch (transactions_tbl
                   (db (snd (deleteTransaction iso_strftime_Ym sum_in_order 1
                               demo_world))))
  /\ In bus (transactions_tbl
                (db (snd (deleteTransaction iso_strftime_Ym sum_in_order 1 demo_world)))).
Proof.
  split; [reflexivity|]. split; [reflexivity|].
  destruct (deleteTransaction_removes iso_strftime_Ym sum_in_order 1 demo_world eq_refl)
    as (H & _).
  split.
  - intros Hin. apply H in Hin. destruct Hin as [_ Hne]. apply Hne. reflexivity.
  - apply H. split; [right; right; left; reflexivity|discriminate].
Defined.

(* ================================================================== *)
(** * Further properties: a split bill that goes through                *)
(* ================================================================== *)

Lemma skipn_S_tl {A : Type} (n : nat) (l : list A) :
  skipn (S n) l = skipn n (tl l).
Proof. destruct l; [cbn [tl]; rewrite !skipn_nil; reflexivity|reflexivity]. Qed.

Lemma succeed_add (n m : nat) (fs : list bool) :
  succeed (n + m) fs = true ->
  succeed n fs = true /\ succeed m (skipn n fs) = true.
Proof.
  revert fs. induction n as [|n IH]; intros fs H; [split; [reflexivity|exact H]|].
  cbn [Nat.add] in H. apply succeed_S in H. destruct H as [H1 H].
  destruct (IH _ H) as [H2 H3]. split.
  - apply succeed_S. split; assumption.
  - rewrite skipn_S_tl. exact H3.
Qed.

(** The member loop when every insert comes back. *)
Lemma member_loop_ok (billId : Z) (ms : list NewMember) (w : World) :
  succeed (List.length ms) (faults w) = true ->
  member_loop billId ms w =
  (Returned tt,
   mkWorld (store w) (insert_members billId ms (db w))
           (skipn (List.length ms) (faults w)) (console w) (clock w)
           (publications w)).
Proof.
  revert w. induction ms as [|member ms IH]; intros w H.
  - destruct w; reflexivity.
  - cbn [List.length] in H. apply succeed_S in H. destruct H as [H1 H].
    rewrite member_loop_cons, H1. rewrite IH by exact H.
    cbn [after_write store db faults console clock publications List.length
         insert_members fold_left].
    rewrite skipn_S_tl. reflexivity.
Qed.

(** X13: when the bill insert, all the member inserts and the re-fetch
    succeed, [addSplitBill] stores the bill under a fresh id together with
    one member row per given member, in order, each pointing at the bill
    and with [is_me] as 1 or 0; it logs nothing and the cached split bills
    are the stored ones, the new bill among them. *)
Theorem addSplitBill_persists_all (bill : NewSplitBill) (members : list NewMember)
        (w : World) :
  succeed (S (List.length members + 1)) (faults w) = true ->
  let w' := snd (addSplitBill bill members w) in
  let billId := next_rowid (map sb_id (split_bills_tbl (db w))) in
  let row := mkSplitBill billId (nb_date bill) (nb_name bill)
                         (nb_total_amount bill) (nb_image_uri bill) None in
  fst (addSplitBill bill members w) = Returned tt
  /\ split_bills_tbl (db w') = split_bills_tbl (db w) ++ [row]
  /\ ~ In billId (map sb_id (split_bills_tbl (db w)))
  /\ (exists rows,
         split_bill_members_tbl (db w') = split_bill_members_tbl (db w) ++ rows
         /\ map member_payload rows
            = map (fun member => (billId, nm_name member, nm_share_amount member,
                                  if nm_is_me member then 1 else 0))
                  members)
  /\ Permutation (splitBills (store w')) (split_bills_tbl (db w'))
  /\ In row (splitBills (store w'))
  /\ console w' = console w.
Proof.
  intros H w' billId row. subst w'.
  apply succeed_S in H. destruct H as [H0 H].
  apply succeed_add in H. destruct H as [Hloop Hfetch].
  apply succeed_S in Hfetch. destruct Hfetch as [Hfetch _].
  rewrite addSplitBill_run. cbv zeta. rewrite H0.
  rewrite member_loop_ok by exact Hloop.
  rewrite fetchSplitBills_run. cbn [fst snd faults after_write]. rewrite Hfetch.
  cbn [after_refresh store db console set_splitBills splitBills].
  destruct (insert_members_rows
              (fst (sql_insert_split_bill (nb_name bill) (nb_date bill)
                      (nb_total_amount bill) (nb_image_uri bill) (db w)))
              members
              (snd (sql_insert_split_bill (nb_name bill) (nb_date bill)
                      (nb_total_amount bill) (nb_image_uri bill) (db w))))
    as (rows & Hm & Hp & Hb & _).
  cbn [db after_write]. unfold sql_select_split_bills. rewrite Hm, !Hb. clear Hm Hb.
  cbn [sql_insert_split_bill fst snd with_split_bills_tbl split_bills_tbl
       split_bill_members_tbl] in *.
  fold billId in Hp |- *. fold row.
  split; [reflexivity|]. split; [reflexivity|].
  split; [apply next_rowid_fresh|].
  split; [exists rows; split; [reflexivity|exact Hp]|].
  split; [apply order_by_perm|]. split; [|reflexivity].
  apply in_order_by. apply in_or_app. right. left. reflexivity.
Qed.

(** X13 (witness): the dinner of three on the demo world. *)
Lemma addSplitBill_persists_all_witness :
  succeed (S (List.length diners + 1)) (faults demo_world) = true
  /\ map member_payload
         (split_bill_members_tbl (db (snd (addSplitBill dinner diners demo_world))))
     = [(1, "me", 100, 1); (1, "Ana", 100, 0); (1, "Budi", 100, 0)].
Proof.
  split; [reflexivity|].
  destruct (addSplitBill_persists_all dinner diners demo_world eq_refl)
    as (_ & _ & _ & (rows & Hm & Hp) & _).
  rewrite Hm. cbn [demo_world]. rewrite map_app. rewrite Hp. reflexivity.
Defined.

(* ================================================================== *)
(** * Further properties: deleting a category and the month             *)
(* ================================================================== *)

Lemma filter_swap {A : Type} (p q : A -> bool) (l : list A) :
  filter p (filter q l) = filter q (filter p l).
Proof.
  induction l as [|x l IH]; [reflexivity|].
  cbn [filter]. destruct (q x) eqn:Eq, (p x) eqn:Ep; cbn [filter];
    rewrite ?Eq, ?Ep, IH; reflexivity.
Qed.

Section DeletingCategory.

Variable strftime_Ym : string -> option string.
Variable sql_sum : list float -> float.

(** X15: after a successful [deleteCategory] and a successful summary of
    a month, that month's [totalExpense] is the database's sum over the
    month's expense rows of before that were not filed under the deleted
    category, its [totalIncome] likewise over the income rows, and no
    cached category has the deleted id. *)
Theorem deleteCategory_lowers_month_totals (id : Z) (month : JsDate) (w : World) :
  succeed 6 (faults w) = true ->
  let w1 := snd (deleteCategory id w) in
  let w2 := snd (calculateMonthSummary strftime_Ym sql_sum (Some month) w1) in
  let ym := yearMonth_of month in
  let others := filter (fun t => negb (tx_category_id t =? id)) in
  month_expenses strftime_Ym ym (db w2) = others (month_expenses strftime_Ym ym (db w))
  /\ month_incomes strftime_Ym ym (db w2) = others (month_incomes strftime_Ym ym (db w))
  /\ totalExpense (store w2)
     = total_of sql_sum (others (month_expenses strftime_Ym ym (db w)))
  /\ totalIncome (store w2)
     = total_of sql_sum (others (month_incomes strftime_Ym ym (db w)))
  /\ Forall (fun cat => cat_id cat <> id) (categories (store w2)).
Proof.
  intros H w1 w2 ym others.
  assert (H3 : succeed 3 (faults w) = true) by (apply (succeed_weaken 3 6); [lia|exact H]).
  assert (E1 : w1 = after_refresh
                      (set_categories
                         (map category_of_row
                            (categories_tbl
                               (snd (sql_delete_category id
                                       (snd (sql_delete_transactions_of_category id
                                               (db w))))))))
                      (after_write
                         (snd (sql_delete_category id
                                 (snd (sql_delete_transactions_of_category id (db w)))))
                         (after_write
                            (snd (sql_delete_transactions_of_category id (db w))) w))).
  { subst w1. rewrite (deleteCategory_ok _ _ H3). reflexivity. }
  assert (H3' : succeed 3 (faults w1) = true).
  { rewrite E1. cbn. do 3 apply succeed_tl in H. exact H. }
  subst w2. rewrite (calculateMonthSummary_ok _ _ _ _ H3'). rewrite E1.
  cbn [snd after_refresh after_query after_write store db summarised set_summary
       totalExpense totalIncome categories set_categories target_date].
  fold ym. unfold month_expenses, month_incomes, others.
  cbn [sql_delete_category sql_delete_transactions_of_category snd
       with_categories_tbl with_transactions_tbl transactions_tbl categories_tbl].
  rewrite !(filter_swap _ (fun t => negb (tx_category_id t =? id))).
  split; [reflexivity|]. split; [reflexivity|].
  split; [reflexivity|]. split; [reflexivity|].
  apply Forall_forall. intros cat Hin.
  apply in_map_iff in Hin. destruct Hin as (c & <- & Hin).
  apply in_map_iff in Hin. destruct Hin as (r & <- & Hin).
  cbn [with_stats cat_id category_of_row].
  apply filter_In in Hin. destruct Hin as [_ Hin].
  apply negb_true_iff in Hin. apply Z.eqb_neq in Hin. exact Hin.
Qed.

End DeletingCategory.

(** X15 (witness): deleting Food from the demo world takes the lunch out
    of June and leaves the bus fare. *)
Lemma deleteCategory_lowers_month_totals_witness :
  succeed 6 (faults demo_world) = true
  /\ totalExpense
       (store (snd (calculateMonthSummary iso_strftime_Ym sum_in_order (Some june)
                      (snd (deleteCategory 1 demo_world)))))
     = 150%float.
Proof.
  split; [reflexivity|].
  destruct (deleteCategory_lowers_month_totals iso_strftime_Ym sum_in_order 1 june
              demo_world eq_refl) as (_ & _ & H & _).
  exact (eq_trans H eq_refl).
Defined.

(* ================================================================== *)
(** * Further properties: the month key                                 *)
(* ================================================================== *)

Lemma String_of_Z_inj (a b : Z) : String_of_Z a = String_of_Z b -> a = b.
Proof.
  unfold String_of_Z. intros H.
  assert (Hnorm : forall z, Z.to_int z <> Decimal.Pos Decimal.Nil
                            /\ Z.to_int z <> Decimal.Neg Decimal.Nil).
  { intros z. pose proof (DecimalZ.to_of (Z.to_int z)) as Hn.
    rewrite DecimalZ.of_to in Hn.
    split; intros E; rewrite E in Hn; discriminate Hn. }
  apply DecimalZ.to_int_inj.
  assert (Some (Z.to_int a) = Some (Z.to_int b)) as Hs; [|congruence].
  rewrite <- (NilZero.isi (Z.to_int a)), <- (NilZero.isi (Z.to_int b));
    try apply Hnorm.
  rewrite H. reflexivity.
Qed.

Lemma four_digits (y : Z) :
  1000 <= y <= 9999 -> String.length (String_of_Z y) = 4%nat.
Proof.
  intros Hy.
  assert (Hall : forallb (fun a =>
                   forallb (fun r => Nat.eqb (String.length
                                                (String_of_Z (1000 * Z.of_nat a
                                                              + Z.of_nat r))) 4)
                           (seq 0 1000))
                         (seq 1 9) = true) by (vm_compute; reflexivity).
  rewrite forallb_forall in Hall.
  pose proof (Z.div_mod y 1000 ltac:(lia)) as Hdm.
  pose proof (Z.mod_pos_bound y 1000 ltac:(lia)) as Hmod.
  set (q := y / 1000) in *. set (r := y mod 1000) in *.
  assert (Hq : 1 <= q <= 9) by lia.
  specialize (Hall (Z.to_nat q)). rewrite forallb_forall in Hall.
  specialize (Hall ltac:(apply in_seq; lia) (Z.to_nat r) ltac:(apply in_seq; lia)).
  rewrite !Z2Nat.id in Hall by lia.
  rewrite Hdm. apply Nat.eqb_eq. exact Hall.
Qed.

Lemma month_cases (m : Z) :
  0 <= m <= 11 ->
  In m [0; 1; 2; 3; 4; 5; 6; 7; 8; 9; 10; 11].
Proof. intros H. cbn. lia. Qed.

Lemma two_digits (m : Z) :
  0 <= m <= 11 -> String.length (padStart2 (String_of_Z (m + 1))) = 2%nat.
Proof.
  intros H. apply month_cases in H. cbn [In] in H.
  repeat (destruct H as [<-|H]; [reflexivity|]). destruct H.
Qed.

Lemma two_digits_inj (m1 m2 : Z) :
  0 <= m1 <= 11 -> 0 <= m2 <= 11 ->
  padStart2 (String_of_Z (m1 + 1)) = padStart2 (String_of_Z (m2 + 1)) -> m1 = m2.
Proof.
  intros H1 H2. apply month_cases in H1, H2. cbn [In] in H1, H2.
  repeat (destruct H1 as [<-|H1]; [|]);
    try (destruct H1);
    repeat (destruct H2 as [<-|H2]; [|]);
    try (destruct H2);
    vm_compute; intros E; first [reflexivity|discriminate E].
Qed.

Lemma append_inj_length (a1 a2 b1 b2 : string) :
  String.length a1 = String.length a2 ->
  (a1 ++ b1 = a2 ++ b2)%string -> a1 = a2 /\ b1 = b2.
Proof.
  revert a2. induction a1 as [|c a1 IH]; intros [|c2 a2] Hl H;
    cbn in Hl; try discriminate Hl.
  - cbn in H. auto.
  - cbn in H. injection H as -> H. injection Hl as Hl.
    destruct (IH a2 Hl H) as [-> ->]. auto.
Qed.

Lemma length_append (a b : string) :
  String.length (a ++ b) = (String.length a + String.length b)%nat.
Proof. induction a as [|c a IH]; cbn; [reflexivity|]. rewrite IH. reflexivity. Qed.

Lemma substring_skip (a b : string) (n m : nat) :
  substring (String.length a + n) m (a ++ b) = substring n m b.
Proof. induction a as [|c a IH]; cbn; [reflexivity|exact IH]. Qed.

Lemma substring_all (a : string) : substring 0 (String.length a) a = a.
Proof. induction a as [|c a IH]; cbn; [reflexivity|]. rewrite IH. reflexivity. Qed.

Lemma substring_prefix (a b : string) :
  substring 0 (String.length a) (a ++ b) = a.
Proof. induction a as [|c a IH]; cbn; [destruct b; reflexivity|]. rewrite IH. reflexivity. Qed.

(** X16: for a date with a four-digit year, the month key of
    [calculateMonthSummary] is the seven characters YYYY-MM, the month
    zero-padded to two digits, and two dates get the same key only when
    they have the same year and the same month. *)
Theorem yearMonth_of_shape (d : JsDate) :
  four_digit_year d ->
  String.length (yearMonth_of d) = 7%nat
  /\ substring 0 4 (yearMonth_of d) = String_of_Z (getFullYear d)
  /\ substring 4 1 (yearMonth_of d) = "-"
  /\ substring 5 2 (yearMonth_of d) = padStart2 (String_of_Z (getMonth d + 1))
  /\ (forall d', four_digit_year d' -> yearMonth_of d' = yearMonth_of d ->
                 getFullYear d' = getFullYear d /\ getMonth d' = getMonth d).
Proof.
  intros [Hy Hm].
  pose proof (four_digits _ Hy) as Ly.
  pose proof (two_digits _ Hm) as Lm.
  unfold yearMonth_of.
  set (ys := String_of_Z (getFullYear d)) in *.
  set (mm := padStart2 (String_of_Z (getMonth d + 1))) in *.
  split; [rewrite !length_append, Ly, Lm; reflexivity|].
  split; [rewrite <- Ly; apply substring_prefix|].
  split.
  { change 4%nat with (4 + 0)%nat. rewrite <- Ly, substring_skip.
    cbn [append substring]. clear Lm. clearbody mm. destruct mm; reflexivity. }
  split.
  - change 5%nat with (4 + 1)%nat. rewrite <- Ly, substring_skip.
    cbn [append substring]. rewrite <- Lm. apply substring_all.
  - intros d' [Hy' Hm'] E.
    unfold yearMonth_of in E.
    apply append_inj_length in E; [|rewrite Ly; apply four_digits; exact Hy'].
    destruct E as [E1 E2]. apply String_of_Z_inj in E1.
    cbn [append] in E2. injection E2 as E2.
    apply two_digits_inj in E2; auto.
Qed.

(** X16 (witness): June 2024. *)
Lemma yearMonth_of_shape_witness :
  four_digit_year june /\ String.length (yearMonth_of june) = 7%nat.
Proof.
  assert (H : four_digit_year june) by (unfold four_digit_year; cbn; lia).
  split; [exact H|].
  exact (proj1 (yearMonth_of_shape june H)).
Defined.

(* ================================================================== *)
(** * Further properties: the saved language                            *)
(* ================================================================== *)

Lemma detect_hands_over (callback : string -> I18n.L unit) (e : I18n.Env) :
  I18n.returns callback ->
  I18n.detect callback e =
  callback (if hd false (I18n.storage_faults e) then "id"
            else I18n.or_id (I18n.items e I18n.LANGUAGE_KEY))
           (I18n.spent e).
Proof.
  intros Hret. unfold I18n.detect, I18n.try_catch, I18n.bind, I18n.getItem, I18n.spent.
  destruct (hd false (I18n.storage_faults e)); [reflexivity|].
  match goal with
  | |- context [callback ?l ?e1] =>
      pose proof (Hret l e1) as H; destruct (callback l e1) as [[[]|err] e2]
  end; [reflexivity|discriminate H].
Qed.

(** X17: the saved language makes the round trip: after
    [cacheUserLanguage lng] with a non-empty [lng] and a write that
    succeeds, [detect] with a read that succeeds hands [lng] to its
    callback.  A write that rejects is logged, not thrown, and leaves the
    storage as it was; a read that rejects, a missing item and an empty
    item all make [detect] hand over ['id']. *)
Theorem language_round_trip (callback : string -> I18n.L unit) (lng : string)
        (e : I18n.Env) :
  I18n.returns callback ->
  lng <> "" ->
  let e1 := snd (I18n.cacheUserLanguage lng e) in
  fst (I18n.cacheUserLanguage lng e) = Returned tt
  /\ (hd false (I18n.storage_faults e) = false ->
      hd false (tl (I18n.storage_faults e)) = false ->
      I18n.detect callback e1 = callback lng (I18n.spent e1))
  /\ (hd false (I18n.storage_faults e) = true ->
      I18n.items e1 = I18n.items e
      /\ I18n.log e1 = ("Error saving language:", "AsyncStorageError") :: I18n.log e)
  /\ (hd false (I18n.storage_faults e) = true ->
      I18n.detect callback e = callback "id" (I18n.spent e))
  /\ (hd false (I18n.storage_faults e) = false ->
      I18n.items e I18n.LANGUAGE_KEY = None
      \/ I18n.items e I18n.LANGUAGE_KEY = Some "" ->
      I18n.detect callback e = callback "id" (I18n.spent e)).
Proof.
  intros Hret Hlng e1. subst e1.
  unfold I18n.cacheUserLanguage, I18n.try_catch, I18n.setItem, I18n.console_error.
  destruct (hd false (I18n.storage_faults e)) eqn:E0; cbn [fst snd].
  - split; [reflexivity|]. split; [discriminate|]. split; [auto|].
    split; [|discriminate].
    intros _. rewrite (detect_hands_over _ _ Hret), E0. reflexivity.
  - split; [reflexivity|]. split; [|split; [discriminate|split; [discriminate|]]].
    + intros _ E1. rewrite (detect_hands_over _ _ Hret).
      cbn [I18n.storage_faults I18n.items]. rewrite E1.
      rewrite String.eqb_refl. cbn [I18n.or_id].
      destruct lng; [contradiction|reflexivity].
    + intros _ Hnone. rewrite (detect_hands_over _ _ Hret), E0.
      destruct Hnone as [-> | ->]; reflexivity.
Qed.

(** X17 (witness): English saved on a fresh install, then detected. *)
Lemma language_round_trip_witness :
  I18n.returns I18n.note
  /\ "en" <> ""
  /\ I18n.log (snd (I18n.detect I18n.note
                      (snd (I18n.cacheUserLanguage "en" I18n.fresh_install))))
     = [("detected", "en")].
Proof.
  assert (Hret : I18n.returns I18n.note) by (intros l e; reflexivity).
  assert (Hne : "en" <> "") by discriminate.
  split; [exact Hret|]. split; [exact Hne|].
  destruct (language_round_trip I18n.note "en" I18n.fresh_install Hret Hne)
    as (_ & H & _).
  cbv zeta in H. rewrite (H eq_refl eq_refl). reflexivity.
Defined.



(* ================================================================== *)
(** * Further properties: the screens' category lists                   *)
(* ================================================================== *)

Lemma filter_partition {A : Type} (p : A -> bool) (l : list A) :
  Permutation (filter p l ++ filter (fun x => negb (p x)) l) l.
Proof.
  induction l as [|x l IH]; [reflexivity|].
  cbn [filter]. destruct (p x); cbn [negb app].
  - constructor. exact IH.
  - rewrite <- Permutation_middle. constructor. exact IH.
Qed.

(** X19: the form and the smart-text modal sort the categories alike: for
    either type the form's [filteredCategories] is the modal's
    [categoryList] (a result without a type counting as an expense), a
    category without a type counts as an expense category, and the expense
    and income lists together hold every cached category exactly once. *)
Theorem category_lists_agree (categories : list Category) :
  (forall ty, Screens.filteredCategories ty categories
              = Screens.categoryList (Some ty) categories)
  /\ Screens.categoryList None categories
     = Screens.filteredCategories expense categories
  /\ Screens.expenseCategories categories
     = map cat_name (Screens.filteredCategories expense categories)
  /\ Screens.incomeCategories categories
     = map cat_name (Screens.filteredCategories income categories)
  /\ Permutation (Screens.filteredCategories income categories
                    ++ Screens.filteredCategories expense categories)
                 categories
  /\ (forall c, In c categories -> cat_category_type c = None ->
                In c (Screens.filteredCategories expense categories)).
Proof.
  assert (He : Screens.filteredCategories expense categories
               = filter (fun c => negb (type_is income (cat_category_type c)))
                        categories).
  { unfold Screens.filteredCategories. apply filter_ext.
    intros c. destruct (cat_category_type c) as [[|]|]; reflexivity. }
  assert (Hi : Screens.filteredCategories income categories
               = filter (fun c => type_is income (cat_category_type c)) categories).
  { unfold Screens.filteredCategories. apply filter_ext.
    intros c. destruct (cat_category_type c) as [[|]|]; reflexivity. }
  split; [intros [|]; [exact He|exact Hi]|].
  split; [symmetry; exact He|].
  split; [unfold Screens.expenseCategories; rewrite He; reflexivity|].
  split; [unfold Screens.incomeCategories; rewrite Hi; reflexivity|].
  split; [rewrite He, Hi; apply filter_partition|].
  intros c Hin Hty. rewrite He. apply filter_In. split; [exact Hin|].
  rewrite Hty. reflexivity.
Qed.

(** The guard [!x || x <= 0] lets through the numbers greater than 0. *)
Lemma positive_of_guard (x : float) :
  is_NaN x = false -> PrimFloat.leb x 0%float = false ->
  PrimFloat.ltb 0%float x = true.
Proof.
  unfold is_NaN. rewrite leb_spec, ltb_spec, eqb_spec.
  change (Prim2SF 0%float) with (S754_zero false).
  destruct (Prim2SF x) as [s|s| |s m e]; cbn; try discriminate;
    destruct s; cbn; try discriminate; auto.
Qed.

(** A rejected INSERT leaves the tables and the data fields as they
    were. *)
Lemma addTransaction_rejected (strftime_Ym : string -> option string)
      (sql_sum : list float -> float) (transaction : NewTransaction) (w : World) :
  hd false (faults w) = true ->
  db (snd (addTransaction strftime_Ym sql_sum transaction w)) = db w
  /\ data_fields (store (snd (addTransaction strftime_Ym sql_sum transaction w)))
     = data_fields (store w).
Proof.
  intros H.
  unfold addTransaction, try_catch_finally, try_catch, bind, runAsync, db_call, set,
    console_error.
  cbn [fst snd faults]. rewrite H. cbn. split; reflexivity.
Qed.

Lemma addExpense_returns (strftime_Ym : string -> option string)
      (sql_sum : list float -> float)
      (transaction : NewTransaction) (w : World) :
  fst (addExpense strftime_Ym sql_sum transaction w) = Returned tt.
Proof.
  exact (proj1 (proj1 (addTransaction_absorbs strftime_Ym sql_sum transaction w))).
Qed.

Section SmartTextGuards.

Variable strftime_Ym : string -> option string.
Variable sql_sum : list float -> float.
Variable trim : string -> string.
Variable toLowerCase : string -> string.
Variable toISOString : JsDate -> string.

(** X20: [handleParse] never throws.  On blank input, and only then, it
    returns at once without any alert.  It shows the success alert only
    when the parsed amount is a number greater than 0, the parsed name is
    not blank and a cached category of the parsed type (expense when none
    is given) has the parsed category name up to case; it has then called
    [addExpense] with that category's id, the parsed amount and name, and
    that type.  Since [addExpense] swallows a database failure, the
    success alert is also shown when the INSERT was rejected and nothing
    was stored.  In every other case it ends with one of the four error
    alerts and the store and the database are untouched. *)
Theorem handleParse_guards (input : string)
        (parsed : Outcome (option Screens.ParseResult)) (w : World) :
  let run := Screens.handleParse strftime_Ym sql_sum trim toLowerCase toISOString
                                 input parsed w in
  (exists verdict, fst run = Returned verdict)
  /\ (fst run = Returned Screens.Ignored <-> trim input = "")
  /\ (forall transaction, fst run = Returned (Screens.Success transaction) ->
      exists result category,
        parsed = Returned (Some result)
        /\ is_NaN (Screens.pr_amount result) = false
        /\ PrimFloat.ltb 0%float (Screens.pr_amount result) = true
        /\ trim (Screens.pr_name result) <> ""
        /\ In category (Screens.categoryList (Screens.pr_type result)
                                             (categories (store w)))
        /\ toLowerCase (cat_name category) = toLowerCase (Screens.pr_category result)
        /\ transaction
           = mkNewTransaction (cat_id category) (Screens.pr_amount result)
                              (toISOString (clock w)) (Screens.pr_name result)
                              (Some (match Screens.pr_type result with
                                     | Some ty => ty
                                     | None => expense
                                     end))
                              None
        /\ snd run = snd (addExpense strftime_Ym sql_sum transaction w))
  /\ (forall transaction, fst run = Returned (Screens.Success transaction) ->
      hd false (faults w) = true ->
      db (snd run) = db w
      /\ data_fields (store (snd run)) = data_fields (store w))
  /\ ((forall transaction, fst run <> Returned (Screens.Success transaction)) ->
      snd run = w
      /\ (trim input <> "" ->
          fst run = Returned Screens.ParseError
          \/ fst run = Returned Screens.InvalidAmount
          \/ fst run = Returned Screens.EmptyName
          \/ fst run = Returned Screens.CategoryNotFound)).
Proof.
  cbv zeta. unfold Screens.handleParse, bind, get, new_Date, ret.
  destruct (String.eqb_spec (trim input) "") as [Hblank|Hblank].
  { cbn [fst snd]. split; [eexists; reflexivity|]. split; [tauto|].
    split; [discriminate|]. split; [discriminate|].
    intros _. split; [reflexivity|]. intros Hn. destruct (Hn Hblank). }
  assert (Halert : forall verdict : Screens.Verdict,
             verdict = Screens.ParseError \/ verdict = Screens.InvalidAmount
             \/ verdict = Screens.EmptyName \/ verdict = Screens.CategoryNotFound ->
             (exists v, Returned verdict = Returned v)
             /\ (Returned verdict = Returned Screens.Ignored <-> trim input = "")
             /\ (forall transaction,
                    Returned verdict = Returned (Screens.Success transaction) ->
                    exists result category,
                      parsed = Returned (Some result)
                      /\ is_NaN (Screens.pr_amount result) = false
                      /\ PrimFloat.ltb 0%float (Screens.pr_amount result) = true
                      /\ trim (Screens.pr_name result) <> ""
                      /\ In category (Screens.categoryList (Screens.pr_type result)
                                                           (categories (store w)))
                      /\ toLowerCase (cat_name category)
                         = toLowerCase (Screens.pr_category result)
                      /\ transaction
                         = mkNewTransaction (cat_id category) (Screens.pr_amount result)
                             (toISOString (clock w)) (Screens.pr_name result)
                             (Some (match Screens.pr_type result with
                                    | Some ty => ty
                                    | None => expense
                                    end))
                             None
                      /\ w = snd (addExpense strftime_Ym sql_sum transaction w))
             /\ (forall transaction,
                    Returned verdict = Returned (Screens.Success transaction) ->
                    hd false (faults w) = true ->
                    db w = db w /\ data_fields (store w) = data_fields (store w))
             /\ ((forall transaction,
                     Returned verdict <> Returned (Screens.Success transaction)) ->
                 w = w
                 /\ (trim input <> "" ->
                     Returned verdict = Returned Screens.ParseError
                     \/ Returned verdict = Returned Screens.InvalidAmount
                     \/ Returned verdict = Returned Screens.EmptyName
                     \/ Returned verdict = Returned Screens.CategoryNotFound))).
  { intros verdict Hv.
    split; [eexists; reflexivity|].
    split; [split; [intros E; injection E as ->;
                    destruct Hv as [Hv|[Hv|[Hv|Hv]]]; discriminate Hv
                   |intros E; destruct (Hblank E)]|].
    split; [intros t E; injection E as ->;
            destruct Hv as [Hv|[Hv|[Hv|Hv]]]; discriminate Hv|].
    split; [intros t E; injection E as ->;
            destruct Hv as [Hv|[Hv|[Hv|Hv]]]; discriminate Hv|].
    intros _. split; [reflexivity|]. intros _.
    destruct Hv as [-> | [-> | [-> | ->]]]; auto. }
  destruct parsed as [[result|]|err]; cbn [fst snd];
    try (apply Halert; auto).
  destruct (falsy (Screens.pr_amount result)
            || PrimFloat.leb (Screens.pr_amount result) 0%float) eqn:Ea;
    cbn [fst snd]; [apply Halert; auto|].
  destruct (String.eqb (Screens.pr_name result) ""
            || String.eqb (trim (Screens.pr_name result)) "") eqn:En;
    cbn [fst snd]; [apply Halert; auto|].
  cbn beta iota.
  destruct (find _ (Screens.categoryList (Screens.pr_type result) (categories (store w))))
    as [category|] eqn:Ef; cbn [fst snd]; [|apply Halert; auto].
  clear Halert.
  match goal with
  | |- context [addExpense strftime_Ym sql_sum ?t w] =>
      pose proof (addExpense_returns strftime_Ym sql_sum t w) as Hret;
      pose proof (addTransaction_rejected strftime_Ym sql_sum t w) as Hrej;
      change (addTransaction strftime_Ym sql_sum t w)
        with (addExpense strftime_Ym sql_sum t w) in Hrej;
      destruct (addExpense strftime_Ym sql_sum t w) as [[[]|e] w'] eqn:Eadd
  end; cbn [fst snd] in *; [|discriminate Hret].
  split; [eexists; reflexivity|].
  split; [split; [discriminate|intros E; destruct (Hblank E)]|].
  split; [|split].
  - intros transaction Ht. injection Ht as <-.
    exists result, category.
    apply orb_false_iff in Ea. destruct Ea as [Ef0 Ea].
    apply orb_false_iff in Ef0. destruct Ef0 as [_ Hnan].
    apply orb_false_iff in En. destruct En as [_ En]. apply String.eqb_neq in En.
    apply find_some in Ef. destruct Ef as [Hin Hname]. apply String.eqb_eq in Hname.
    split; [reflexivity|]. split; [exact Hnan|].
    split; [apply positive_of_guard; assumption|].
    split; [exact En|]. split; [exact Hin|]. split; [exact Hname|].
    split; [reflexivity|]. rewrite Eadd. reflexivity.
  - intros transaction _ Hfirst. exact (Hrej Hfirst).
  - intros Hnot. exfalso. apply (Hnot _ eq_refl).
Qed.

End SmartTextGuards.

(** X19 (witness): the three demo categories, one of them for income. *)
Lemma category_lists_agree_witness :
  Screens.incomeCategories (categories (store demo_world)) = ["Work"]
  /\ Screens.expenseCategories (categories (store demo_world)) = ["Food"; "Transport"].
Proof.
  destruct (category_lists_agree (categories (store demo_world)))
    as (_ & _ & He & Hi & _).
  rewrite He, Hi. split; reflexivity.
Defined.

(** X20 (witness): "coffee 25" parsed as an untyped purchase under Food,
    on the demo world; and the same with the database rejecting the
    INSERT: the success alert again, and the tables as they were. *)
Lemma handleParse_guards_witness :
  let parsed := Returned (Some (Screens.mkParseResult 25 "coffee" "Food" None)) in
  let coffee := mkNewTransaction 1 25 "2024-06-15T05:00:00.000Z" "coffee"
                                 (Some expense) None in
  let run := Screens.handleParse iso_strftime_Ym sum_in_order Screens.plain
                                 Screens.plain Screens.noon "coffee 25" parsed in
  fst (run demo_world) = Returned (Screens.Success coffee)
  /\ (exists result category,
         parsed = Returned (Some result)
         /\ PrimFloat.ltb 0%float (Screens.pr_amount result) = true
         /\ In category (categories (store demo_world))
         /\ cat_id category = 1)
  /\ fst (run (with_faults [true] demo_world)) = Returned (Screens.Success coffee)
  /\ hd false (faults (with_faults [true] demo_world)) = true
  /\ db (snd (run (with_faults [true] demo_world))) = db demo_world.
Proof.
  cbv zeta.
  assert (Hrun : fst (Screens.handleParse iso_strftime_Ym sum_in_order Screens.plain
                        Screens.plain Screens.noon "coffee 25"
                        (Returned (Some (Screens.mkParseResult 25 "coffee" "Food" None)))
                        demo_world)
                 = Returned (Screens.Success
                               (mkNewTransaction 1 25 "2024-06-15T05:00:00.000Z" "coffee"
                                  (Some expense) None)))
    by (vm_compute; reflexivity).
  assert (Hrun' : fst (Screens.handleParse iso_strftime_Ym sum_in_order Screens.plain
                         Screens.plain Screens.noon "coffee 25"
                         (Returned (Some (Screens.mkParseResult 25 "coffee" "Food" None)))
                         (with_faults [true] demo_world))
                  = Returned (Screens.Success
                                (mkNewTransaction 1 25 "2024-06-15T05:00:00.000Z" "coffee"
                                   (Some expense) None)))
    by (vm_compute; reflexivity).
  split; [exact Hrun|].
  destruct (handleParse_guards iso_strftime_Ym sum_in_order Screens.plain Screens.plain
              Screens.noon "coffee 25"
              (Returned (Some (Screens.mkParseResult 25 "coffee" "Food" None)))
              demo_world) as (_ & _ & H & _).
  destruct (H _ Hrun) as (result & category & Hp & _ & Ha & _ & Hin & _ & Ht & _).
  split.
  { exists result, category. split; [exact Hp|]. split; [exact Ha|].
    split.
    - unfold Screens.categoryList in Hin.
      destruct (type_is income (Screens.pr_type result));
        apply filter_In in Hin; tauto.
    - injection Ht as Hid _. symmetry. exact Hid. }
  split; [exact Hrun'|]. split; [reflexivity|].
  destruct (handleParse_guards iso_strftime_Ym sum_in_order Screens.plain Screens.plain
              Screens.noon "coffee 25"
              (Returned (Some (Screens.mkParseResult 25 "coffee" "Food" None)))
              (with_faults [true] demo_world)) as (_ & _ & _ & Hrej & _).
  exact (proj1 (Hrej _ Hrun' eq_refl)).
Defined.

(* ================================================================== *)
(** * Further properties: deleting a split bill                         *)
(* ================================================================== *)

(** X21: when its two database calls succeed, [deleteSplitBill] removes
    from [split_bills] exactly the rows with that id, and the cached split
    bills are then the remaining rows, newest first. *)
Theorem deleteSplitBill_removes (id : Z) (w : World) :
  succeed 2 (faults w) = true ->
  let w' := snd (deleteSplitBill id w) in
  fst (deleteSplitBill id w) = Returned tt
  /\ (forall b, In b (split_bills_tbl (db w'))
                <-> In b (split_bills_tbl (db w)) /\ sb_id b <> id)
  /\ (forall b, In b (splitBills (store w'))
                <-> In b (split_bills_tbl (db w)) /\ sb_id b <> id)
  /\ StronglySorted newer_bill (splitBills (store w')).
Proof.
  intros H w'. subst w'.
  apply succeed_S in H. destruct H as [H1 H].
  apply succeed_S in H. destruct H as [H2 _].
  unfold deleteSplitBill, try_catch, bind, runAsync, db_call, get.
  rewrite H1. cbn [fst snd]. rewrite fetchSplitBills_run.
  cbn [fst snd faults]. rewrite H2.
  cbn [after_refresh store db set_splitBills splitBills sql_delete_split_bill snd].
  unfold sql_select_split_bills.
  cbn [with_split_bills_tbl split_bills_tbl].
  split; [reflexivity|]. split; [|split].
  - intros b. rewrite filter_In, negb_true_iff, Z.eqb_neq. reflexivity.
  - intros b. rewrite in_order_by, filter_In, negb_true_iff, Z.eqb_neq. reflexivity.
  - apply (StronglySorted_weaken (fun a b => bill_first a b = true));
      [intros x y; apply bill_first_iff|].
    apply order_by_sorted; [apply bill_first_total|apply bill_first_trans].
Qed.

(** X21 (witness): the dinner added to the demo world and deleted again. *)
Lemma deleteSplitBill_removes_witness :
  let w := snd (addSplitBill dinner diners demo_world) in
  succeed 2 (faults w) = true
  /\ splitBills (store w) = [mkSplitBill 1 "2024-06-20" "Dinner" 300 None None]
  /\ splitBills (store (snd (deleteSplitBill 1 w))) = [].
Proof.
  cbv zeta. split; [reflexivity|]. split; [reflexivity|].
  destruct (deleteSplitBill_removes 1 (snd (addSplitBill dinner diners demo_world))
              eq_refl) as (_ & _ & H & _).
  cbv zeta in H.
  destruct (splitBills (store (snd (deleteSplitBill 1
                                      (snd (addSplitBill dinner diners demo_world))))))
    as [|b l]; [reflexivity|].
  exfalso. destruct (proj1 (H b) (or_introl eq_refl)) as [Hin Hne].
  destruct Hin as [<-|[]]. apply Hne. reflexivity.
Defined.

(* ================================================================== *)
(** * Further properties: rows the recent list does not show            *)
(* ================================================================== *)

(** X22: the recent transactions left behind by [deleteCategory] are
    gone after the next successful [fetchRecentTransactions]: once both
    have succeeded, no cached transaction belongs to the deleted
    category. *)
Theorem deleteCategory_then_fetch (id : Z) (w : World) :
  succeed 4 (faults w) = true ->
  let w' := snd (fetchRecentTransactions (snd (deleteCategory id w))) in
  forall t', In t' (transactions (store w')) -> tx_category_id (t_row t') <> id.
Proof.
  intros H w' t' Hin. subst w'.
  assert (H3 : succeed 3 (faults w) = true) by (apply (succeed_weaken 3 4); [lia|exact H]).
  rewrite (deleteCategory_ok _ _ H3) in Hin.
  rewrite fetchRecentTransactions_run in Hin.
  do 3 apply succeed_tl in H. apply succeed_S in H. destruct H as [H4 _].
  cbn [snd after_refresh after_write faults] in Hin. rewrite H4 in Hin.
  cbn [store db set_transactions transactions] in Hin.
  apply in_sql_recent_transactions in Hin. apply in_sql_join in Hin.
  destruct Hin as (t & c & Ht & _ & _ & ->). cbn [joined t_row].
  cbn [sql_delete_category sql_delete_transactions_of_category snd
       with_categories_tbl with_transactions_tbl transactions_tbl] in Ht.
  apply filter_In in Ht. destruct Ht as [_ Ht].
  apply negb_true_iff in Ht. apply Z.eqb_neq in Ht. exact Ht.
Qed.

(** X22 (witness): Food deleted from the demo world, then a re-fetch:
    the lunch is no longer listed. *)
Lemma deleteCategory_then_fetch_witness :
  succeed 4 (faults demo_world) = true
  /\ map (fun t' => tx_id (t_row t'))
         (transactions (store (snd (fetchRecentTransactions
                                      (snd (deleteCategory 1 demo_world))))))
     = [3; 2]
  /\ tx_category_id bus <> 1.
Proof.
  split; [reflexivity|]. split; [reflexivity|].
  apply (deleteCategory_then_fetch 1 demo_world eq_refl
           (mkTransaction bus (Some "Transport") (Some "emoji:3") (Some "#00f"))).
  left. reflexivity.
Defined.

Section Orphans.

Variable strftime_Ym : string -> option string.
Variable sql_sum : list float -> float.

(** X23: the store does not check the category of a new transaction: a
    successful [addTransaction] under a [category_id] that no stored
    category has still stores the row and, when the row is dated in the
    current month, has it among the rows that the published totals of the
    month are the sums of; but the recent transactions never show it. *)
Theorem addTransaction_orphan_hidden (transaction : NewTransaction) (w : World) :
  succeed 5 (faults w) = true ->
  (forall c, In c (categories_tbl (db w)) -> cr_id c <> nt_category_id transaction) ->
  let w' := snd (addTransaction strftime_Ym sql_sum transaction w) in
  let ym := yearMonth_of (clock w) in
  let row := mkTxRow (next_rowid (map tx_id (transactions_tbl (db w))))
               (nt_category_id transaction) (nt_amount transaction)
               (nt_date transaction) (nt_note transaction)
               (nt_image_uri transaction)
               (Some (match nt_type transaction with
                      | Some ty => ty
                      | None => expense
                      end))
               None in
  In row (transactions_tbl (db w'))
  /\ (forall t', In t' (transactions (store w')) -> t_row t' <> row)
  /\ totalExpense (store w') = total_of sql_sum (month_expenses strftime_Ym ym (db w'))
  /\ totalIncome (store w') = total_of sql_sum (month_incomes strftime_Ym ym (db w'))
  /\ (in_month strftime_Ym ym row = true ->
      In row (month_expenses strftime_Ym ym (db w'))
      \/ In row (month_incomes strftime_Ym ym (db w'))).
Proof.
  intros H Horphan w' ym row. subst w'. rewrite (addTransaction_ok _ _ _ _ H).
  cbn [snd after_set after_refresh after_query after_write store db
       summarised set_summary set_isLoading set_transactions
       totalExpense totalIncome transactions
       sql_insert_transaction with_transactions_tbl transactions_tbl].
  fold ym. unfold month_expenses, month_incomes, or_expense.
  cbn [with_transactions_tbl transactions_tbl]. fold row.
  split; [apply in_or_app; right; left; reflexivity|]. split; [|split; [|split]].
  - intros t' Hin Heq.
    apply in_sql_recent_transactions in Hin. apply in_sql_join in Hin.
    destruct Hin as (t & c & _ & Hc & He & ->). cbn [joined t_row] in Heq. subst t.
    cbn [categories_tbl] in Hc. apply (Horphan c Hc). symmetry. exact He.
  - reflexivity.
  - reflexivity.
  - intros Hm. rewrite !filter_In.
    assert (Hrow : In row (transactions_tbl (db w) ++ [row]))
      by (apply in_or_app; right; left; reflexivity).
    unfold expense_in_month, income_in_month. rewrite Hm. cbn [andb].
    subst row. cbn [tx_type].
    destruct (nt_type transaction) as [[|]|]; cbn; auto.
Qed.

End Orphans.

(** X23 (witness): a June purchase filed under category 9, which the demo
    database does not have. *)
Lemma addTransaction_orphan_hidden_witness :
  let stray := mkNewTransaction 9 40 "2024-06-19T05:00:00.000Z" "stray" None None in
  succeed 5 (faults demo_world) = true
  /\ In (mkTxRow 4 9 40 "2024-06-19T05:00:00.000Z" "stray" None (Some expense) None)
        (transactions_tbl (db (snd (addTransaction iso_strftime_Ym sum_in_order stray
                                      demo_world))))
  /\ totalExpense (store (snd (addTransaction iso_strftime_Ym sum_in_order stray
                                 demo_world)))
     = 50190%float
  /\ List.length (transactions
                    (store (snd (addTransaction iso_strftime_Ym sum_in_order stray
                                   demo_world))))
     = 3%nat.
Proof.
  cbv zeta. split; [reflexivity|].
  destruct (addTransaction_orphan_hidden iso_strftime_Ym sum_in_order
              (mkNewTransaction 9 40 "2024-06-19T05:00:00.000Z" "stray" None None)
              demo_world eq_refl) as (Hin & _ & HE & _).
  - intros c [<-|[<-|[<-|[]]]]; discriminate.
  - split; [exact Hin|]. split; [exact (eq_trans HE eq_refl)|reflexivity].
Defined.
